(** * The SMS booking bot: a shallow embedding of [simple_bot_PRODUCTION.py]

    The development follows the Python source function by function.  The
    record store (the SQL tables) is a record of row lists, every handler
    is a function from the store to a new store and the things it sent.

    Conventions.
    - A Python [str] is a [string]; the model covers 7-bit ASCII text, where
      [lower], [upper], [title], the regex classes [\w], [\s], [\d] and
      [str.strip] are the tables written out below.  A character outside
      ASCII is carried along unchanged.
    - A value that may be [None] (a dict entry, a nullable SQL column) is an
      [option string]; Python truthiness of such a value is [truthy].
    - Rows of a table are kept in insertion order, and a [SELECT] without
      [ORDER BY] returns them in that order.
    - External services (the two tone rewriters, the Twilio transport, the
      clock and the localized date parser) are section variables.
    - Queries answer; the one query whose failure the program turns into
      an answer of its own, the lookup of [is_number_blocked], is given to
      the handler as rows or as a raised error. *)

From Stdlib Require Import List String Ascii ZArith Bool Lia Arith.
Import ListNotations.
Local Open Scope string_scope.

(** ** Python strings *)

Module Py.

Definition code (c : ascii) : nat := nat_of_ascii c.

Definition between (lo hi : nat) (c : ascii) : bool :=
  (lo <=? code c)%nat && (code c <=? hi)%nat.

Definition is_upper : ascii -> bool := between 65 90.
Definition is_lower : ascii -> bool := between 97 122.
Definition is_alpha (c : ascii) : bool := is_upper c || is_lower c.
Definition is_digit : ascii -> bool := between 48 57.

(** [\w] of the [re] module, on ASCII. *)
Definition is_word (c : ascii) : bool :=
  is_alpha c || is_digit c || (code c =? 95)%nat.

(** [\s] and [str.isspace], on ASCII: TAB..CR, FS..US and the blank. *)
Definition is_space (c : ascii) : bool :=
  between 9 13 c || between 28 32 c.

Definition lower_char (c : ascii) : ascii :=
  if is_upper c then ascii_of_nat (code c + 32) else c.

Definition upper_char (c : ascii) : ascii :=
  if is_lower c then ascii_of_nat (code c - 32) else c.

Fixpoint smap (f : ascii -> ascii) (s : string) : string :=
  match s with
  | EmptyString => EmptyString
  | String c t => String (f c) (smap f t)
  end.

Definition lower : string -> string := smap lower_char.
Definition upper : string -> string := smap upper_char.

Definition len (s : string) : Z := Z.of_nat (String.length s).

(** [s.startswith(p)] *)
Definition startswith (s p : string) : bool := String.prefix p s.

(** [sub in s] *)
Fixpoint contains (sub s : string) : bool :=
  String.prefix sub s ||
  match s with
  | EmptyString => false
  | String _ t => contains sub t
  end.

(** [s[n:]] and [s[:n]] for a non-negative literal [n]. *)
Fixpoint drop (n : nat) (s : string) : string :=
  match n, s with
  | O, _ => s
  | S _, EmptyString => EmptyString
  | S n', String _ t => drop n' t
  end.

Fixpoint take (n : nat) (s : string) : string :=
  match n, s with
  | O, _ => EmptyString
  | S _, EmptyString => EmptyString
  | S n', String c t => String c (take n' t)
  end.

Fixpoint rev_onto (s acc : string) : string :=
  match s with
  | EmptyString => acc
  | String c t => rev_onto t (String c acc)
  end.

Definition srev (s : string) : string := rev_onto s EmptyString.

Fixpoint lstrip_by (p : ascii -> bool) (s : string) : string :=
  match s with
  | EmptyString => EmptyString
  | String c t => if p c then lstrip_by p t else s
  end.

Definition strip_by (p : ascii -> bool) (s : string) : string :=
  srev (lstrip_by p (srev (lstrip_by p s))).

(** [s.strip()] *)
Definition strip : string -> string := strip_by is_space.

Definition mem_char (chars : string) (c : ascii) : bool :=
  existsb (Ascii.eqb c) (list_ascii_of_string chars).

(** [s.strip(chars)] *)
Definition strip_chars (chars : string) : string -> string :=
  strip_by (mem_char chars).

(** [s.title()]: a cased letter is upper-cased when the character before
    it is not a cased letter, and lower-cased otherwise. *)
Fixpoint title_from (prev_cased : bool) (s : string) : string :=
  match s with
  | EmptyString => EmptyString
  | String c t =>
      if is_alpha c
      then String (if prev_cased then lower_char c else upper_char c)
                  (title_from true t)
      else String c (title_from false t)
  end.

Definition title : string -> string := title_from false.

(** [sep.join(xs)] *)
Fixpoint join (sep : string) (xs : list string) : string :=
  match xs with
  | [] => EmptyString
  | [x] => x
  | x :: rest => x ++ sep ++ join sep rest
  end.

(** Truthiness of a value that is a [str] or [None]. *)
Definition truthy (v : option string) : bool :=
  match v with
  | Some (String _ _) => true
  | _ => false
  end.

(** [a or b] *)
Definition por (a b : option string) : option string :=
  if truthy a then a else b.

(** An f-string field: [None] is rendered as the text None. *)
Definition fmt (v : option string) : string :=
  match v with
  | Some s => s
  | None => "None"
  end.

Definition opt_eqb (v : option string) (s : string) : bool :=
  match v with
  | Some x => String.eqb x s
  | None => false
  end.

Definition nl : string := String (ascii_of_nat 10) EmptyString.

End Py.

(** ** The fragment of [re] the program uses

    A backtracking matcher in continuation-passing style, with the
    priorities of Python's engine: alternatives left to right, greedy
    repetition, the leftmost start position first. *)

Module Re.

Inductive regex : Type :=
| Eps : regex
| Cls : (ascii -> bool) -> regex
| Cat : regex -> regex -> regex
| Alt : regex -> regex -> regex
| Star : regex -> regex
| Grp : nat -> regex -> regex
| Bnd : regex.

Definition Plus (r : regex) : regex := Cat r (Star r).
Definition Opt (r : regex) : regex := Alt r Eps.

(** A literal, as written or under [re.IGNORECASE]. *)
Fixpoint Lit (s : string) : regex :=
  match s with
  | EmptyString => Eps
  | String c t => Cat (Cls (Ascii.eqb c)) (Lit t)
  end.

Fixpoint LitI (s : string) : regex :=
  match s with
  | EmptyString => Eps
  | String c t =>
      Cat (Cls (fun x => Ascii.eqb (Py.lower_char x) (Py.lower_char c))) (LitI t)
  end.

Fixpoint Alts (rs : list regex) : regex :=
  match rs with
  | [] => Cls (fun _ => false)
  | [r] => r
  | r :: rest => Alt r (Alts rest)
  end.

Definition digit : regex := Cls Py.is_digit.
Definition space : regex := Cls Py.is_space.
Definition word : regex := Cls Py.is_word.

Definition captures : Type := list (nat * string).

Fixpoint group (n : nat) (caps : captures) : option string :=
  match caps with
  | [] => None
  | (m, s) :: rest => if (m =? n)%nat then Some s else group n rest
  end.

Definition word_opt (c : option ascii) : bool :=
  match c with
  | Some x => Py.is_word x
  | None => false
  end.

Definition head_opt (s : string) : option ascii :=
  match s with
  | EmptyString => None
  | String c _ => Some c
  end.

Fixpoint last_opt (prev : option ascii) (s : string) : option ascii :=
  match s with
  | EmptyString => prev
  | String c t => last_opt (Some c) t
  end.

(** The text consumed between the suffix [s] and its own suffix [s']. *)
Definition consumed (s s' : string) : string :=
  Py.take (String.length s - String.length s') s.

Section Matcher.
Context {A : Type}.

(** [rmatch r prev s caps k]: match [r] at the head of [s], where [prev] is
    the character before it, and hand the rest to [k]. *)
Fixpoint rmatch (r : regex) (prev : option ascii) (s : string)
    (caps : captures)
    (k : option ascii -> string -> captures -> option A) : option A :=
  match r with
  | Eps => k prev s caps
  | Cls p =>
      match s with
      | String c t => if p c then k (Some c) t caps else None
      | EmptyString => None
      end
  | Cat r1 r2 =>
      rmatch r1 prev s caps (fun prev' s' caps' => rmatch r2 prev' s' caps' k)
  | Alt r1 r2 =>
      match rmatch r1 prev s caps k with
      | Some a => Some a
      | None => rmatch r2 prev s caps k
      end
  | Star r1 =>
      (fix loop (fuel : nat) (prev0 : option ascii) (s0 : string)
           (caps0 : captures) : option A :=
         match fuel with
         | O => k prev0 s0 caps0
         | S fuel' =>
             match rmatch r1 prev0 s0 caps0
                     (fun prev' s' caps' =>
                        if (String.length s' <? String.length s0)%nat
                        then loop fuel' prev' s' caps'
                        else None) with
             | Some a => Some a
             | None => k prev0 s0 caps0
             end
         end) (String.length s) prev s caps
  | Grp n r1 =>
      rmatch r1 prev s caps
        (fun prev' s' caps' => k prev' s' ((n, consumed s s') :: caps'))
  | Bnd =>
      if xorb (word_opt prev) (word_opt (head_opt s))
      then k prev s caps else None
  end.

End Matcher.

Record found : Type := Found {
  f_start : nat;
  f_text : string;
  f_caps : captures;
  f_rest : string
}.

Definition match_here (r : regex) (prev : option ascii) (s : string)
  : option (string * captures) :=
  rmatch r prev s [] (fun _ s' caps => Some (s', caps)).

(** [re.search(r, s)] *)
Fixpoint search_from (r : regex) (i : nat) (prev : option ascii) (s : string)
  : option found :=
  match match_here r prev s with
  | Some (s', caps) => Some (Found i (consumed s s') caps s')
  | None =>
      match s with
      | EmptyString => None
      | String c t => search_from r (S i) (Some c) t
      end
  end.

Definition search (r : regex) (s : string) : option found :=
  search_from r 0 None s.

Definition matches (r : regex) (s : string) : bool :=
  match search r s with Some _ => true | None => false end.

(** [re.sub(r, repl, s)] for a pattern that matches no empty string (all
    the patterns the program substitutes are of that kind). *)
Fixpoint sub_from (fuel : nat) (r : regex) (repl : string)
    (prev : option ascii) (s : string) : string :=
  match fuel with
  | O => s
  | S fuel' =>
      match match_here r prev s with
      | Some (s', _) =>
          if (String.length s' <? String.length s)%nat
          then repl ++ sub_from fuel' r repl (last_opt prev (consumed s s')) s'
          else match s with
               | EmptyString => EmptyString
               | String c t => String c (sub_from fuel' r repl (Some c) t)
               end
      | None =>
          match s with
          | EmptyString => EmptyString
          | String c t => String c (sub_from fuel' r repl (Some c) t)
          end
      end
  end.

Definition sub (r : regex) (repl s : string) : string :=
  sub_from (S (String.length s)) r repl None s.

End Re.

(** ** Lexicons and keyword detectors *)

Definition UNSAFE_TERMS : list string :=
  ["bbs"; "bareback"; "bb"; "no condom"; "raw"].

Definition PROFANITY_WORDS : list string :=
  ["fuck"; "shit"; "bitch"; "cunt"; "bastard"; "asshole"; "prick";
   "dick"; "cock"; "pussy"; "whore"; "slut"; "damn"; "hell"].

(** [re.search(r'\b' + re.escape(term) + r'\b', text)] *)
Definition whole_word (term text : string) : bool :=
  Re.matches (Re.Cat Re.Bnd (Re.Cat (Re.Lit term) Re.Bnd)) text.

Definition detect_unsafe_requests (message : string) : list string :=
  let message_lower := Py.lower message in
  filter (fun term => whole_word term message_lower) UNSAFE_TERMS.

Definition profanity_count (message : string) : nat :=
  let message_lower := Py.lower message in
  List.length (filter (fun w => whole_word w message_lower) PROFANITY_WORDS).

Definition detect_profanity (message : string) : bool :=
  (2 <=? profanity_count message)%nat.

Definition cancellation_keywords : list string :=
  ["cancel"; "can't make"; "cannot make"; "need to cancel";
   "have to cancel"; "not coming"; "won't make it";
   "reschedule"; "change booking"].

Definition is_cancellation (message : string) : bool :=
  let message_lower := Py.lower message in
  existsb (fun keyword => Py.contains keyword message_lower)
          cancellation_keywords.

(** ** Name extraction from a YES message *)

Definition name_fillers : list string := ["ok"; "yeah"; "yep"; "sure"].

Definition yes_word : Re.regex :=
  Re.Cat Re.Bnd (Re.Cat (Re.LitI "yes") Re.Bnd).

(** The three cleaning steps of [extract_name_from_yes_message]. *)
Definition clean_name (message_body : string) : string :=
  let message_clean := Py.strip message_body in
  let name := Py.strip (Re.sub yes_word "" message_clean) in
  let name := Re.sub (Re.Plus Re.space) " " name in
  Py.strip_chars ".,!?" name.

Definition extract_name_from_yes_message (message_body : string)
  : option string :=
  let name := clean_name message_body in
  if Py.truthy (Some name) && (2 <=? Py.len name)%Z
     && negb (existsb (String.eqb (Py.lower name)) name_fillers)
  then Some (Py.title name)
  else None.

(** ** Numbers in text *)

Module Num.
Local Open Scope Z_scope.

Definition digit_val (c : ascii) : Z := Z.of_nat (Py.code c) - 48.

(** [int(s)] for a string of decimal digits. *)
Definition int (s : string) : Z :=
  fold_left (fun acc c => 10 * acc + digit_val c) (list_ascii_of_string s) 0.

Definition digit_char (d : Z) : ascii := ascii_of_nat (Z.to_nat (48 + d)).

Fixpoint show_fuel (fuel : nat) (n : Z) (acc : string) : string :=
  match fuel with
  | O => acc
  | S fuel' =>
      let acc' := String (digit_char (n mod 10)) acc in
      if (n <? 10)%Z then acc' else show_fuel fuel' (n / 10) acc'
  end.

(** [str(n)] for a non-negative integer. *)
Definition show (n : Z) : string := show_fuel (S (Z.to_nat n)) n EmptyString.

(** The format [{n:02d}] and, for years, [%Y]. *)
Definition pad (width : nat) (n : Z) : string :=
  let s := show n in
  String.concat "" (repeat "0" (width - String.length s)) ++ s.

End Num.

(** ** The calendar arithmetic of [datetime] (proleptic Gregorian) *)

Module Cal.
Local Open Scope Z_scope.

Record date : Type := Date { year : Z; month : Z; day : Z }.

Definition is_leap (y : Z) : bool :=
  ((y mod 4 =? 0) && negb (y mod 100 =? 0) || (y mod 400 =? 0))%Z.

Definition days_in_month (y m : Z) : Z :=
  if (m =? 2)%Z then (if is_leap y then 29 else 28)
  else if ((m =? 4) || (m =? 6) || (m =? 9) || (m =? 11))%Z then 30 else 31.

(** The check behind [datetime(year, month, day)], which raises
    [ValueError] on anything else. *)
Definition valid (y m d : Z) : bool :=
  ((1 <=? m) && (m <=? 12) && (1 <=? d) && (d <=? days_in_month y m))%Z.

(** Days since 1970-01-01. *)
Definition to_days (dt : date) : Z :=
  let y := if (month dt <=? 2)%Z then year dt - 1 else year dt in
  let era := (y / 400)%Z in
  let yoe := (y - era * 400)%Z in
  let mp := if (month dt >? 2)%Z then month dt - 3 else month dt + 9 in
  let doy := ((153 * mp + 2) / 5 + day dt - 1)%Z in
  let doe := (yoe * 365 + yoe / 4 - yoe / 100 + doy)%Z in
  (era * 146097 + doe - 719468)%Z.

Definition of_days (z0 : Z) : date :=
  let z := (z0 + 719468)%Z in
  let era := (z / 146097)%Z in
  let doe := (z - era * 146097)%Z in
  let yoe := ((doe - doe / 1460 + doe / 36524 - doe / 146096) / 365)%Z in
  let doy := (doe - (365 * yoe + yoe / 4 - yoe / 100))%Z in
  let mp := ((5 * doy + 2) / 153)%Z in
  let d := (doy - (153 * mp + 2) / 5 + 1)%Z in
  let m := if (mp <? 10)%Z then mp + 3 else mp - 9 in
  let y := (yoe + era * 400)%Z in
  Date (if (m <=? 2)%Z then y + 1 else y) m d.

(** [d.weekday()]: Monday is 0. *)
Definition weekday (dt : date) : Z := ((to_days dt + 3) mod 7)%Z.

(** [d + timedelta(days=n)] *)
Definition add_days (dt : date) (n : Z) : date := of_days (to_days dt + n).

Definition day_names : list string :=
  ["Monday"; "Tuesday"; "Wednesday"; "Thursday"; "Friday"; "Saturday";
   "Sunday"].

(** [d.strftime('%A %d/%m/%Y')] *)
Definition strftime (dt : date) : string :=
  nth (Z.to_nat (weekday dt)) day_names "" ++ " " ++
  Num.pad 2 (day dt) ++ "/" ++ Num.pad 2 (month dt) ++ "/" ++
  Num.pad 4 (year dt).

End Cal.

(** ** Booking details *)

(** The dict of booking fields: a key that is absent and a key bound to
    [None] both read as [None] through [.get]. *)
Record Details : Type := mkDetails {
  city : option string;
  date : option string;
  time : option string;
  duration : option string;
  experience_type : option string;
  incall_outcall : option string;
  outcall_address : option string
}.

Definition no_details : Details :=
  mkDetails None None None None None None None.

Definition values (d : Details) : list (option string) :=
  [city d; date d; time d; duration d; experience_type d; incall_outcall d;
   outcall_address d].

(** [any(d.values())] *)
Definition any_value (d : Details) : bool := existsb Py.truthy (values d).

Definition CITY_TIMEZONES : list (string * string) :=
  [("Adelaide", "Australia/Adelaide");
   ("Sydney", "Australia/Sydney");
   ("Melbourne", "Australia/Sydney");
   ("Brisbane", "Australia/Brisbane");
   ("Perth", "Australia/Perth");
   ("Darwin", "Australia/Darwin");
   ("Hobart", "Australia/Hobart");
   ("Canberra", "Australia/Sydney");
   ("Gold Coast", "Australia/Brisbane");
   ("Newcastle", "Australia/Sydney")].

Fixpoint assoc (k : string) (m : list (string * string)) : option string :=
  match m with
  | [] => None
  | (k', v) :: rest => if String.eqb k k' then Some v else assoc k rest
  end.

Definition get_timezone_for_city (c : string) : string :=
  let city_normalized := Py.title (Py.strip c) in
  match assoc city_normalized CITY_TIMEZONES with
  | Some tz => tz
  | None => "Australia/Adelaide"
  end.

(** *** The patterns of the extractor *)

Definition d12 : Re.regex := Re.Cat Re.digit (Re.Opt Re.digit).
Definition d2 : Re.regex := Re.Cat Re.digit Re.digit.
Definition ampm : Re.regex := Re.Alt (Re.Lit "am") (Re.Lit "pm").

(** [(\d{1,2})[/-](\d{1,2})] *)
Definition date_pattern : Re.regex :=
  Re.Cat (Re.Grp 1 d12)
    (Re.Cat (Re.Cls (Py.mem_char "/-")) (Re.Grp 2 d12)).

(** [(\d{1,2}):(\d{2})\s?(am|pm)?] and [(\d{1,2})\s?(am|pm)] *)
Definition time_patterns : list Re.regex :=
  [Re.Cat (Re.Grp 1 d12)
     (Re.Cat (Re.Lit ":")
        (Re.Cat (Re.Grp 2 d2)
           (Re.Cat (Re.Opt Re.space) (Re.Opt (Re.Grp 3 ampm)))));
   Re.Cat (Re.Grp 1 d12) (Re.Cat (Re.Opt Re.space) (Re.Grp 2 ampm))].

(** [(\d+)\s*(hour|hr|min)] *)
Definition duration_pattern : Re.regex :=
  Re.Cat (Re.Grp 1 (Re.Plus Re.digit))
    (Re.Cat (Re.Star Re.space)
       (Re.Grp 2 (Re.Alts [Re.Lit "hour"; Re.Lit "hr"; Re.Lit "min"]))).

Definition street_types : list string :=
  ["Street"; "St"; "Road"; "Rd"; "Avenue"; "Ave"; "Drive"; "Dr"; "Lane";
   "Ln"; "Court"; "Ct"; "Place"; "Pl"].

Definition letters_spaces : Re.regex :=
  Re.Plus (Re.Cls (fun c => Py.is_alpha c || Py.is_space c)).

(** [\d+\s+[A-Za-z\s]+(?:Street|St|...|Pl),?\s*[A-Za-z\s]+,?\s*\d{4}],
    compiled with [re.IGNORECASE] *)
Definition address_pattern : Re.regex :=
  Re.Cat (Re.Plus Re.digit)
    (Re.Cat (Re.Plus Re.space)
       (Re.Cat letters_spaces
          (Re.Cat (Re.Alts (map Re.LitI street_types))
             (Re.Cat (Re.Opt (Re.Lit ","))
                (Re.Cat (Re.Star Re.space)
                   (Re.Cat letters_spaces
                      (Re.Cat (Re.Opt (Re.Lit ","))
                         (Re.Cat (Re.Star Re.space) (Re.Cat d2 d2))))))))).

Definition weekdays : list (string * Z) :=
  [("monday", 0); ("tuesday", 1); ("wednesday", 2); ("thursday", 3);
   ("friday", 4); ("saturday", 5); ("sunday", 6)]%Z.

Section Extractor.

(** [datetime.now(tz)], as a calendar date in the current timezone. *)
Variable today : Cal.date.

Definition parse_date_from_message (message_body : string)
  : option Cal.date :=
  let message_lower := Py.lower message_body in
  let by_name :=
    match find (fun dn => Py.contains (fst dn) message_lower) weekdays with
    | Some (_, day_num) =>
        let days_ahead := (day_num - Cal.weekday today)%Z in
        let days_ahead :=
          if (days_ahead <=? 0)%Z then (days_ahead + 7)%Z else days_ahead in
        Some (Cal.add_days today days_ahead)
    | None =>
        if Py.contains "today" message_lower then Some today
        else if Py.contains "tomorrow" message_lower
             then Some (Cal.add_days today 1)
             else None
    end in
  match Re.search date_pattern message_body with
  | Some m =>
      let d := Num.int (Py.fmt (Re.group 1 (Re.f_caps m))) in
      let mo := Num.int (Py.fmt (Re.group 2 (Re.f_caps m))) in
      let y := Cal.year today in
      if Cal.valid y mo d then Some (Cal.Date y mo d) else by_name
  | None => by_name
  end.

End Extractor.

(** One round of the loop of [parse_time_from_message]. *)
Definition parse_time_with (pattern : Re.regex) (message_body : string)
  : option (Z * Z) :=
  let message_lower := Py.lower message_body in
  match Re.search pattern message_lower with
  | Some m =>
      let hour := Num.int (Py.fmt (Re.group 1 (Re.f_caps m))) in
      let minute :=
        match Re.group 2 (Re.f_caps m) with
        | Some g =>
            if Py.truthy (Some g)
               && negb (String.eqb g "am" || String.eqb g "pm")
            then Num.int g else 0%Z
        | None => 0%Z
        end in
      let hour :=
        if Py.contains "am" message_lower
        then (if (hour =? 12)%Z then 0%Z else hour)
        else if Py.contains "pm" message_lower
             then (if (hour <? 12)%Z then (hour + 12)%Z else hour)
             else hour in
      if ((0 <=? hour) && (hour <=? 23) && (0 <=? minute) && (minute <=? 59))%Z
      then Some (hour, minute) else None
  | None => None
  end.

Definition parse_time_from_message (message_body : string)
  : option (Z * Z) :=
  fold_left
    (fun acc pattern =>
       match acc with
       | Some _ => acc
       | None => parse_time_with pattern message_body
       end)
    time_patterns None.

Definition show_time (hm : Z * Z) : string :=
  let (hour, minute) := hm in
  let period := if (hour <? 12)%Z then "AM" else "PM" in
  let display_hour := if (hour <=? 12)%Z then hour else (hour - 12)%Z in
  let display_hour := if (display_hour =? 0)%Z then 12%Z else display_hour in
  Num.show display_hour ++ ":" ++ Num.pad 2 minute ++ period.

Definition extract_booking_details (today : Cal.date) (message_body : string)
  : Details :=
  let lowered := Py.lower message_body in
  {| city :=
       find (fun c => Py.contains (Py.lower c) lowered)
            (map fst CITY_TIMEZONES);
     date :=
       option_map Cal.strftime (parse_date_from_message today message_body);
     time := option_map show_time (parse_time_from_message message_body);
     duration := option_map Re.f_text (Re.search duration_pattern lowered);
     experience_type :=
       if Py.contains "gfe" lowered || Py.contains "girlfriend" lowered
       then Some "GFE"
       else if Py.contains "pse" lowered || Py.contains "porn star" lowered
            then Some "PSE" else None;
     incall_outcall :=
       if Py.contains "incall" lowered then Some "Incall"
       else if Py.contains "outcall" lowered then Some "Outcall" else None;
     outcall_address :=
       option_map Re.f_text (Re.search address_pattern message_body) |}.

(** ** The record store *)

Record TrackingRow : Type := mkTracking {
  mt_phone : string;
  mt_booking_id : option Z;
  mt_message_count : Z;
  mt_enquiry_sent : bool
}.

Record ProgressRow : Type := mkProgress {
  bp_phone : string;
  bp_details : Details
}.

Record PendingRow : Type := mkPending {
  pc_phone : string;
  pc_client_name : option string;
  pc_details : Details;
  pc_booking_status : option string;
  pc_awaiting_deposit_screenshot : bool;
  pc_peacock_event_id : option string
}.

Record ReminderRow : Type := mkReminder {
  rr_id : Z;
  rr_phone : string;
  rr_client_name : option string;
  rr_booking_datetime : string;
  rr_city : option string;
  rr_incall_outcall : option string;
  rr_outcall_address : option string;
  rr_sent : bool
}.

Record Location : Type := mkLocation {
  loc_city : string;
  loc_address : string;
  loc_intercom_number : string;
  loc_timezone : string
}.

Record Store : Type := mkStore {
  messages : list (string * string);
  pending_confirmations : list PendingRow;
  booking_progress : list ProgressRow;
  incall_location : Location;
  room_detail_reminders : list ReminderRow;
  blocked_numbers : list (string * string);
  deposit_requests : list (string * string);
  message_tracking : list TrackingRow
}.

(** The store after [init_db] on an empty database. *)
Definition init_db : Store :=
  {| messages := [];
     pending_confirmations := [];
     booking_progress := [];
     incall_location :=
       mkLocation "Adelaide" "Adelaide CBD - Location details on confirmation"
                  "TBA" "Australia/Adelaide";
     room_detail_reminders := [];
     blocked_numbers := [];
     deposit_requests := [];
     message_tracking := [] |}.

Definition set_messages (s : Store) v : Store :=
  mkStore v (pending_confirmations s) (booking_progress s) (incall_location s)
    (room_detail_reminders s) (blocked_numbers s) (deposit_requests s)
    (message_tracking s).
Definition set_pending (s : Store) v : Store :=
  mkStore (messages s) v (booking_progress s) (incall_location s)
    (room_detail_reminders s) (blocked_numbers s) (deposit_requests s)
    (message_tracking s).
Definition set_progress (s : Store) v : Store :=
  mkStore (messages s) (pending_confirmations s) v (incall_location s)
    (room_detail_reminders s) (blocked_numbers s) (deposit_requests s)
    (message_tracking s).
Definition set_location (s : Store) v : Store :=
  mkStore (messages s) (pending_confirmations s) (booking_progress s) v
    (room_detail_reminders s) (blocked_numbers s) (deposit_requests s)
    (message_tracking s).
Definition set_reminders (s : Store) v : Store :=
  mkStore (messages s) (pending_confirmations s) (booking_progress s)
    (incall_location s) v (blocked_numbers s) (deposit_requests s)
    (message_tracking s).
Definition set_blocked (s : Store) v : Store :=
  mkStore (messages s) (pending_confirmations s) (booking_progress s)
    (incall_location s) (room_detail_reminders s) v (deposit_requests s)
    (message_tracking s).
Definition set_deposits (s : Store) v : Store :=
  mkStore (messages s) (pending_confirmations s) (booking_progress s)
    (incall_location s) (room_detail_reminders s) (blocked_numbers s) v
    (message_tracking s).
Definition set_tracking (s : Store) v : Store :=
  mkStore (messages s) (pending_confirmations s) (booking_progress s)
    (incall_location s) (room_detail_reminders s) (blocked_numbers s)
    (deposit_requests s) v.

(** *** Location *)

Definition get_current_incall_location (s : Store) : Location :=
  incall_location s.

Definition get_current_timezone (s : Store) : string :=
  loc_timezone (get_current_incall_location s).

Definition update_incall_location (s : Store) (c new_address : string)
    (intercom_number : option string) : Store * string :=
  let timezone := get_timezone_for_city c in
  let old := incall_location s in
  match intercom_number with
  | Some n => (set_location s (mkLocation c new_address n timezone), timezone)
  | None =>
      (set_location s
         (mkLocation c new_address (loc_intercom_number old) timezone),
       timezone)
  end.

(** *** Message log *)

Definition log_message (s : Store) (phone_number message_body : string)
  : Store :=
  set_messages s (messages s ++ [(phone_number, message_body)]).

Definition get_message_count (s : Store) (phone_number : string) : Z :=
  Z.of_nat
    (List.length
       (filter (fun m => String.eqb (fst m) phone_number) (messages s))).

(** *** Booking progress *)

Definition progress_of (s : Store) (phone_number : string)
  : list ProgressRow :=
  filter (fun r => String.eqb (bp_phone r) phone_number) (booking_progress s).

(** Column [i] of a [booking_progress] row read by position, as the
    SQLite branch does.  The table is declared
    [(id, phone_number, city, date, time, duration, experience_type,
      incall_outcall, outcall_address, updated_at)]; the columns 1 to 8 are
    the text ones. *)
Definition column (r : ProgressRow) (i : nat) : option string :=
  match i with
  | 1 => Some (bp_phone r)
  | 2 => city (bp_details r)
  | 3 => date (bp_details r)
  | 4 => time (bp_details r)
  | 5 => duration (bp_details r)
  | 6 => experience_type (bp_details r)
  | 7 => incall_outcall (bp_details r)
  | 8 => outcall_address (bp_details r)
  | _ => None
  end%nat.

Section Database.

(** [USE_POSTGRES]: rows are read by column name (PostgreSQL) or by
    position (SQLite, the default without [DATABASE_URL]). *)
Variable USE_POSTGRES : bool.

Definition save_booking_progress (s : Store) (phone_number : string)
    (details : Details) : Store * Details :=
  match progress_of s phone_number with
  | current :: _ =>
      let old := bp_details current in
      let merged :=
        {| city := Py.por (city details)
             (if USE_POSTGRES then city old else column current 1);
           date := Py.por (date details)
             (if USE_POSTGRES then date old else column current 2);
           time := Py.por (time details)
             (if USE_POSTGRES then time old else column current 3);
           duration := Py.por (duration details)
             (if USE_POSTGRES then duration old else column current 4);
           experience_type := Py.por (experience_type details)
             (if USE_POSTGRES then experience_type old else column current 5);
           incall_outcall := Py.por (incall_outcall details)
             (if USE_POSTGRES then incall_outcall old else column current 6);
           outcall_address := Py.por (outcall_address details)
             (if USE_POSTGRES then outcall_address old else column current 7)
        |} in
      (set_progress s
         (map (fun r => if String.eqb (bp_phone r) phone_number
                        then mkProgress (bp_phone r) merged else r)
              (booking_progress s)),
       merged)
  | [] =>
      (set_progress s (booking_progress s ++ [mkProgress phone_number details]),
       details)
  end.

Definition get_booking_progress (s : Store) (phone_number : string)
  : option Details :=
  match progress_of s phone_number with
  | row :: _ =>
      if USE_POSTGRES
      then Some (bp_details row)
      else Some {| city := column row 2;
                   date := column row 3;
                   time := column row 4;
                   duration := column row 5;
                   experience_type := column row 6;
                   incall_outcall := column row 7;
                   outcall_address := column row 8 |}
  | [] => None
  end.

End Database.

Definition clear_booking_progress (s : Store) (phone_number : string)
  : Store :=
  set_progress s
    (filter (fun r => negb (String.eqb (bp_phone r) phone_number))
            (booking_progress s)).

(** *** Attempt and message tracking

    Both counters live in the one table [message_tracking], which has no
    uniqueness constraint on [phone_number]. *)

Definition tracking_of (s : Store) (phone_number : string)
  : list TrackingRow :=
  filter (fun r => String.eqb (mt_phone r) phone_number) (message_tracking s).

(** [UPDATE message_tracking SET message_count = n WHERE phone_number = p] *)
Definition set_message_count (s : Store) (phone_number : string) (n : Z)
  : Store :=
  set_tracking s
    (map (fun r => if String.eqb (mt_phone r) phone_number
                   then mkTracking (mt_phone r) (mt_booking_id r) n
                                   (mt_enquiry_sent r)
                   else r)
         (message_tracking s)).

(** [UPDATE message_tracking SET enquiry_sent = 1 WHERE phone_number = p] *)
Definition set_enquiry_sent (s : Store) (phone_number : string) : Store :=
  set_tracking s
    (map (fun r => if String.eqb (mt_phone r) phone_number
                   then mkTracking (mt_phone r) (mt_booking_id r)
                                   (mt_message_count r) true
                   else r)
         (message_tracking s)).

Definition insert_tracking (s : Store) (r : TrackingRow) : Store :=
  set_tracking s (message_tracking s ++ [r]).

(** [DELETE FROM message_tracking WHERE phone_number = p] *)
Definition delete_tracking (s : Store) (phone_number : string) : Store :=
  set_tracking s
    (filter (fun r => negb (String.eqb (mt_phone r) phone_number))
            (message_tracking s)).

Definition increment_booking_attempts (s : Store) (phone_number : string)
  : Store * Z :=
  match tracking_of s phone_number with
  | row :: _ =>
      let count := mt_message_count row in
      let new_count := (count + 1)%Z in
      (set_message_count s phone_number new_count, new_count)
  | [] =>
      (insert_tracking s (mkTracking phone_number None 1 false), 1%Z)
  end.

Definition increment_post_booking_messages (s : Store) (phone_number : string)
  : Store * Z :=
  match filter (fun r => match mt_booking_id r with
                         | Some _ => true
                         | None => false
                         end)
               (tracking_of s phone_number) with
  | row :: _ =>
      let count := mt_message_count row in
      let new_count := (count + 1)%Z in
      (set_message_count s phone_number new_count, new_count)
  | [] =>
      (insert_tracking s (mkTracking phone_number (Some 1%Z) 1 false), 1%Z)
  end.

Definition get_booking_attempts (s : Store) (phone_number : string) : Z :=
  match tracking_of s phone_number with
  | row :: _ => mt_message_count row
  | [] => 0%Z
  end.

Definition check_post_booking_message_limit (s : Store)
    (phone_number : string) : bool * bool :=
  match tracking_of s phone_number with
  | row :: _ => ((3 <=? mt_message_count row)%Z, mt_enquiry_sent row)
  | [] => (false, false)
  end.

(** *** Blocked numbers *)

Definition block_phone_number (s : Store) (phone_number reason : string)
  : Store :=
  if existsb (fun b => String.eqb (fst b) phone_number) (blocked_numbers s)
  then s
  else set_blocked s (blocked_numbers s ++ [(phone_number, reason)]).

(** What the lookup of [is_number_blocked] comes back with. *)
Inductive query_result (A : Type) : Type :=
| Rows : list A -> query_result A
| Raised : query_result A.
Arguments Rows {A} _.
Arguments Raised {A}.

Definition select_blocked (s : Store) (phone_number : string)
  : list (string * string) :=
  filter (fun b => String.eqb (fst b) phone_number) (blocked_numbers s).

(** [is_number_blocked], as a function of what [execute_query] did: the
    bare [except] turns a raised error into [False]. *)
Definition is_number_blocked (result : query_result (string * string))
  : bool :=
  match result with
  | Rows rows => (0 <? List.length rows)%nat
  | Raised => false
  end.

(** *** Deposit requests and reminders *)

Definition save_deposit_request (s : Store)
    (phone_number booking_datetime : string) : Store :=
  set_deposits s (deposit_requests s ++ [(phone_number, booking_datetime)]).

Definition next_reminder_id (s : Store) : Z :=
  (1 + fold_right Z.max 0 (map rr_id (room_detail_reminders s)))%Z.

Definition schedule_room_detail_reminder (s : Store) (phone_number : string)
    (client_name : option string) (booking_datetime : string)
    (c io addr : option string) : Store :=
  set_reminders s
    (room_detail_reminders s ++
     [mkReminder (next_reminder_id s) phone_number client_name
                 booking_datetime c io addr false]).

(** *** Pending confirmations *)

Definition delete_pending_confirmation (s : Store) (phone_number : string)
  : Store :=
  set_pending s
    (filter (fun r => negb (String.eqb (pc_phone r) phone_number))
            (pending_confirmations s)).

(** Every caller passes a dict in which the six required keys are bound,
    so the default ['Not specified'] of the [.get] calls never applies. *)
Definition save_pending_confirmation (s : Store) (phone_number : string)
    (booking_details : Details) (booking_status : option string)
    (awaiting_deposit : bool) (peacock_event_id client_name : option string)
  : Store :=
  let s := delete_pending_confirmation s phone_number in
  set_pending s
    (mkPending phone_number client_name booking_details booking_status
               awaiting_deposit peacock_event_id
     :: pending_confirmations s).

(** [ORDER BY created_at DESC LIMIT 1]: the table is kept newest first. *)
Definition get_pending_confirmation (s : Store) (phone_number : string)
  : option PendingRow :=
  find (fun r => String.eqb (pc_phone r) phone_number)
       (pending_confirmations s).

(** ** Message templates *)

Definition YOUR_WEBSITE_URL : string :=
  "https://scarletblue.com.au/escort/adella-allure".
Definition PAYID_EMAIL : string := "Adella2.0xxx@gmail.com".
Definition ADELLA_PHONE_NUMBER_DEFAULT : string := "+61412345729".
Definition AUTHORIZED_ADMIN_NUMBERS : list string :=
  ["+61412345729"; "+61407530802"; "+61427590188"; "+61480089652"].
Definition USE_AI_POLISHING : bool := true.

(** [address.split(',')[0] if ',' in address else address] *)
Fixpoint before_comma (s : string) : string :=
  match s with
  | EmptyString => EmptyString
  | String c t => if Ascii.eqb c "," then EmptyString
                  else String c (before_comma t)
  end.

Definition first_contact_msg (location : Location) (bot_url : string)
  : string :=
  let hotel := before_comma (loc_address location) in
  let webform_url := bot_url ++ "/booking" in
  "Hi if your wanting to make a booking please confirm the following details Date: Time: Duration: Experience: (GFE/PSE) Incall/Outcall. Either text this information back to me or let me know by clicking this link to my webform: "
  ++ webform_url ++ Py.nl ++ Py.nl ++
  "I'm currently in " ++ loc_city location ++ " at " ++ hotel.

Definition templates (location : Location) (bot_url : string)
  : list (string * string) :=
  [("first_contact", first_contact_msg location bot_url);
   ("random_request",
    "If your wanting to see me then please advise me of the following so I can check availability:"
    ++ Py.nl ++ Py.nl ++ "DATE:" ++ Py.nl ++ "TIME:" ++ Py.nl ++ "DURATION:"
    ++ Py.nl ++ "EXPERIENCE: (GFE/PSE)" ++ Py.nl ++ "INCALL/OUTCALL:");
   ("fourth_message_enquiry",
    "Due to the number of enquires I receive this is an automated responce. "
    ++ "If there is anything specific you wish to discuss with Adella text ENQUIRY followed by your question. "
    ++ "For further information please visit my profile by clicking the link below: "
    ++ YOUR_WEBSITE_URL);
   ("fifth_message_block",
    "Im sorry but unfortunatly as you have not confirmed any of the details "
    ++ "I have requested I am not able to schedule in a booking.");
   ("missing_city",
    "Which city are you in? (Adelaide, Sydney, Melbourne, Brisbane, Perth, etc)");
   ("missing_date", "What date would you like? (e.g., Friday 20/12 or 20/12)");
   ("missing_time", "What time? (e.g., 7pm or 19:00)");
   ("missing_duration", "How long? (30min, 1 hour, 2 hours)");
   ("missing_experience", "GFE or PSE?");
   ("missing_incall_outcall", "Incall or Outcall?");
   ("missing_address", "What's the address for the outcall?");
   ("time_unavailable",
    "Sorry, that time isn't available. Do you have another time in mind?");
   ("unsafe_request",
    "I don't offer that service. Let's continue with your booking.");
   ("need_name",
    "I need your name to confirm. Reply with your name + YES" ++ Py.nl
    ++ Py.nl ++ "Example: John YES");
   ("deposit_mandatory",
    "A $100 deposit is required to confirm this booking." ++ Py.nl ++ Py.nl
    ++ "Text DEPOSIT for payment details.");
   ("deposit_non_mandatory",
    "Do you mind paying a small deposit? Its not mandatory, but its appreciated as it helps reassure me my time wont be wasted when I Reserve my time for you. If you could please pay $50-$100 to my pay ID which is "
    ++ PAYID_EMAIL);
   ("deposit_followup_30min",
    "I havnt heard back from you just confirming your still coming as i've reserved the time for you.");
   ("booking_cancelled",
    "Your booking has been cancelled. Thanks for letting me know.")].

Definition time_available_msg (data : Details) : string :=
  Py.fmt (date data) ++ " at " ++ Py.fmt (time data) ++ " is available! 😊"
  ++ Py.nl ++ Py.nl ++ Py.fmt (duration data) ++ ", "
  ++ Py.fmt (experience_type data) ++ ", " ++ Py.fmt (incall_outcall data)
  ++ Py.nl ++ Py.nl ++ "Reply with your name + YES to confirm." ++ Py.nl
  ++ Py.nl ++ "Example: John YES".

Definition get_message_template (location : Location) (bot_url : string)
    (situation : string) (data : option Details) : string :=
  let base_message :=
    match assoc situation (templates location bot_url) with
    | Some t => t
    | None => "Thanks for your message."
    end in
  match data with
  | Some d => if String.eqb situation "time_available"
              then time_available_msg d else base_message
  | None => base_message
  end.

(** ** The tone pass *)

(** A rewriting backend: from the tone instruction and the message to the
    text of its response, or [None] when the call raises. *)
Definition Rewriter : Type := string -> string -> option string.

Definition tone_instruction (repetition_count : Z) : string :=
  if (repetition_count <=? 1)%Z
  then "Make this warmer and friendlier. Keep all information EXACTLY the same."
  else if (repetition_count <=? 3)%Z
  then "Make this more direct and businesslike. Keep all information EXACTLY the same."
  else "Make this firm and to-the-point. Keep all information EXACTLY the same.".

(** [len(polished) < len(message) * 0.7].  The product is a double; as
    [0.7] is stored a little below 7/10 and the lengths are far below
    2^53, the comparison with the integer [len(polished)] comes out as
    the exact one, [10 * len(polished) < 7 * len(message)]. *)
Definition too_short (polished message : string) : bool :=
  (10 * Py.len polished <? 7 * Py.len message)%Z.

(** [len(polished) > len(message) * 1.5]; the product is exact. *)
Definition too_long (polished message : string) : bool :=
  (3 * Py.len message <? 2 * Py.len polished)%Z.

(** The safety checks after the Claude call. *)
Definition claude_rejects (polished message : string) : bool :=
  too_short polished message
  || too_long polished message
  || (Py.contains "can't" (Py.lower polished)
      || Py.contains "sorry" (Py.take 30 (Py.lower polished)))
  || (Py.contains "cannot" (Py.take 50 (Py.lower polished))
      || Py.contains "unable" (Py.take 50 (Py.lower polished))).

(** The safety checks after the Gemini call. *)
Definition gemini_rejects (polished message : string) : bool :=
  (too_short polished message || too_long polished message)
  || (Py.contains "can't" (Py.lower polished)
      || Py.contains "sorry" (Py.take 30 (Py.lower polished))).

Section Polish.

(** [claude_client] and [gemini_model]: [None] when not configured. *)
Variable claude_client : option Rewriter.
Variable gemini_model : option Rewriter.

Definition configured (r : option Rewriter) : bool :=
  match r with Some _ => true | None => false end.

(** The second [try] block of [polish_with_ai]. *)
Definition polish_gemini (message tone : string) : string :=
  match gemini_model with
  | Some generate_content =>
      match generate_content tone message with
      | Some text =>
          let polished := Py.strip text in
          if gemini_rejects polished message then message else polished
      | None => message
      end
  | None => message
  end.

Definition polish_with_ai (message : string) (use_ai : bool)
    (repetition_count : Z) : string :=
  if negb use_ai || negb (configured claude_client || configured gemini_model)
  then message
  else
    let tone := tone_instruction repetition_count in
    match claude_client with
    | Some create =>
        match create tone message with
        | Some text =>
            let polished := Py.strip text in
            if claude_rejects polished message then message else polished
        | None => polish_gemini message tone
        end
    | None => polish_gemini message tone
    end.

End Polish.

(** ** Locations in messages *)

Definition hex_digit (n : nat) : ascii :=
  ascii_of_nat (if (n <? 10)%nat then 48 + n else 55 + n).

(** [urllib.parse.quote(s)] with its default [safe='/']. *)
Fixpoint quote (s : string) : string :=
  match s with
  | EmptyString => EmptyString
  | String c t =>
      if Py.is_alpha c || Py.is_digit c || Py.mem_char "_.-~/" c
      then String c (quote t)
      else String "%" (String (hex_digit (Py.code c / 16))
                         (String (hex_digit (Py.code c mod 16)) (quote t)))
  end.

Definition create_transport_links (address : string) : string * string :=
  let encoded_address := quote address in
  ("https://m.uber.com/ul/?action=setPickup&pickup=my_location&dropoff[formatted_address]="
   ++ encoded_address,
   "https://www.google.com/maps/dir/?api=1&destination=" ++ encoded_address).

(** [None] stands for the [TypeError] that [quote] raises when an Outcall
    booking carries no address. *)
Definition format_location_for_confirmation (location : Location)
    (io addr : option string) (include_room_details : bool)
  : option string :=
  if Py.opt_eqb io "Outcall"
  then match addr with
       | Some a =>
           let (uber, google) := create_transport_links a in
           Some (Py.nl ++ Py.nl ++ "I'll come to: " ++ a ++ Py.nl ++ Py.nl
                 ++ "🚗 Uber: " ++ uber ++ Py.nl ++ "🗺️ Google Maps: "
                 ++ google)
       | None => None
       end
  else
    let c := loc_city location in
    let address := loc_address location in
    let hotel := before_comma address in
    if negb include_room_details
    then Some (Py.nl ++ Py.nl ++ "Location: " ++ c ++ Py.nl ++ "Hotel: "
               ++ hotel ++ Py.nl ++ Py.nl
               ++ "Room details will be sent 1 hour before your booking.")
    else
      let intercom := loc_intercom_number location in
      if String.eqb c "Perth"
      then Some (Py.nl ++ Py.nl ++ "Location: " ++ c ++ Py.nl ++ address
                 ++ Py.nl ++ Py.nl
                 ++ "I'll meet you in the lobby approximately 5 minutes before your booking time.")
      else Some (Py.nl ++ Py.nl ++ "Location: " ++ c ++ Py.nl ++ address
                 ++ Py.nl ++ Py.nl ++ "Intercom/Room: " ++ intercom).

(** ** Missing fields *)

Definition required : list (string * (Details -> option string)) :=
  [("city", city); ("date", date); ("time", time); ("duration", duration);
   ("experience_type", experience_type); ("incall_outcall", incall_outcall)].

Definition missing_fields (d : Details) : list string :=
  map fst (filter (fun f => negb (Py.truthy (snd f d))) required)
  ++ (if Py.opt_eqb (incall_outcall d) "Outcall"
         && negb (Py.truthy (outcall_address d))
      then ["outcall_address"] else []).

Definition question_labels : list (string * string) :=
  [("city", "City"); ("date", "Date"); ("time", "Time");
   ("duration", "Duration"); ("experience_type", "Experience (GFE/PSE)");
   ("incall_outcall", "Incall or Outcall");
   ("outcall_address", "Outcall address")].

Definition missing_questions (missing : list string) : list string :=
  map snd
    (filter (fun l => existsb (String.eqb (fst l)) missing) question_labels).

Definition missing_message (missing : list string) : string :=
  match missing_questions missing with
  | [x] => "I just need your " ++ x
  | [x; y] => "I just need your " ++ x ++ " and " ++ y
  | qs => "I still need: " ++ Py.join ", " qs
  end.

(** The merge of [incoming_sms]: the new value when it is truthy, the
    stored one otherwise. *)
Definition merge_details (new_details existing_progress : Details) : Details :=
  {| city := Py.por (city new_details) (city existing_progress);
     date := Py.por (date new_details) (date existing_progress);
     time := Py.por (time new_details) (time existing_progress);
     duration := Py.por (duration new_details) (duration existing_progress);
     experience_type :=
       Py.por (experience_type new_details) (experience_type existing_progress);
     incall_outcall :=
       Py.por (incall_outcall new_details) (incall_outcall existing_progress);
     outcall_address :=
       Py.por (outcall_address new_details) (outcall_address existing_progress)
  |}.

(** ** Admin location command *)

(** [INTERCOM\s+(\w+)] and [\s*INTERCOM\s+\w+], both with [re.IGNORECASE] *)
Definition intercom_pattern : Re.regex :=
  Re.Cat (Re.LitI "INTERCOM")
    (Re.Cat (Re.Plus Re.space) (Re.Grp 1 (Re.Plus Re.word))).

Definition intercom_strip_pattern : Re.regex :=
  Re.Cat (Re.Star Re.space)
    (Re.Cat (Re.LitI "INTERCOM")
       (Re.Cat (Re.Plus Re.space) (Re.Plus Re.word))).

(** [s.split(':', 1)] on a string that contains a colon *)
Fixpoint split_colon (s : string) : string * string :=
  match s with
  | EmptyString => (EmptyString, EmptyString)
  | String c t =>
      if Ascii.eqb c ":" then (EmptyString, t)
      else let (a, b) := split_colon t in (String c a, b)
  end.

Definition parse_location_command (current_city message_body : string)
  : string * string * option string :=
  let location_data := Py.strip (Py.drop 9 message_body) in
  let intercom_number :=
    match Re.search intercom_pattern location_data with
    | Some m => Re.group 1 (Re.f_caps m)
    | None => None
    end in
  let location_data :=
    if Py.truthy intercom_number
    then Py.strip (Re.sub intercom_strip_pattern "" location_data)
    else location_data in
  if Py.contains ":" location_data
  then let (a, b) := split_colon location_data in
       (Py.title (Py.strip a), Py.strip b, intercom_number)
  else (current_city, location_data, intercom_number).

(** ** The SMS handler *)

(** What one request does: the TwiML reply ([None] for an empty
    response), the messages handed to [send_sms], the calendar events
    requested, and the store it leaves. *)
Record Outcome : Type := mkOutcome {
  reply : option string;
  sms : list (string * string);
  calendar : list (string * option string * Details);
  store : Store
}.

Definition respond (s : Store) (text : string) : Outcome :=
  mkOutcome (Some text) [] [] s.

Section Bot.

Variable USE_POSTGRES : bool.
Variable claude_client : option Rewriter.
Variable gemini_model : option Rewriter.
(** [os.environ.get('BOT_URL', 'http://localhost:5000')] *)
Variable BOT_URL : string.
(** [os.getenv('ADELLA_PHONE_NUMBER', '+61412345729')] *)
Variable ADELLA_PHONE_NUMBER : string.
(** [datetime.now(pytz.timezone(tz))], as a date *)
Variable clock : string -> Cal.date.

Definition polish (message : string) (repetition_count : Z) : string :=
  polish_with_ai claude_client gemini_model message USE_AI_POLISHING
                 repetition_count.

Definition template (s : Store) (situation : string) : string :=
  get_message_template (get_current_incall_location s) BOT_URL situation None.

(** *** The two upper tiers of the escalation *)

Definition final_block (s : Store) (phone_number reason : string) : Outcome :=
  let final_message := template s "fifth_message_block" in
  let polished_message := polish final_message 6 in
  respond (block_phone_number s phone_number reason) polished_message.

Definition auto_enquiry (s : Store) (phone_number : string) : Outcome :=
  let auto_message := template s "fourth_message_enquiry" in
  let polished_message := polish auto_message 5 in
  respond (fst (increment_booking_attempts s phone_number)) polished_message.

Definition ask_missing (s : Store) (phone_number : string)
    (missing : list string) (attempts : Z) : Outcome :=
  let s := fst (increment_booking_attempts s phone_number) in
  respond s (polish (missing_message missing) attempts).

(** The reply of the post-booking message limit. *)
Definition post_booking_chatter : string :=
  "For specific questions or to speak directly with Adella, text ENQUIRY followed by your question."
  ++ Py.nl ++ Py.nl ++ "Example: ENQUIRY What services do you offer?".

(** *** The YES branch *)

Definition deposit_mandatory (s : Store) (phone_number message_body : string)
    (pending : PendingRow) : bool :=
  Py.opt_eqb (incall_outcall (pc_details pending)) "Outcall"
  || detect_profanity message_body
  || (3 <=? get_booking_attempts s phone_number)%Z.

Definition handle_yes (s : Store) (phone_number message_body : string)
    (pending : PendingRow) : Outcome :=
  match extract_name_from_yes_message message_body with
  | None => respond s (polish (template s "need_name") 0)
  | Some client_name =>
      let booking_status := pc_booking_status pending in
      let attempts := get_booking_attempts s phone_number in
      let three_strikes_triggered := (3 <=? attempts)%Z in
      let details := pc_details pending in
      if deposit_mandatory s phone_number message_body pending
         || Py.opt_eqb booking_status "peacock_available"
      then
        let s1 := save_pending_confirmation s phone_number details
                    (Some "deposit_required") false
                    (pc_peacock_event_id pending) (Some client_name) in
        let deposit_reason :=
          if three_strikes_triggered
          then " (Due to multiple information requests)" else "" in
        let base_message :=
          client_name ++ ", " ++ template s "deposit_mandatory"
          ++ deposit_reason in
        respond s1 (polish base_message 0)
      else
        let event := (phone_number, Some client_name, details) in
        let location := get_current_incall_location s in
        match format_location_for_confirmation location
                (incall_outcall details) (outcall_address details) false with
        | None =>
            (* the request dies with the error; an Outcall booking never
               comes to this branch *)
            mkOutcome None [] [event] s
        | Some location_msg =>
            let booking_datetime :=
              Py.fmt (date details) ++ " " ++ Py.fmt (time details) in
            let base_confirmation :=
              "Booking confirmed for " ++ client_name ++ "." ++ location_msg
              ++ Py.nl ++ Py.nl ++ Py.fmt (date details) ++ " at "
              ++ Py.fmt (time details) ++ Py.nl ++ Py.fmt (duration details)
              ++ ", " ++ Py.fmt (experience_type details) in
            let polished_confirmation := polish base_confirmation 0 in
            let s1 :=
              if Py.opt_eqb (incall_outcall details) "Incall"
              then schedule_room_detail_reminder s phone_number
                     (Some client_name) booking_datetime (city details)
                     (incall_outcall details) (outcall_address details)
              else s in
            let deposit_msg := template s "deposit_non_mandatory" in
            let polished_deposit := polish deposit_msg 0 in
            let s2 := save_deposit_request s1 phone_number booking_datetime in
            let s3 := clear_booking_progress s2 phone_number in
            let s4 := insert_tracking (delete_tracking s3 phone_number)
                        (mkTracking phone_number None 0 false) in
            let s5 := delete_pending_confirmation s4 phone_number in
            mkOutcome (Some polished_confirmation)
                      [(phone_number, polished_deposit)] [event] s5
        end
  end.

(** *** The DEPOSIT keyword *)

Definition handle_deposit (s : Store) (phone_number : string)
    (pending : PendingRow) : Outcome :=
  let details := pc_details pending in
  let payment_reference :=
    Py.fmt (date details) ++ " " ++ Py.fmt (time details) in
  let s1 := save_pending_confirmation s phone_number details
              (pc_booking_status pending) true
              (pc_peacock_event_id pending) (pc_client_name pending) in
  respond s1 ("PayID: " ++ PAYID_EMAIL ++ Py.nl ++ "Reference: "
              ++ payment_reference ++ Py.nl ++ Py.nl
              ++ "Send screenshot when done.").

(** *** Progress extraction, merge and escalation *)

Definition reason_providing : string :=
  "5+ repeated requests without providing booking details".
Definition reason_completing : string :=
  "5+ repeated requests without completing booking details".

(** From the merge to the end of [incoming_sms]. *)
Definition handle_merge (s : Store) (phone_number : string)
    (new_details : Details) (existing_progress : option Details) : Outcome :=
  let merged_details :=
    match existing_progress with
    | Some existing => merge_details new_details existing
    | None => new_details
    end in
  let s :=
    if any_value merged_details
    then fst (save_booking_progress USE_POSTGRES s phone_number merged_details)
    else s in
  let missing := missing_fields merged_details in
  match missing with
  | _ :: _ =>
      let attempts := get_booking_attempts s phone_number in
      if (5 <=? attempts)%Z then final_block s phone_number reason_completing
      else if (4 <=? attempts)%Z then auto_enquiry s phone_number
      else ask_missing s phone_number missing attempts
  | [] =>
      let s1 := save_pending_confirmation s phone_number merged_details
                  (Some "available") false None None in
      let s2 := set_message_count s1 phone_number 0 in
      respond s2
        (polish (get_message_template (get_current_incall_location s2)
                   BOT_URL "time_available" (Some merged_details)) 0)
  end.

Definition handle_progress (s : Store) (phone_number message_body : string)
  : Outcome :=
  let new_details :=
    extract_booking_details (clock (get_current_timezone s)) message_body in
  let existing_progress := get_booking_progress USE_POSTGRES s phone_number in
  let has_booking_info := any_value new_details in
  match has_booking_info, existing_progress with
  | false, None =>
      let attempts := get_booking_attempts s phone_number in
      if (5 <=? attempts)%Z then final_block s phone_number reason_providing
      else if (4 <=? attempts)%Z then auto_enquiry s phone_number
      else
        let base_message := template s "random_request" in
        let polished_message := polish base_message attempts in
        respond (fst (increment_booking_attempts s phone_number))
                polished_message
  | false, Some existing =>
      let attempts := get_booking_attempts s phone_number in
      if (5 <=? attempts)%Z then final_block s phone_number reason_completing
      else if (4 <=? attempts)%Z then auto_enquiry s phone_number
      else
        match missing_fields existing with
        | (_ :: _) as missing => ask_missing s phone_number missing attempts
        | [] => handle_merge s phone_number new_details existing_progress
        end
  | true, _ => handle_merge s phone_number new_details existing_progress
  end.

(** *** The handler

    [blocked_lookup] is what the query of [is_number_blocked] came back
    with in this request: the rows, or a raised error. *)

Definition is_admin_location (phone_number message_body : string) : bool :=
  existsb (String.eqb phone_number) AUTHORIZED_ADMIN_NUMBERS
  && Py.startswith message_body "LOCATION ".

Definition is_enquiry (message_body : string) : bool :=
  Py.startswith (Py.upper message_body) "ENQUIRY".

Definition is_unsafe (message_body : string) : bool :=
  match detect_unsafe_requests message_body with
  | [] => false
  | _ :: _ => true
  end.

Definition says_yes (message_body : string) : bool :=
  Py.contains "yes" (Py.lower message_body).

Definition says_deposit (message_body : string) : bool :=
  String.eqb (Py.strip (Py.upper message_body)) "DEPOSIT".

(** From the pending-confirmation lookup to the end. *)
Definition booking_flow (s : Store) (phone_number message_body : string)
  : Outcome :=
  let pending := get_pending_confirmation s phone_number in
  match (if says_yes message_body then pending else None) with
  | Some p => handle_yes s phone_number message_body p
  | None =>
  match (if says_deposit message_body then pending else None) with
  | Some p => handle_deposit s phone_number p
  | None =>
      let (limit_reached, enquiry_sent) :=
        check_post_booking_message_limit s phone_number in
      if limit_reached && negb enquiry_sent
      then respond (set_enquiry_sent s phone_number) post_booking_chatter
      else
        let s :=
          match tracking_of s phone_number with
          | _ :: _ => fst (increment_post_booking_messages s phone_number)
          | [] => s
          end in
        let previous_messages := get_message_count s phone_number in
        if (previous_messages =? 1)%Z
        then respond s (polish (template s "first_contact") 0)
        else handle_progress s phone_number message_body
  end
  end.

Definition incoming_sms (s : Store)
    (blocked_lookup : query_result (string * string))
    (phone_number body : string) : Outcome :=
  let message_body := Py.strip body in
  if is_number_blocked blocked_lookup
  then mkOutcome None [] [] s
  else
    let s := log_message s phone_number message_body in
    if is_enquiry message_body
    then
      let enquiry_message := Py.strip (Py.drop 7 message_body) in
      let forward_message :=
        "📩 ENQUIRY from " ++ phone_number ++ ":" ++ Py.nl ++ Py.nl
        ++ enquiry_message in
      mkOutcome
        (Some "Your message has been forwarded to Adella. She'll respond personally soon.")
        [(ADELLA_PHONE_NUMBER, forward_message)] [] s
    else if is_unsafe message_body
    then respond s (polish (template s "unsafe_request") 0)
    else if is_cancellation message_body
    then
      let s1 := delete_pending_confirmation s phone_number in
      let s2 := delete_tracking s1 phone_number in
      respond s2 (polish (template s2 "booking_cancelled") 0)
    else if is_admin_location phone_number message_body
    then
      let '(c, address, intercom_number) :=
        parse_location_command
          (loc_city (get_current_incall_location s)) message_body in
      let (s1, new_timezone) :=
        update_incall_location s c address intercom_number in
      respond s1 ("✅ Location updated!" ++ Py.nl ++ Py.nl ++ "City: " ++ c
                  ++ Py.nl ++ "Address: " ++ address ++ Py.nl ++ "Timezone: "
                  ++ new_timezone)
    else booking_flow s phone_number message_body.

(** A request in which the lookup answers. *)
Definition receive (s : Store) (phone_number body : string) : Outcome :=
  incoming_sms s (Rows (select_blocked s phone_number)) phone_number body.

(** A conversation: the same identity sends the messages one after the
    other; the replies come back in order. *)
Fixpoint converse (s : Store) (phone_number : string) (bodies : list string)
  : list (option string) * Store :=
  match bodies with
  | [] => ([], s)
  | body :: rest =>
      let o := receive s phone_number body in
      let (replies, s') := converse (store o) phone_number rest in
      (reply o :: replies, s')
  end.

(** Requests of any senders, served one after the other; each reply is
    paired with the sender it goes to. *)
Fixpoint serve (s : Store) (requests : list (string * string))
  : list (string * option string) * Store :=
  match requests with
  | [] => ([], s)
  | (phone_number, body) :: rest =>
      let o := receive s phone_number body in
      let (answers, s') := serve (store o) rest in
      ((phone_number, reply o) :: answers, s')
  end.

End Bot.

(** The identity has a row in [blocked_numbers]. *)
Definition blocked (s : Store) (phone_number : string) : bool :=
  is_number_blocked (Rows (select_blocked s phone_number)).

(** ** The periodic reminder check *)

(** One call of [send_sms] made by the check. *)
Record SentReminder : Type := mkSent {
  sr_id : Z;
  sr_to : string;
  sr_body : string;
  sr_delivered : bool
}.

Definition sent_row (r : ReminderRow) : ReminderRow :=
  mkReminder (rr_id r) (rr_phone r) (rr_client_name r)
             (rr_booking_datetime r) (rr_city r) (rr_incall_outcall r)
             (rr_outcall_address r) true.

(** [UPDATE room_detail_reminders SET sent = 1 WHERE id = i] *)
Definition mark_sent (s : Store) (i : Z) : Store :=
  set_reminders s
    (map (fun r => if (rr_id r =? i)%Z then sent_row r else r)
         (room_detail_reminders s)).

(** Instants are counted in microseconds, the resolution of [datetime];
    [total_seconds()] of a difference compares with 3300 and 3900 as the
    difference in microseconds does with these bounds. *)
Definition in_window (time_until_booking : Z) : bool :=
  ((3300 * 1000000 <=? time_until_booking)
   && (time_until_booking <=? 3900 * 1000000))%Z.

Section Reminders.

(** [send_sms]: whether Twilio accepted the message. *)
Variable send_sms : string -> string -> bool.
(** [datetime.strptime(text, '%A %d/%m/%Y %I:%M%p')] localized in the
    timezone given; [None] when it raises. *)
Variable strptime_localize : string -> string -> option Z.

Definition due (s : Store) (now : Z) (r : ReminderRow) : bool :=
  match strptime_localize (get_current_timezone s) (rr_booking_datetime r) with
  | Some booking_dt => in_window (booking_dt - now)
  | None => false
  end.

(** The [for] loop over the rows selected at the start; the store is the
    one the loop has reached.  An exception ends the loop. *)
Fixpoint send_due (s : Store) (now : Z) (reminders : list ReminderRow)
  : list SentReminder * Store :=
  match reminders with
  | [] => ([], s)
  | reminder :: rest =>
      if due s now reminder
      then
        let location := get_current_incall_location s in
        match format_location_for_confirmation location
                (rr_incall_outcall reminder) (rr_outcall_address reminder)
                true with
        | None => ([], s)
        | Some location_msg =>
            let msg := "Hi " ++ Py.fmt (rr_client_name reminder)
                       ++ "! Your booking is in 1 hour." ++ location_msg in
            let delivered := send_sms (rr_phone reminder) msg in
            let s1 := if delivered then mark_sent s (rr_id reminder) else s in
            let (more, s2) := send_due s1 now rest in
            (mkSent (rr_id reminder) (rr_phone reminder) msg delivered :: more,
             s2)
        end
      else send_due s now rest
  end.

Definition check_and_send_room_details (s : Store) (now : Z)
  : list SentReminder * Store :=
  send_due s now
    (filter (fun r => negb (rr_sent r)) (room_detail_reminders s)).

End Reminders.

(** ** The times of a calendar event

    The two readings that [create_calendar_event] makes of the stored
    time and duration texts. *)

(** [(\d{1,2}):(\d{2})\s*(AM|PM)?], compiled with [re.IGNORECASE] *)
Definition calendar_time_pattern : Re.regex :=
  Re.Cat (Re.Grp 1 d12)
    (Re.Cat (Re.Lit ":")
       (Re.Cat (Re.Grp 2 d2)
          (Re.Cat (Re.Star Re.space)
             (Re.Opt (Re.Grp 3 (Re.Alt (Re.LitI "AM") (Re.LitI "PM"))))))).

(** The hour and minute of the start; [None] when the pattern is not
    found or [date_obj.replace(hour=.., minute=..)] raises. *)
Definition calendar_start_time (time_str : string) : option (Z * Z) :=
  match Re.search calendar_time_pattern time_str with
  | Some m =>
      let hour := Num.int (Py.fmt (Re.group 1 (Re.f_caps m))) in
      let minute := Num.int (Py.fmt (Re.group 2 (Re.f_caps m))) in
      let period := Re.group 3 (Re.f_caps m) in
      let hour :=
        if Py.truthy period && Py.opt_eqb (option_map Py.upper period) "PM"
           && (hour <? 12)%Z
        then (hour + 12)%Z
        else if Py.truthy period
                && Py.opt_eqb (option_map Py.upper period) "AM"
                && (hour =? 12)%Z
             then 0%Z else hour in
      if ((0 <=? hour) && (hour <=? 23) && (0 <=? minute) && (minute <=? 59))%Z
      then Some (hour, minute) else None
  | None => None
  end.


(** ** The retry loop of [execute_query] *)

(** What one attempt at the database comes to: it answers, it raises a
    [sqlite3] error whose text contains "locked", or it raises anything
    else. *)
Inductive attempt_outcome (A : Type) : Type :=
| Answered : A -> attempt_outcome A
| LockedError : attempt_outcome A
| OtherError : attempt_outcome A.
Arguments Answered {A} _.
Arguments LockedError {A}.
Arguments OtherError {A}.

Inductive query_run (A : Type) : Type :=
| Returned : A -> query_run A
| Reraised : query_run A
| Exhausted : query_run A.
Arguments Returned {A} _.
Arguments Reraised {A}.
Arguments Exhausted {A}.

Section ExecuteQuery.
Context {A : Type}.
Variable USE_POSTGRES : bool.
(** The outcome of the attempt with a given number. *)
Variable outcome : nat -> attempt_outcome A.
Variable max_retries : nat.

(** The [for] loop from [attempt] on, [left] rounds to go.  The result
    comes with the attempts made and the waits slept, each in tenths of a
    second.  With PostgreSQL the module [sqlite3] is not imported, so the
    first [except] clause itself raises, whatever the error was. *)
Fixpoint execute_query_from (attempt left : nat)
  : query_run A * nat * list nat :=
  match left with
  | O => (Exhausted, O, [])
  | S left' =>
      match outcome attempt with
      | Answered r => (Returned r, 1, [])
      | LockedError =>
          if negb USE_POSTGRES && (attempt + 1 <? max_retries)%nat
          then let '(run, made, waits) :=
                 execute_query_from (S attempt) left' in
               (run, S made, (attempt + 1)%nat :: waits)
          else (Reraised, 1, [])
      | OtherError => (Reraised, 1, [])
      end
  end%nat.

Definition execute_query : query_run A * nat * list nat :=
  execute_query_from 0 max_retries.

End ExecuteQuery.

(** ** The web form *)

Record BookingForm : Type := mkForm {
  form_phone : string;
  form_date : option string;
  form_time : option string;
  form_duration : option string;
  form_experience : option string;
  form_incall_outcall : option string;
  form_outcall_address : string
}.

(** The POST branch of [booking_form]: the messages handed to
    [send_sms] and the store it leaves. *)
Definition booking_form (s : Store) (form : BookingForm)
  : list (string * string) * Store :=
  let booking_details :=
    {| city := Some (loc_city (get_current_incall_location s));
       date := form_date form;
       time := form_time form;
       duration := form_duration form;
       experience_type := form_experience form;
       incall_outcall := form_incall_outcall form;
       outcall_address :=
         if Py.opt_eqb (form_incall_outcall form) "Outcall"
         then Some (form_outcall_address form) else None |} in
  let s1 := save_pending_confirmation s (form_phone form) booking_details
              (Some "available") false None None in
  let message := time_available_msg booking_details in
  ([(form_phone form, message)], s1).

(** ** The admin dashboard *)

Record AdminForm : Type := mkAdminForm {
  adm_password : option string;
  adm_city : option string;
  adm_address : option string;
  adm_intercom_number : option string
}.

Section Dashboard.

(** [os.environ.get('ADMIN_PASSWORD', 'adella2024')] *)
Variable ADMIN_PASSWORD : string.

(** The POST branch of [admin_dashboard]: the store it leaves, with the
    success and the error text of the page. *)
Definition admin_dashboard (s : Store) (form : AdminForm)
  : Store * option string * option string :=
  if Py.opt_eqb (adm_password form) ADMIN_PASSWORD
  then
    match adm_city form, adm_address form with
    | Some c, Some new_address =>
        if Py.truthy (Some c) && Py.truthy (Some new_address)
        then
          let (s1, new_timezone) :=
            update_incall_location s c new_address
                                   (adm_intercom_number form) in
          (s1, Some ("Location updated! Timezone: " ++ new_timezone), None)
        else (s, None, Some "Please provide city and address")
    | _, _ => (s, None, Some "Please provide city and address")
    end
  else (s, None, Some "Invalid password").

End Dashboard.

(** * Properties *)

(** Case analysis on the condition of the outermost [if] of the goal. *)
Ltac case_if :=
  match goal with
  | |- context [if ?b then _ else _] =>
      let E := fresh "E" in destruct b eqn:E
  end.

(** ** The tone pass never drifts in length *)

Section PolishFacts.
Variable claude gemini : option Rewriter.

Lemma polish_gemini_cases (message tone : string) :
  polish_gemini gemini message tone = message \/
  (too_short (polish_gemini gemini message tone) message = false /\
   too_long (polish_gemini gemini message tone) message = false).
Proof.
  unfold polish_gemini.
  destruct gemini as [g|]; [|now left].
  destruct (g tone message) as [text|]; [|now left].
  unfold gemini_rejects.
  destruct (too_short (Py.strip text) message) eqn:Hs; [now left|].
  destruct (too_long (Py.strip text) message) eqn:Hl; [now left|].
  cbn [orb].
  case_if; [now left|right; auto].
Qed.

Lemma polish_cases (message : string) (use_ai : bool) (n : Z) :
  polish_with_ai claude gemini message use_ai n = message \/
  (too_short (polish_with_ai claude gemini message use_ai n) message = false /\
   too_long (polish_with_ai claude gemini message use_ai n) message = false).
Proof.
  unfold polish_with_ai.
  destruct (negb use_ai || _); [now left|].
  destruct claude as [c|]; [|apply polish_gemini_cases].
  destruct (c _ message) as [text|]; [|apply polish_gemini_cases].
  unfold claude_rejects.
  destruct (too_short (Py.strip text) message) eqn:Hs; [now left|].
  destruct (too_long (Py.strip text) message) eqn:Hl; [now left|].
  cbn [orb].
  case_if; [now left|right; auto].
Qed.

(** Whatever the backends answer, the text sent has at least 70% of the
    length of the template. *)
Lemma polish_not_short (message : string) (use_ai : bool) (n : Z) :
  (7 * Py.len message <= 10 * Py.len (polish_with_ai claude gemini message use_ai n))%Z.
Proof.
  destruct (polish_cases message use_ai n) as [-> | [Hs _]].
  - unfold Py.len. lia.
  - unfold too_short in Hs. apply Z.ltb_ge in Hs. exact Hs.
Qed.

End PolishFacts.

(** ** What a request leaves alone

    After the message is logged, no branch of the handler touches the
    message log, and none removes a row of [blocked_numbers]. *)

Definition keeps (s s' : Store) : Prop :=
  messages s' = messages s
  /\ exists extra, blocked_numbers s' = (blocked_numbers s ++ extra)%list.

Lemma keeps_refl s : keeps s s.
Proof. split; [reflexivity|]. exists []. symmetry. apply app_nil_r. Qed.

Lemma keeps_trans s1 s2 s3 : keeps s1 s2 -> keeps s2 s3 -> keeps s1 s3.
Proof.
  intros [M1 [e1 B1]] [M2 [e2 B2]]. split; [congruence|].
  exists (e1 ++ e2)%list. rewrite B2, B1. symmetry. apply app_assoc.
Qed.

(** A step that changes neither table keeps both. *)
Lemma keeps_step s x x' :
  messages x' = messages x -> blocked_numbers x' = blocked_numbers x ->
  keeps s x -> keeps s x'.
Proof.
  intros M B K. apply (keeps_trans s x x'); [exact K|].
  split; [exact M|]. exists []. rewrite B. symmetry. apply app_nil_r.
Qed.

Section Frame.
Variable s : Store.

Lemma keeps_set_pending x v : keeps s x -> keeps s (set_pending x v).
Proof. now apply keeps_step. Qed.
Lemma keeps_set_progress x v : keeps s x -> keeps s (set_progress x v).
Proof. now apply keeps_step. Qed.
Lemma keeps_set_location x v : keeps s x -> keeps s (set_location x v).
Proof. now apply keeps_step. Qed.
Lemma keeps_set_reminders x v : keeps s x -> keeps s (set_reminders x v).
Proof. now apply keeps_step. Qed.
Lemma keeps_set_deposits x v : keeps s x -> keeps s (set_deposits x v).
Proof. now apply keeps_step. Qed.
Lemma keeps_set_tracking x v : keeps s x -> keeps s (set_tracking x v).
Proof. now apply keeps_step. Qed.

Lemma keeps_block x p r : keeps s x -> keeps s (block_phone_number x p r).
Proof.
  intro K. unfold block_phone_number. case_if; [exact K|].
  apply (keeps_trans s x); [exact K|].
  split; [reflexivity|]. eexists. reflexivity.
Qed.

Lemma keeps_increment_attempts x p :
  keeps s x -> keeps s (fst (increment_booking_attempts x p)).
Proof.
  intro K. unfold increment_booking_attempts.
  destruct (tracking_of x p); now apply keeps_set_tracking.
Qed.

Lemma keeps_increment_post x p :
  keeps s x -> keeps s (fst (increment_post_booking_messages x p)).
Proof.
  intro K. unfold increment_post_booking_messages.
  destruct (filter _ (tracking_of x p)); now apply keeps_set_tracking.
Qed.

Lemma keeps_save_progress pg x p d :
  keeps s x -> keeps s (fst (save_booking_progress pg x p d)).
Proof.
  intro K. unfold save_booking_progress.
  destruct (progress_of x p); now apply keeps_set_progress.
Qed.

Lemma keeps_delete_pending x p :
  keeps s x -> keeps s (delete_pending_confirmation x p).
Proof. apply keeps_set_pending. Qed.

Lemma keeps_save_pending x p d st aw ev nm :
  keeps s x -> keeps s (save_pending_confirmation x p d st aw ev nm).
Proof.
  intro K. unfold save_pending_confirmation.
  now apply keeps_set_pending, keeps_delete_pending.
Qed.

Lemma keeps_clear_progress x p :
  keeps s x -> keeps s (clear_booking_progress x p).
Proof. apply keeps_set_progress. Qed.
Lemma keeps_set_message_count x p n :
  keeps s x -> keeps s (set_message_count x p n).
Proof. apply keeps_set_tracking. Qed.
Lemma keeps_set_enquiry_sent x p :
  keeps s x -> keeps s (set_enquiry_sent x p).
Proof. apply keeps_set_tracking. Qed.
Lemma keeps_insert_tracking x r : keeps s x -> keeps s (insert_tracking x r).
Proof. apply keeps_set_tracking. Qed.
Lemma keeps_delete_tracking x p : keeps s x -> keeps s (delete_tracking x p).
Proof. apply keeps_set_tracking. Qed.
Lemma keeps_save_deposit x p d :
  keeps s x -> keeps s (save_deposit_request x p d).
Proof. apply keeps_set_deposits. Qed.
Lemma keeps_schedule x p n d c io a :
  keeps s x -> keeps s (schedule_room_detail_reminder x p n d c io a).
Proof. apply keeps_set_reminders. Qed.

End Frame.

Create HintDb frame.
#[local] Hint Resolve keeps_refl keeps_set_pending keeps_set_progress
  keeps_set_location keeps_set_reminders keeps_set_deposits
  keeps_set_tracking keeps_block keeps_increment_attempts
  keeps_increment_post keeps_save_progress keeps_delete_pending
  keeps_save_pending keeps_clear_progress keeps_set_message_count
  keeps_set_enquiry_sent keeps_insert_tracking keeps_delete_tracking
  keeps_save_deposit keeps_schedule : frame.

(** Split on every test of the goal, then close each case from the
    hints. *)
Ltac frame :=
  repeat case_if;
  repeat match goal with
         | |- context [match ?x with _ => _ end] => destruct x
         end;
  cbn [store respond]; auto 12 with frame.

Section HandlerFrame.
Variable pg : bool.
Variable claude gemini : option Rewriter.
Variable url adella : string.
Variable clock : string -> Cal.date.

Lemma keeps_handle_yes s0 s p m row :
  keeps s0 s -> keeps s0 (store (handle_yes claude gemini url s p m row)).
Proof. intro K. unfold handle_yes. frame. Qed.

Lemma keeps_handle_deposit s0 s p row :
  keeps s0 s -> keeps s0 (store (handle_deposit s p row)).
Proof. intro K. unfold handle_deposit. frame. Qed.

Lemma keeps_handle_merge s0 s p d e :
  keeps s0 s ->
  keeps s0 (store (handle_merge pg claude gemini url s p d e)).
Proof.
  intro K. unfold handle_merge, final_block, auto_enquiry, ask_missing.
  frame.
Qed.

Lemma keeps_handle_progress s0 s p m :
  keeps s0 s ->
  keeps s0 (store (handle_progress pg claude gemini url clock s p m)).
Proof.
  intro K. unfold handle_progress, final_block, auto_enquiry, ask_missing.
  cbv zeta.
  destruct (any_value _); [now apply keeps_handle_merge|].
  destruct (get_booking_progress pg s p) as [existing|].
  - repeat case_if; cbn [store respond]; auto with frame.
    destruct (missing_fields existing);
      [now apply keeps_handle_merge|cbn [store respond]; auto with frame].
  - frame.
Qed.

Lemma keeps_booking_flow s0 s p m :
  keeps s0 s ->
  keeps s0 (store (booking_flow pg claude gemini url clock s p m)).
Proof.
  intro K. unfold booking_flow. cbv zeta.
  destruct (if says_yes m then _ else _);
    [now apply keeps_handle_yes|].
  destruct (if says_deposit m then _ else _);
    [now apply keeps_handle_deposit|].
  destruct (check_post_booking_message_limit s p) as [limit sent].
  case_if; [cbn [store respond]; auto with frame|].
  case_if; [cbn [store respond]; destruct (tracking_of s p); auto with frame|].
  apply keeps_handle_progress. destruct (tracking_of s p); auto with frame.
Qed.

(** A request that is not dropped logs its message and otherwise keeps
    the log and the blocked set. *)
Lemma keeps_incoming s lookup p body :
  is_number_blocked lookup = false ->
  keeps (log_message s p (Py.strip body))
        (store (incoming_sms pg claude gemini url adella clock s lookup p
                             body)).
Proof.
  intro Hb. unfold incoming_sms. cbv zeta. rewrite Hb.
  case_if; [apply keeps_refl|].
  case_if; [apply keeps_refl|].
  case_if; [cbn [store respond]; auto with frame|].
  case_if; [|apply keeps_booking_flow, keeps_refl].
  destruct (parse_location_command _ _) as [[c address] intercom].
  unfold update_incall_location.
  destruct intercom; cbn [store respond]; auto with frame.
Qed.

End HandlerFrame.

(** ** Which branch a request takes *)

(** None of the branches before the booking flow fires. *)
Definition reaches_flow (phone_number message_body : string) : bool :=
  negb (is_enquiry message_body) && negb (is_unsafe message_body)
  && negb (is_cancellation message_body)
  && negb (is_admin_location phone_number message_body).

Lemma reaches_flow_inv (phone_number m : string) :
  reaches_flow phone_number m = true ->
  is_enquiry m = false /\ is_unsafe m = false /\ is_cancellation m = false
  /\ is_admin_location phone_number m = false.
Proof.
  unfold reaches_flow. intro H.
  repeat (apply andb_prop in H; destruct H as [H ?]).
  repeat match goal with
         | X : negb _ = true |- _ => apply negb_true_iff in X
         end.
  auto.
Qed.

Section BranchFacts.
Variable pg : bool.
Variable claude gemini : option Rewriter.
Variable url adella : string.
Variable clock : string -> Cal.date.

Let handle := incoming_sms pg claude gemini url adella clock.
Let flow := booking_flow pg claude gemini url clock.

Lemma incoming_reaches_flow s lookup phone_number body :
  is_number_blocked lookup = false ->
  reaches_flow phone_number (Py.strip body) = true ->
  handle s lookup phone_number body =
  flow (log_message s phone_number (Py.strip body)) phone_number
       (Py.strip body).
Proof.
  intros Hb Hr. apply reaches_flow_inv in Hr.
  destruct Hr as (He & Hu & Hc & Ha).
  unfold handle, incoming_sms. cbv zeta.
  rewrite Hb, He, Hu, Hc, Ha. reflexivity.
Qed.

Lemma flow_yes s phone_number m p :
  says_yes m = true ->
  get_pending_confirmation s phone_number = Some p ->
  flow s phone_number m = handle_yes claude gemini url s phone_number m p.
Proof.
  intros Hy Hp. unfold flow, booking_flow. cbv zeta.
  rewrite Hy, Hp. reflexivity.
Qed.

(** The pending row that [save_pending_confirmation] leaves is the one
    the next lookup finds. *)
Lemma pending_after_save s phone_number d st aw ev nm :
  get_pending_confirmation
    (save_pending_confirmation s phone_number d st aw ev nm) phone_number
  = Some (mkPending phone_number nm d st aw ev).
Proof.
  unfold get_pending_confirmation, save_pending_confirmation. cbn.
  rewrite String.eqb_refl. reflexivity.
Qed.

Lemma find_filter_none {A} (f : A -> bool) (l : list A) :
  find f (filter (fun x => negb (f x)) l) = None.
Proof.
  induction l as [|a l IH]; cbn; [reflexivity|].
  destruct (f a) eqn:E; cbn; [exact IH|]. rewrite E. exact IH.
Qed.

Lemma pending_after_delete s phone_number :
  get_pending_confirmation (delete_pending_confirmation s phone_number)
    phone_number = None.
Proof.
  unfold get_pending_confirmation, delete_pending_confirmation. cbn.
  apply (find_filter_none (fun r => String.eqb (pc_phone r) phone_number)).
Qed.

(** The condition under which the YES branch demands the deposit. *)
Definition deposit_required_by (s : Store) (phone_number m : string)
    (p : PendingRow) : bool :=
  Py.opt_eqb (incall_outcall (pc_details p)) "Outcall"
  || detect_profanity m
  || (3 <=? get_booking_attempts s phone_number)%Z
  || Py.opt_eqb (pc_booking_status p) "peacock_available".

Definition deposit_mandatory_reply (s : Store) (phone_number name : string)
  : string :=
  polish claude gemini
    (name ++ ", " ++ template url s "deposit_mandatory"
     ++ (if (3 <=? get_booking_attempts s phone_number)%Z
         then " (Due to multiple information requests)" else ""))
    0.

Lemma handle_yes_mandatory s phone_number m p name :
  extract_name_from_yes_message m = Some name ->
  deposit_required_by s phone_number m p = true ->
  let o := handle_yes claude gemini url s phone_number m p in
  reply o = Some (deposit_mandatory_reply s phone_number name)
  /\ get_pending_confirmation (store o) phone_number
     = Some (mkPending phone_number (Some name) (pc_details p)
               (Some "deposit_required") false (pc_peacock_event_id p))
  /\ sms o = [] /\ calendar o = [].
Proof.
  intros Hn Hd. unfold handle_yes. rewrite Hn.
  unfold deposit_required_by in Hd. unfold deposit_mandatory.
  rewrite Hd. cbn [reply store sms calendar respond].
  rewrite pending_after_save. auto.
Qed.

Lemma handle_yes_optional s phone_number m p name :
  extract_name_from_yes_message m = Some name ->
  deposit_required_by s phone_number m p = false ->
  let o := handle_yes claude gemini url s phone_number m p in
  (exists rest,
      reply o = Some (polish claude gemini
                        ("Booking confirmed for " ++ name ++ "." ++ rest) 0))
  /\ get_pending_confirmation (store o) phone_number = None
  /\ get_booking_attempts (store o) phone_number = 0%Z.
Proof.
  intros Hn Hd. unfold handle_yes. rewrite Hn.
  unfold deposit_required_by in Hd. unfold deposit_mandatory.
  rewrite Hd.
  apply orb_false_iff in Hd. destruct Hd as [Hd _].
  apply orb_false_iff in Hd. destruct Hd as [Hd _].
  apply orb_false_iff in Hd. destruct Hd as [Hout _].
  unfold format_location_for_confirmation. rewrite Hout. cbn [negb].
  cbn [reply store].
  split; [eexists; reflexivity|].
  split; [apply pending_after_delete|].
  unfold get_booking_attempts, tracking_of, delete_pending_confirmation,
    insert_tracking, delete_tracking. cbn.
  rewrite filter_app. cbn. rewrite String.eqb_refl.
  match goal with
  | |- context [filter ?f (filter ?g ?l)] =>
      assert (E : filter f (filter g l) = [])
  end.
  { induction (message_tracking _) as [|a l IH]; cbn; [reflexivity|].
    destruct (String.eqb (mt_phone a) phone_number) eqn:E; cbn; [exact IH|].
    rewrite E. exact IH. }
  rewrite E. reflexivity.
Qed.

End BranchFacts.

(** ** Counting distinct hits in a lexicon *)

Lemma two_hits_iff {A} (f : A -> bool) (l : list A) :
  NoDup l ->
  ((2 <=? List.length (filter f l))%nat = true <->
   exists x y, x <> y /\ In x l /\ In y l /\ f x = true /\ f y = true).
Proof.
  intro ND. pose proof (NoDup_filter f ND) as NDf.
  split.
  - intro H. apply Nat.leb_le in H.
    destruct (filter f l) as [|a [|b r]] eqn:E; cbn in H; try lia.
    assert (Ia : In a (filter f l)) by (rewrite E; cbn; auto).
    assert (Ib : In b (filter f l)) by (rewrite E; cbn; auto).
    apply filter_In in Ia, Ib. exists a, b.
    inversion NDf as [|? ? Hnotin _]; subst.
    repeat split; try tauto.
    intro Hab. apply Hnotin. subst. cbn. auto.
  - intros (x & y & Hxy & Hx & Hy & Fx & Fy).
    assert (Ix : In x (filter f l)) by (apply filter_In; auto).
    assert (Iy : In y (filter f l)) by (apply filter_In; auto).
    apply Nat.leb_le.
    destruct (filter f l) as [|a [|b r]]; cbn in *; try tauto; try lia.
    destruct Ix as [<-|[]], Iy as [<-|[]]. congruence.
Qed.

Lemma PROFANITY_WORDS_distinct : NoDup PROFANITY_WORDS.
Proof.
  unfold PROFANITY_WORDS.
  repeat (constructor; [cbn; intuition discriminate|]).
  constructor.
Qed.

(** [detect_profanity] holds exactly when two different words of the
    lexicon occur as whole words. *)
Lemma detect_profanity_iff (m : string) :
  detect_profanity m = true <->
  exists w1 w2, w1 <> w2 /\ In w1 PROFANITY_WORDS /\ In w2 PROFANITY_WORDS
                /\ whole_word w1 (Py.lower m) = true
                /\ whole_word w2 (Py.lower m) = true.
Proof.
  unfold detect_profanity, profanity_count.
  apply (two_hits_iff (fun w => whole_word w (Py.lower m))).
  apply PROFANITY_WORDS_distinct.
Qed.

(** ** Substitution where the pattern occurs nowhere *)



(** ** What name extraction accepts *)




(** ** The idle path: messages without booking fields

    The part of the handler that a message walks through when it reaches
    the booking flow, no confirmation is pending, nothing is stored for
    the sender and the message holds no booking field.  What it does
    depends on the sender's rows of [message_tracking] only. *)

(** The functions of the tracking table, on the rows of one sender. *)
Definition rows_set_count (n : Z) (rows : list TrackingRow)
  : list TrackingRow :=
  map (fun r => mkTracking (mt_phone r) (mt_booking_id r) n
                           (mt_enquiry_sent r)) rows.

Definition rows_set_sent (rows : list TrackingRow) : list TrackingRow :=
  map (fun r => mkTracking (mt_phone r) (mt_booking_id r)
                           (mt_message_count r) true) rows.

Definition rows_attempts (rows : list TrackingRow) : Z :=
  match rows with
  | row :: _ => mt_message_count row
  | [] => 0%Z
  end.

Definition rows_increment_attempts (p : string) (rows : list TrackingRow)
  : list TrackingRow :=
  match rows with
  | row :: _ => rows_set_count (mt_message_count row + 1) rows
  | [] => [mkTracking p None 1 false]
  end.

Definition has_booking (r : TrackingRow) : bool :=
  match mt_booking_id r with Some _ => true | None => false end.

Definition rows_increment_post (p : string) (rows : list TrackingRow)
  : list TrackingRow :=
  match filter has_booking rows with
  | row :: _ => rows_set_count (mt_message_count row + 1) rows
  | [] => (rows ++ [mkTracking p (Some 1%Z) 1 false])%list
  end.

Inductive idle_reply : Type :=
| Prompt (attempts : Z)
| AutoRedirect
| ChatterRedirect
| FinalRefusal.

(** The reply to an idle message and the sender's rows after it. *)
Definition idle_rows (p : string) (rows : list TrackingRow)
  : idle_reply * list TrackingRow :=
  let limit_reached := (3 <=? rows_attempts rows)%Z in
  let enquiry_sent :=
    match rows with row :: _ => mt_enquiry_sent row | [] => false end in
  if limit_reached && negb enquiry_sent
  then (ChatterRedirect, rows_set_sent rows)
  else
    let rows1 :=
      match rows with
      | _ :: _ => rows_increment_post p rows
      | [] => rows
      end in
    let attempts := rows_attempts rows1 in
    if (5 <=? attempts)%Z then (FinalRefusal, rows1)
    else if (4 <=? attempts)%Z
         then (AutoRedirect, rows_increment_attempts p rows1)
         else (Prompt attempts, rows_increment_attempts p rows1).

Definition is_final (k : idle_reply) : bool :=
  match k with FinalRefusal => true | _ => false end.

(** A change that leaves the log, the pending confirmations, the stored
    progress and the location as they are. *)
Definition same_conversation (s s' : Store) : Prop :=
  messages s' = messages s
  /\ pending_confirmations s' = pending_confirmations s
  /\ booking_progress s' = booking_progress s
  /\ incall_location s' = incall_location s.

Lemma same_conversation_refl s : same_conversation s s.
Proof. repeat split. Qed.

Lemma same_conversation_trans s1 s2 s3 :
  same_conversation s1 s2 -> same_conversation s2 s3 ->
  same_conversation s1 s3.
Proof.
  intros (A1 & A2 & A3 & A4) (B1 & B2 & B3 & B4).
  repeat split; congruence.
Qed.

Lemma tracking_of_set_message_count x p n :
  tracking_of (set_message_count x p n) p
  = map (fun r => mkTracking (mt_phone r) (mt_booking_id r) n
                             (mt_enquiry_sent r))
        (tracking_of x p).
Proof.
  unfold tracking_of, set_message_count. cbn.
  induction (message_tracking x) as [|a l IH]; [reflexivity|].
  cbn. destruct (String.eqb (mt_phone a) p) eqn:E; cbn; rewrite E, IH;
    reflexivity.
Qed.

Lemma tracking_of_set_enquiry_sent x p :
  tracking_of (set_enquiry_sent x p) p
  = map (fun r => mkTracking (mt_phone r) (mt_booking_id r)
                             (mt_message_count r) true)
        (tracking_of x p).
Proof.
  unfold tracking_of, set_enquiry_sent. cbn.
  induction (message_tracking x) as [|a l IH]; [reflexivity|].
  cbn. destruct (String.eqb (mt_phone a) p) eqn:E; cbn; rewrite E, IH;
    reflexivity.
Qed.

Section TrackingRows.
Variable p : string.

Lemma tracking_of_insert s r :
  mt_phone r = p ->
  tracking_of (insert_tracking s r) p = (tracking_of s p ++ [r])%list.
Proof.
  intro H. unfold tracking_of, insert_tracking. cbn.
  rewrite filter_app. cbn. rewrite H, String.eqb_refl. reflexivity.
Qed.

Lemma attempts_rows s : get_booking_attempts s p = rows_attempts (tracking_of s p).
Proof. reflexivity. Qed.

Lemma increment_attempts_rows s :
  tracking_of (fst (increment_booking_attempts s p)) p
  = rows_increment_attempts p (tracking_of s p)
  /\ same_conversation s (fst (increment_booking_attempts s p))
  /\ blocked_numbers (fst (increment_booking_attempts s p))
     = blocked_numbers s.
Proof.
  unfold increment_booking_attempts, rows_increment_attempts.
  destruct (tracking_of s p) as [|row rest] eqn:E; cbn [fst].
  - rewrite tracking_of_insert, E by reflexivity. repeat split.
  - rewrite tracking_of_set_message_count, E. repeat split.
Qed.

Lemma increment_post_rows s :
  tracking_of (fst (increment_post_booking_messages s p)) p
  = rows_increment_post p (tracking_of s p)
  /\ same_conversation s (fst (increment_post_booking_messages s p))
  /\ blocked_numbers (fst (increment_post_booking_messages s p))
     = blocked_numbers s.
Proof.
  unfold increment_post_booking_messages, rows_increment_post.
  change (fun r : TrackingRow =>
            match mt_booking_id r with Some _ => true | None => false end)
    with has_booking.
  destruct (filter has_booking (tracking_of s p)) as [|row rest];
    cbn [fst].
  - rewrite tracking_of_insert by reflexivity. repeat split.
  - rewrite tracking_of_set_message_count. repeat split.
Qed.

Lemma blocked_after_block s reason :
  blocked (block_phone_number s p reason) p = true.
Proof.
  unfold blocked, is_number_blocked, select_blocked, block_phone_number.
  destruct (existsb _ (blocked_numbers s)) eqn:E.
  - apply existsb_exists in E. destruct E as (b & I & E).
    apply Nat.ltb_lt.
    assert (In b (filter (fun b => String.eqb (fst b) p) (blocked_numbers s)))
      by (apply filter_In; auto).
    destruct (filter _ _); [contradiction|cbn; lia].
  - unfold set_blocked. cbn [blocked_numbers].
    rewrite filter_app, length_app. cbn [filter fst].
    rewrite String.eqb_refl. apply Nat.ltb_lt. cbn [List.length]. lia.
Qed.

End TrackingRows.

Lemma if_same {A} (b : bool) (x : A) : (if b then x else x) = x.
Proof. now destruct b. Qed.

Section IdleFacts.
Variable pg : bool.
Variable claude gemini : option Rewriter.
Variable url adella : string.
Variable clock : string -> Cal.date.
Variable p : string.

Let recv := receive pg claude gemini url adella clock.

(** Nothing is pending and nothing is stored for the sender. *)
Definition quiet (s : Store) : Prop :=
  get_pending_confirmation s p = None /\ progress_of s p = [].

Lemma quiet_same s s' : same_conversation s s' -> quiet s -> quiet s'.
Proof.
  intros (_ & P & B & _) [Q1 Q2].
  unfold quiet, get_pending_confirmation, progress_of in *.
  rewrite P, B. auto.
Qed.

Lemma template_same s s' x :
  incall_location s' = incall_location s ->
  template url s' x = template url s x.
Proof.
  intro H. unfold template, get_current_incall_location. now rewrite H.
Qed.

(** The handler from the chatter cap on, for a message without booking
    fields from a sender with nothing stored. *)
Definition idle_path (s : Store) : Outcome :=
  let (limit_reached, enquiry_sent) :=
    check_post_booking_message_limit s p in
  if limit_reached && negb enquiry_sent
  then respond (set_enquiry_sent s p) post_booking_chatter
  else
    let s1 :=
      match tracking_of s p with
      | _ :: _ => fst (increment_post_booking_messages s p)
      | [] => s
      end in
    let attempts := get_booking_attempts s1 p in
    if (5 <=? attempts)%Z
    then final_block claude gemini url s1 p reason_providing
    else if (4 <=? attempts)%Z then auto_enquiry claude gemini url s1 p
    else respond (fst (increment_booking_attempts s1 p))
           (polish claude gemini (template url s1 "random_request") attempts).

Lemma post_increment_same s :
  same_conversation s
    match tracking_of s p with
    | _ :: _ => fst (increment_post_booking_messages s p)
    | [] => s
    end.
Proof.
  destruct (tracking_of s p); [apply same_conversation_refl|].
  apply increment_post_rows.
Qed.

Lemma flow_idle s m :
  quiet s ->
  get_message_count s p <> 1%Z ->
  any_value (extract_booking_details (clock (get_current_timezone s)) m)
    = false ->
  booking_flow pg claude gemini url clock s p m = idle_path s.
Proof.
  intros [Qp Qb] Hc Hi. unfold booking_flow, idle_path. cbv zeta.
  rewrite Qp, !if_same.
  destruct (check_post_booking_message_limit s p) as [limit sent].
  case_if; [reflexivity|].
  pose proof (post_increment_same s) as (M & _ & B & L).
  set (s1 := match tracking_of s p with
             | _ :: _ => fst (increment_post_booking_messages s p)
             | [] => s
             end) in *.
  replace (get_message_count s1 p) with (get_message_count s p)
    by (unfold get_message_count; now rewrite M).
  apply Z.eqb_neq in Hc. rewrite Hc.
  unfold handle_progress. cbv zeta.
  replace (get_current_timezone s1) with (get_current_timezone s)
    by (unfold get_current_timezone, get_current_incall_location;
        now rewrite L).
  rewrite Hi.
  replace (get_booking_progress pg s1 p) with (@None Details);
    [reflexivity|].
  unfold get_booking_progress, progress_of in *. now rewrite B, Qb.
Qed.

Definition render (s : Store) (k : idle_reply) : string :=
  match k with
  | Prompt attempts =>
      polish claude gemini (template url s "random_request") attempts
  | AutoRedirect =>
      polish claude gemini (template url s "fourth_message_enquiry") 5
  | ChatterRedirect => post_booking_chatter
  | FinalRefusal =>
      polish claude gemini (template url s "fifth_message_block") 6
  end.

(** The idle path, told on the rows of the sender. *)
Lemma idle_path_rows s :
  let step := idle_rows p (tracking_of s p) in
  reply (idle_path s) = Some (render s (fst step))
  /\ tracking_of (store (idle_path s)) p = snd step
  /\ same_conversation s (store (idle_path s))
  /\ (blocked s p = false ->
      blocked (store (idle_path s)) p = is_final (fst step)).
Proof.
  unfold idle_path, idle_rows. cbv zeta.
  unfold check_post_booking_message_limit.
  rewrite (attempts_rows p).
  destruct (tracking_of s p) as [|row rows] eqn:T.
  - (* no row yet: the first prompt *)
    cbn [rows_attempts andb negb Z.leb Z.compare fst snd].
    rewrite T.
    cbn [rows_attempts andb negb Z.leb Z.compare fst snd reply store respond].
    destruct (increment_attempts_rows p s) as (R & C & B).
    rewrite R, T. repeat split; try apply C.
    unfold blocked, select_blocked. now rewrite B.
  - cbn [rows_attempts].
    case_if.
    + (* the chatter cap *)
      cbn [fst snd reply store respond].
      rewrite tracking_of_set_enquiry_sent, T. repeat split.
      intro H. exact H.
    + destruct (increment_post_rows p s) as (R1 & C1 & B1).
      set (s1 := fst (increment_post_booking_messages s p)) in *.
      rewrite R1, T.
      assert (L1 : incall_location s1 = incall_location s) by apply C1.
      destruct (increment_attempts_rows p s1) as (R2 & C2 & B2).
      unfold final_block, auto_enquiry.
      repeat case_if; cbn [fst snd reply store respond render is_final].
      * (* the final refusal *)
        rewrite !(template_same s s1) by exact L1.
        split; [reflexivity|]. split.
        { unfold block_phone_number, tracking_of. case_if; [|cbn];
            fold (tracking_of s1 p); now rewrite R1, T. }
        split.
        { apply (same_conversation_trans s s1); [exact C1|].
          unfold block_phone_number. case_if; repeat split. }
        intros _. apply blocked_after_block.
      * (* the automated redirect *)
        rewrite !(template_same s s1) by exact L1.
        rewrite R2, R1, T. split; [reflexivity|]. split; [reflexivity|].
        split; [apply (same_conversation_trans s s1); assumption|].
        unfold blocked, select_blocked. now rewrite B2, B1.
      * (* a prompt *)
        rewrite !(template_same s s1) by exact L1.
        rewrite R2, R1, T. split; [reflexivity|]. split; [reflexivity|].
        split; [apply (same_conversation_trans s s1); assumption|].
        unfold blocked, select_blocked. now rewrite B2, B1.
Qed.

(** One idle message from a sender who is not blocked and has written
    before. *)
Lemma idle_turn s body :
  blocked s p = false -> quiet s -> get_message_count s p <> 0%Z ->
  reaches_flow p (Py.strip body) = true ->
  any_value (extract_booking_details (clock (get_current_timezone s))
               (Py.strip body)) = false ->
  let o := recv s p body in
  let step := idle_rows p (tracking_of s p) in
  reply o = Some (render s (fst step))
  /\ tracking_of (store o) p = snd step
  /\ same_conversation (log_message s p (Py.strip body)) (store o)
  /\ blocked (store o) p = is_final (fst step).
Proof.
  intros Hb Q Hc Hr Hi o step. subst o step. unfold recv, receive.
  rewrite incoming_reaches_flow by assumption.
  set (s0 := log_message s p (Py.strip body)).
  assert (Q0 : quiet s0) by exact Q.
  assert (C0 : get_message_count s0 p <> 1%Z).
  { unfold s0, get_message_count, log_message in *. cbn [messages set_messages] in *.
    rewrite filter_app, length_app. cbn [filter fst].
    rewrite String.eqb_refl. cbn [List.length].
    rewrite Nat2Z.inj_add. cbn. lia. }
  rewrite flow_idle by assumption.
  destruct (idle_path_rows s0) as (R & T & C & B).
  repeat split; try apply C; auto.
Qed.

(** The first message ever of a sender who reaches the booking flow. *)
Lemma first_turn s body :
  blocked s p = false -> quiet s -> get_message_count s p = 0%Z ->
  tracking_of s p = [] ->
  reaches_flow p (Py.strip body) = true ->
  recv s p body
  = respond (log_message s p (Py.strip body))
      (polish claude gemini (template url s "first_contact") 0).
Proof.
  intros Hb [Qp Qb] Hc T Hr. unfold recv, receive.
  rewrite incoming_reaches_flow by assumption.
  unfold booking_flow. cbv zeta.
  change (get_pending_confirmation (log_message s p _) p)
    with (get_pending_confirmation s p).
  rewrite Qp, !if_same.
  unfold check_post_booking_message_limit.
  change (tracking_of (log_message s p (Py.strip body)) p)
    with (tracking_of s p).
  rewrite T. cbn [andb].
  replace (get_message_count (log_message s p (Py.strip body)) p) with 1%Z;
    [reflexivity|].
  unfold get_message_count, log_message in *. cbn [messages set_messages] in *.
  rewrite filter_app, length_app. cbn [filter fst].
  rewrite String.eqb_refl. cbn [List.length].
  rewrite Nat2Z.inj_add. cbn. lia.
Qed.

(** What the conversation has come to: the sender is not blocked, has
    written before, has nothing pending or stored, and has the rows
    [rows] in the tracking table; the location is that of [s0]. *)
Definition idle_state (s0 s : Store) (rows : list TrackingRow) : Prop :=
  blocked s p = false /\ quiet s /\ get_message_count s p <> 0%Z
  /\ tracking_of s p = rows /\ incall_location s = incall_location s0.

Lemma count_after_log s m :
  get_message_count (log_message s p m) p = (get_message_count s p + 1)%Z.
Proof.
  unfold get_message_count, log_message. cbn [messages set_messages].
  rewrite filter_app, length_app. cbn [filter fst].
  rewrite String.eqb_refl. cbn [List.length].
  rewrite Nat2Z.inj_add. reflexivity.
Qed.

Lemma count_nonneg s : (0 <= get_message_count s p)%Z.
Proof. unfold get_message_count. lia. Qed.

Lemma idle_turn_state s0 s rows body :
  idle_state s0 s rows ->
  reaches_flow p (Py.strip body) = true ->
  any_value (extract_booking_details (clock (get_current_timezone s0))
               (Py.strip body)) = false ->
  let o := recv s p body in
  let step := idle_rows p rows in
  reply o = Some (render s0 (fst step))
  /\ (is_final (fst step) = false -> idle_state s0 (store o) (snd step))
  /\ (is_final (fst step) = true -> blocked (store o) p = true)
  /\ tracking_of (store o) p = snd step.
Proof.
  intros (Hb & Q & Hc & T & L) Hr Hi o step. subst o step.
  assert (Hi' : any_value (extract_booking_details
                             (clock (get_current_timezone s))
                             (Py.strip body)) = false).
  { unfold get_current_timezone, get_current_incall_location.
    rewrite L. exact Hi. }
  destruct (idle_turn s body Hb Q Hc Hr Hi') as (R & T' & C & B).
  rewrite T in *.
  split.
  { rewrite R. apply f_equal.
    destruct (fst (idle_rows p rows)); cbn [render];
      rewrite ?(template_same s0 s) by exact L; reflexivity. }
  split; [|split; [|exact T']].
  - intro F. rewrite F in B.
    split; [exact B|]. split; [apply (quiet_same _ _ C); exact Q|].
    split.
    { destruct C as (M & _). unfold get_message_count at 1. rewrite M.
      fold (get_message_count (log_message s p (Py.strip body)) p).
      rewrite count_after_log. pose proof (count_nonneg s). lia. }
    split; [exact T'|]. destruct C as (_ & _ & _ & L'). rewrite L'. exact L.
  - intro F. rewrite F in B. exact B.
Qed.

Lemma first_turn_state s body :
  blocked s p = false -> quiet s -> get_message_count s p = 0%Z ->
  tracking_of s p = [] ->
  reaches_flow p (Py.strip body) = true ->
  reply (recv s p body)
  = Some (polish claude gemini (template url s "first_contact") 0)
  /\ idle_state s (store (recv s p body)) [].
Proof.
  intros Hb Q Hc T Hr. rewrite first_turn by assumption.
  cbn [reply store respond]. split; [reflexivity|].
  split; [exact Hb|]. split; [exact Q|].
  split; [rewrite count_after_log; lia|]. split; [exact T|reflexivity].
Qed.

Lemma recv_blocked s body :
  blocked s p = true -> recv s p body = mkOutcome None [] [] s.
Proof.
  intro H. unfold recv, receive, incoming_sms. cbv zeta.
  unfold blocked in H. rewrite H. reflexivity.
Qed.

Lemma converse_cons s body rest :
  converse pg claude gemini url adella clock s p (body :: rest)
  = (reply (recv s p body)
       :: fst (converse pg claude gemini url adella clock
                 (store (recv s p body)) p rest),
     snd (converse pg claude gemini url adella clock
            (store (recv s p body)) p rest)).
Proof.
  cbn [converse]. fold recv.
  now destruct (converse pg claude gemini url adella clock
                  (store (recv s p body)) p rest).
Qed.

End IdleFacts.

(** ** C1: five messages without booking fields *)

(** C1.  A new identity sends a first message that reaches the booking
    flow, then five messages that reach it and hold no booking field, then
    one more.  The first is answered by the first-contact reply.  The
    next three are answered by the missing-info prompt, at the attempt
    counts 0, 1 and 3; the fourth by the post-booking redirect of the
    chatter cap, which is not the automated redirect of the tier table,
    and the counter stands at 4 after it; the fifth by the final refusal,
    and the identity is blocked; the message after that gets no reply. *)
Theorem idle_conversation_trace :
  forall (pg : bool) (claude gemini : option Rewriter) (url adella : string)
         (clock : string -> Cal.date) (s : Store)
         (p b0 b1 b2 b3 b4 b5 b6 : string),
    blocked s p = false ->
    get_message_count s p = 0%Z ->
    tracking_of s p = [] ->
    quiet p s ->
    reaches_flow p (Py.strip b0) = true ->
    (forall b, In b [b1; b2; b3; b4; b5] ->
       reaches_flow p (Py.strip b) = true
       /\ any_value (extract_booking_details
                       (clock (get_current_timezone s)) (Py.strip b))
          = false) ->
    let run := converse pg claude gemini url adella clock s p
                        [b0; b1; b2; b3; b4; b5; b6] in
    let t := template url s in
    fst run =
      [Some (polish claude gemini (t "first_contact") 0);
       Some (polish claude gemini (t "random_request") 0);
       Some (polish claude gemini (t "random_request") 1);
       Some (polish claude gemini (t "random_request") 3);
       Some post_booking_chatter;
       Some (polish claude gemini (t "fifth_message_block") 6);
       None]
    /\ post_booking_chatter
       <> polish claude gemini (t "fourth_message_enquiry") 5
    /\ blocked (snd run) p = true
    /\ map mt_message_count (tracking_of (snd run) p) = [5; 5]%Z.
Proof.
  intros pg claude gemini url adella clock s p b0 b1 b2 b3 b4 b5 b6
         Hb Hc T Q H0 Hidle run t.
  assert (Hchatter : post_booking_chatter
                     <> polish claude gemini (t "fourth_message_enquiry") 5).
  { intro H.
    pose proof (polish_not_short claude gemini (t "fourth_message_enquiry")
                  USE_AI_POLISHING 5) as L.
    unfold polish in H. rewrite <- H in L.
    subst t. vm_compute in L. apply L. reflexivity. }
  pose (row n bk sent := mkTracking p bk n sent).
  assert (E1 : idle_rows p [] = (Prompt 0, [row 1%Z None false]))
    by reflexivity.
  assert (E2 : idle_rows p [row 1%Z None false]
               = (Prompt 1, [row 2%Z None false; row 2%Z (Some 1%Z) false]))
    by reflexivity.
  assert (E3 : idle_rows p [row 2%Z None false; row 2%Z (Some 1%Z) false]
               = (Prompt 3, [row 4%Z None false; row 4%Z (Some 1%Z) false]))
    by reflexivity.
  assert (E4 : idle_rows p [row 4%Z None false; row 4%Z (Some 1%Z) false]
               = (ChatterRedirect,
                  [row 4%Z None true; row 4%Z (Some 1%Z) true]))
    by reflexivity.
  assert (E5 : idle_rows p [row 4%Z None true; row 4%Z (Some 1%Z) true]
               = (FinalRefusal,
                  [row 5%Z None true; row 5%Z (Some 1%Z) true]))
    by reflexivity.
  destruct (first_turn_state pg claude gemini url adella clock p s b0
              Hb Q Hc T H0) as (R0 & S0).
  remember (store (receive pg claude gemini url adella clock s p b0)) as s0.
  destruct (Hidle b1) as [F1 I1]; [cbn; tauto|].
  destruct (idle_turn_state pg claude gemini url adella clock p s s0 _ b1
              S0 F1 I1) as (R1 & S1 & _).
  rewrite E1 in R1, S1. cbn [fst snd is_final render] in R1, S1.
  specialize (S1 eq_refl).
  remember (store (receive pg claude gemini url adella clock s0 p b1)) as s1.
  destruct (Hidle b2) as [F2 I2]; [cbn; tauto|].
  destruct (idle_turn_state pg claude gemini url adella clock p s s1 _ b2
              S1 F2 I2) as (R2 & S2 & _).
  rewrite E2 in R2, S2. cbn [fst snd is_final render] in R2, S2.
  specialize (S2 eq_refl).
  remember (store (receive pg claude gemini url adella clock s1 p b2)) as s2.
  destruct (Hidle b3) as [F3 I3]; [cbn; tauto|].
  destruct (idle_turn_state pg claude gemini url adella clock p s s2 _ b3
              S2 F3 I3) as (R3 & S3 & _).
  rewrite E3 in R3, S3. cbn [fst snd is_final render] in R3, S3.
  specialize (S3 eq_refl).
  remember (store (receive pg claude gemini url adella clock s2 p b3)) as s3.
  destruct (Hidle b4) as [F4 I4]; [cbn; tauto|].
  destruct (idle_turn_state pg claude gemini url adella clock p s s3 _ b4
              S3 F4 I4) as (R4 & S4 & _).
  rewrite E4 in R4, S4. cbn [fst snd is_final render] in R4, S4.
  specialize (S4 eq_refl).
  remember (store (receive pg claude gemini url adella clock s3 p b4)) as s4.
  destruct (Hidle b5) as [F5 I5]; [cbn; tauto|].
  destruct (idle_turn_state pg claude gemini url adella clock p s s4 _ b5
              S4 F5 I5) as (R5 & _ & S5 & T5).
  rewrite E5 in R5, S5, T5. cbn [fst snd is_final render] in R5, S5, T5.
  specialize (S5 eq_refl).
  remember (store (receive pg claude gemini url adella clock s4 p b5)) as s5.
  pose proof (recv_blocked pg claude gemini url adella clock p s5 b6 S5)
    as R6.
  subst run. rewrite !converse_cons. cbn [converse fst snd].
  rewrite <- Heqs0, R0, <- Heqs1, R1, <- Heqs2, R2, <- Heqs3, R3,
    <- Heqs4, R4, <- Heqs5, R5, R6.
  cbn [reply store].
  split; [reflexivity|]. split; [exact Hchatter|].
  split; [exact S5|]. rewrite T5. reflexivity.
Qed.

Definition stranger : string := "+61400000001".

Definition quiet_clock : string -> Cal.date := fun _ => Cal.Date 2026 11 4.

Lemma idle_conversation_trace_witness :
  let run := converse true None None "http://localhost:5000" "+61412345729"
               quiet_clock init_db stranger
               ["hi"; "hello"; "hello"; "hello"; "hello"; "hello"; "hello"] in
  let t := template "http://localhost:5000" init_db in
  fst run =
    [Some (t "first_contact"); Some (t "random_request");
     Some (t "random_request"); Some (t "random_request");
     Some post_booking_chatter; Some (t "fifth_message_block"); None]
  /\ blocked_numbers (snd run) = [(stranger, reason_providing)].
Proof.
  cbv zeta.
  assert (Hidle : forall b, In b ["hello"; "hello"; "hello"; "hello"; "hello"] ->
            reaches_flow stranger (Py.strip b) = true
            /\ any_value (extract_booking_details
                            (quiet_clock (get_current_timezone init_db))
                            (Py.strip b)) = false).
  { intros b Hin. assert (b = "hello") by (cbn in Hin; intuition).
    subst b. split; vm_compute; reflexivity. }
  assert (Hr : reaches_flow stranger (Py.strip "hi") = true)
    by (vm_compute; reflexivity).
  pose proof (idle_conversation_trace true None None "http://localhost:5000"
                "+61412345729" quiet_clock init_db stranger
                "hi" "hello" "hello" "hello" "hello" "hello" "hello"
                eq_refl eq_refl eq_refl (conj eq_refl eq_refl) Hr Hidle) as W.
  cbv zeta in W. destruct W as (W & _).
  split; [rewrite W; reflexivity|].
  vm_compute. reflexivity.
Defined.

(** ** C3: the deposit rule of the YES branch *)

(** The store after a client has given every field of an Outcall
    booking: a pending confirmation with status [available]. *)
Definition outcall_pending_store : Store :=
  Eval vm_compute in
    snd (converse true None None "http://localhost:5000" "+61412345729"
           quiet_clock init_db stranger
           ["hi";
            "Sydney friday 7pm 2 hours GFE outcall 12 Smith Street, Glenelg 5045"]).

Definition outcall_pending : PendingRow :=
  mkPending stranger None
    (mkDetails (Some "Sydney") (Some "Friday 06/11/2026") (Some "7:00PM")
       (Some "2 hour") (Some "GFE") (Some "Outcall")
       (Some "12 Smith Street, Glenelg 5045"))
    (Some "available") false None.

(** C3.  A YES message with a usable name, arriving while a confirmation
    is pending and reaching the YES branch, makes the deposit mandatory
    exactly when the booking is an Outcall, or the message holds two
    different profanity words, or the attempt count is 3 or more, or the
    pending status is [peacock_available].  Then the pending status
    becomes [deposit_required] and the reply is the deposit-mandatory
    message, with the reason appended exactly when the attempt count is 3
    or more; otherwise the booking is confirmed and the pending
    confirmation is gone.  An Outcall booking always takes the first
    path. *)
Theorem yes_deposit_rule :
  forall (pg : bool) (claude gemini : option Rewriter) (url adella : string)
         (clock : string -> Cal.date) (s : Store)
         (lookup : query_result (string * string))
         (phone_number body name : string) (p : PendingRow),
    is_number_blocked lookup = false ->
    reaches_flow phone_number (Py.strip body) = true ->
    says_yes (Py.strip body) = true ->
    get_pending_confirmation s phone_number = Some p ->
    extract_name_from_yes_message (Py.strip body) = Some name ->
    let m := Py.strip body in
    let o := incoming_sms pg claude gemini url adella clock s lookup
                          phone_number body in
    let three_strikes := (3 <=? get_booking_attempts s phone_number)%Z in
    let mandatory :=
      Py.opt_eqb (incall_outcall (pc_details p)) "Outcall"
      || detect_profanity m || three_strikes
      || Py.opt_eqb (pc_booking_status p) "peacock_available" in
    let demanded :=
      reply o =
        Some (polish claude gemini
                (name ++ ", " ++ template url s "deposit_mandatory"
                 ++ (if three_strikes
                     then " (Due to multiple information requests)" else ""))
                0)
      /\ get_pending_confirmation (store o) phone_number
         = Some (mkPending phone_number (Some name) (pc_details p)
                   (Some "deposit_required") false (pc_peacock_event_id p)) in
    (detect_profanity m = true <->
     exists w1 w2, w1 <> w2 /\ In w1 PROFANITY_WORDS /\ In w2 PROFANITY_WORDS
                   /\ whole_word w1 (Py.lower m) = true
                   /\ whole_word w2 (Py.lower m) = true)
    /\ (if mandatory then demanded
        else (exists rest,
                 reply o = Some (polish claude gemini
                                   ("Booking confirmed for " ++ name ++ "."
                                    ++ rest) 0))
             /\ get_pending_confirmation (store o) phone_number = None)
    /\ (Py.opt_eqb (incall_outcall (pc_details p)) "Outcall" = true ->
        demanded).
Proof.
  intros pg claude gemini url adella clock s lookup phone_number body name p
         Hb Hr Hy Hp Hn m o three_strikes mandatory demanded.
  assert (Ho : o = handle_yes claude gemini url
                     (log_message s phone_number m) phone_number m p).
  { subst o. rewrite incoming_reaches_flow by assumption.
    apply flow_yes; assumption. }
  assert (Hm : mandatory = true -> demanded).
  { intro M. subst demanded. rewrite Ho.
    destruct (handle_yes_mandatory claude gemini url
                (log_message s phone_number m) phone_number m p name Hn M)
      as (R & P & _).
    split; [exact R|exact P]. }
  split; [apply detect_profanity_iff|]. split.
  - destruct mandatory eqn:M; [apply Hm; reflexivity|].
    rewrite Ho.
    destruct (handle_yes_optional claude gemini url
                (log_message s phone_number m) phone_number m p name Hn M)
      as (R & P & _).
    split; [exact R|exact P].
  - intro Hout. apply Hm. subst mandatory. rewrite Hout. reflexivity.
Qed.

Lemma yes_deposit_rule_witness :
  let o := incoming_sms true None None "http://localhost:5000" "+61412345729"
             quiet_clock outcall_pending_store
             (Rows (select_blocked outcall_pending_store stranger))
             stranger "John YES" in
  get_pending_confirmation outcall_pending_store stranger
    = Some outcall_pending
  /\ reply o =
       Some ("John, A $100 deposit is required to confirm this booking."
             ++ Py.nl ++ Py.nl ++ "Text DEPOSIT for payment details.")
  /\ option_map pc_booking_status
       (get_pending_confirmation (store o) stranger)
     = Some (Some "deposit_required").
Proof.
  cbv zeta.
  assert (Hp : get_pending_confirmation outcall_pending_store stranger
               = Some outcall_pending) by (vm_compute; reflexivity).
  assert (Hb : is_number_blocked
                 (Rows (select_blocked outcall_pending_store stranger))
               = false) by (vm_compute; reflexivity).
  assert (Hr : reaches_flow stranger (Py.strip "John YES") = true)
    by (vm_compute; reflexivity).
  assert (Hy : says_yes (Py.strip "John YES") = true)
    by (vm_compute; reflexivity).
  assert (Hn : extract_name_from_yes_message (Py.strip "John YES")
               = Some "John") by (vm_compute; reflexivity).
  pose proof (yes_deposit_rule true None None "http://localhost:5000"
                "+61412345729" quiet_clock outcall_pending_store
                (Rows (select_blocked outcall_pending_store stranger))
                stranger "John YES" "John" outcall_pending
                Hb Hr Hy Hp Hn) as W.
  cbv zeta in W. destruct W as (_ & _ & W).
  destruct (W eq_refl) as (R & P).
  split; [exact Hp|].
  split; [rewrite R; vm_compute; reflexivity|].
  rewrite P. reflexivity.
Defined.

(** ** C9: a 'yes' inside a longer word *)






(** ** C10: the block check fails open *)

(** A store in which the stranger is blocked. *)
Definition blocked_store : Store :=
  Eval vm_compute in block_phone_number init_db stranger reason_providing.

(** C10.  When the blocked-numbers lookup raises, [is_number_blocked]
    answers [False]: the request is handled exactly as one from an
    identity with no row in the table and its message is logged.  A
    blocked sender who is dropped when the lookup answers gets the
    first-contact reply when it raises. *)
Theorem block_check_fails_open :
  forall (pg : bool) (claude gemini : option Rewriter) (url adella : string)
         (clock : string -> Cal.date) (s : Store)
         (phone_number body : string),
    let handle := incoming_sms pg claude gemini url adella clock in
    is_number_blocked Raised = false
    /\ handle s Raised phone_number body = handle s (Rows []) phone_number body
    /\ messages (store (handle s Raised phone_number body))
       = (messages s ++ [(phone_number, Py.strip body)])%list
    /\ blocked blocked_store stranger = true
    /\ reply (handle blocked_store
                (Rows (select_blocked blocked_store stranger)) stranger "hello")
       = None
    /\ reply (handle blocked_store Raised stranger "hello")
       = Some (polish claude gemini
                 (template url blocked_store "first_contact") 0).
Proof.
  intros. subst handle.
  split; [reflexivity|]. split; [reflexivity|].
  split.
  { destruct (keeps_incoming pg claude gemini url adella clock s Raised
                phone_number body eq_refl) as [M _].
    rewrite M. reflexivity. }
  split; [reflexivity|].
  split; cbv -[polish]; reflexivity.
Qed.

(** ** C2: a blocked identity is dropped *)

Lemma blocked_grows s s' p extra :
  blocked_numbers s' = (blocked_numbers s ++ extra)%list ->
  blocked s p = true -> blocked s' p = true.
Proof.
  unfold blocked, is_number_blocked, select_blocked. intros E H.
  rewrite E, filter_app, length_app.
  apply Nat.ltb_lt in H. apply Nat.ltb_lt. lia.
Qed.

Section BlockFinality.
Variable pg : bool.
Variable claude gemini : option Rewriter.
Variable url adella : string.
Variable clock : string -> Cal.date.

Let recv := receive pg claude gemini url adella clock.
Let srv := serve pg claude gemini url adella clock.

Lemma receive_blocked s p body :
  blocked s p = true -> recv s p body = mkOutcome None [] [] s.
Proof.
  intro H. unfold recv, receive, incoming_sms. cbv zeta.
  unfold blocked in H. rewrite H. reflexivity.
Qed.

Lemma receive_keeps_blocked s p q body :
  blocked s p = true -> blocked (store (recv s q body)) p = true.
Proof.
  intro H. destruct (blocked s q) eqn:Bq.
  - rewrite receive_blocked by exact Bq. exact H.
  - destruct (keeps_incoming pg claude gemini url adella clock s
                (Rows (select_blocked s q)) q body Bq) as [_ [extra E]].
    apply (blocked_grows (log_message s q (Py.strip body)) _ p extra);
      [exact E|exact H].
Qed.

Lemma serve_blocked p :
  forall requests s,
    blocked s p = true ->
    (forall r, In (p, r) (fst (srv s requests)) -> r = None)
    /\ blocked (snd (srv s requests)) p = true.
Proof.
  induction requests as [|[q body] rest IH]; intros s H.
  - split; [intros r []|exact H].
  - unfold srv. cbn [serve]. fold srv. fold recv.
    pose proof (receive_keeps_blocked s p q body H) as H'.
    destruct (IH _ H') as [IHa IHb].
    destruct (srv (store (recv s q body)) rest) as [answers s'] eqn:E.
    cbn [fst snd] in *. split; [|exact IHb].
    intros r [Hr|Hr]; [|now apply IHa].
    injection Hr as -> <-. rewrite receive_blocked by exact H. reflexivity.
Qed.

End BlockFinality.

(** C2 as stated fails: the stranger is in the block set, the lookup
    raises, and the message is answered. *)
Lemma blocked_sender_answered :
  In stranger (map fst (blocked_numbers blocked_store))
  /\ reply (incoming_sms true None None "http://localhost:5000"
              "+61412345729" quiet_clock blocked_store Raised stranger
              "hello")
     <> None.
Proof.
  split; [left; reflexivity|]. vm_compute. discriminate.
Qed.

(** C2, amended.  For an identity in the block set, every request whose
    blocked-numbers lookup answers is dropped: no reply, nothing sent,
    the store untouched.  The identity stays in the block set whatever
    requests of whatever senders are served, and each of its own gets no
    reply. *)
Theorem blocked_identity_dropped :
  forall (pg : bool) (claude gemini : option Rewriter) (url adella : string)
         (clock : string -> Cal.date) (s : Store) (phone_number : string),
    blocked s phone_number = true ->
    (forall body,
        incoming_sms pg claude gemini url adella clock s
          (Rows (select_blocked s phone_number)) phone_number body
        = mkOutcome None [] [] s)
    /\ (forall requests,
           let served := serve pg claude gemini url adella clock s requests in
           (forall r, In (phone_number, r) (fst served) -> r = None)
           /\ blocked (snd served) phone_number = true).
Proof.
  intros pg claude gemini url adella clock s phone_number H. split.
  - intro body. apply (receive_blocked pg claude gemini url adella clock).
    exact H.
  - intro requests. apply serve_blocked. exact H.
Qed.

Lemma blocked_identity_dropped_witness :
  blocked blocked_store stranger = true
  /\ ((forall body,
          incoming_sms true None None "http://localhost:5000" "+61412345729"
            quiet_clock blocked_store
            (Rows (select_blocked blocked_store stranger)) stranger body
          = mkOutcome None [] [] blocked_store)
      /\ (forall requests,
             let served := serve true None None "http://localhost:5000"
                             "+61412345729" quiet_clock blocked_store
                             requests in
             (forall r, In (stranger, r) (fst served) -> r = None)
             /\ blocked (snd served) stranger = true))
  /\ fst (serve true None None "http://localhost:5000" "+61412345729"
            quiet_clock blocked_store
            [(stranger, "hello"); ("+61400000002", "hi"); (stranger, "cancel")])
     = [(stranger, None);
        ("+61400000002",
         Some (template "http://localhost:5000" blocked_store "first_contact"));
        (stranger, None)].
Proof.
  split; [reflexivity|].
  split; [apply blocked_identity_dropped; reflexivity|].
  vm_compute. reflexivity.
Defined.

(** ** C4: merging booking fields *)

Lemma por_idem (a : option string) : Py.por a a = a.
Proof. unfold Py.por. now destruct (Py.truthy a). Qed.

Lemma por_falsy (a b : option string) : Py.truthy a = false -> Py.por a b = b.
Proof. unfold Py.por. now intros ->. Qed.

Lemma por_truthy (a b : option string) : Py.truthy a = true -> Py.por a b = a.
Proof. unfold Py.por. now intros ->. Qed.

(** The merge written in [incoming_sms] follows the rule, field by
    field. *)
Lemma merge_details_rule (new_details old : Details)
    (field : Details -> option string) :
  In field [city; date; time; duration; experience_type; incall_outcall;
            outcall_address] ->
  field (merge_details new_details old)
  = if Py.truthy (field new_details) then field new_details else field old.
Proof.
  cbn [In]. intuition subst; reflexivity.
Qed.

Lemma merge_details_self (d : Details) : merge_details d d = d.
Proof.
  destruct d. unfold merge_details. cbn. now rewrite !por_idem.
Qed.

Lemma merge_details_empty (u d : Details) :
  any_value u = false -> merge_details u d = d.
Proof.
  destruct u, d. unfold any_value, values, merge_details. cbn.
  intro H. repeat (apply orb_false_iff in H; destruct H as [? H]).
  now rewrite !por_falsy.
Qed.

(** With rows read by name, [save_booking_progress] stores the merge of
    the update into the stored row. *)
Lemma save_by_name_merges s phone_number details current rest :
  progress_of s phone_number = current :: rest ->
  snd (save_booking_progress true s phone_number details)
  = merge_details details (bp_details current).
Proof.
  intro H. unfold save_booking_progress. rewrite H. reflexivity.
Qed.

(** With rows read by position, each stored value is taken from the
    column to its left: the phone number stands in for the city, the
    city for the date, and so on. *)
Lemma save_by_position_shifts s phone_number details current rest :
  progress_of s phone_number = current :: rest ->
  snd (save_booking_progress false s phone_number details)
  = merge_details details
      (mkDetails (Some (bp_phone current)) (city (bp_details current))
         (date (bp_details current)) (time (bp_details current))
         (duration (bp_details current))
         (experience_type (bp_details current))
         (incall_outcall (bp_details current))).
Proof.
  intro H. unfold save_booking_progress. rewrite H. reflexivity.
Qed.

(** C4.  On SQLite (rows read by position) the merge of
    [save_booking_progress] does not keep the old value of an empty
    field.  A client gives the city, then the experience type: the stored
    progress then holds the city as its date.  Read by name, the same
    conversation stores what the rule says; and merging a stored row that
    has only a city with itself, or with an all-empty update, changes
    it. *)
Theorem sqlite_merge_shifts_columns :
  forall (claude gemini : option Rewriter) (url adella : string)
         (clock : string -> Cal.date),
    let run pg := converse pg claude gemini url adella clock init_db stranger
                           ["hi"; "Sydney"; "gfe"] in
    let only_city := mkDetails (Some "Sydney") None None None None None None in
    let stored := set_progress init_db [mkProgress stranger only_city] in
    map bp_details (booking_progress (snd (run false)))
      = [mkDetails (Some "Sydney") (Some "Sydney") None None (Some "GFE")
                   None None]
    /\ map bp_details (booking_progress (snd (run true)))
      = [mkDetails (Some "Sydney") None None None (Some "GFE") None None]
    /\ snd (save_booking_progress false stored stranger only_city)
       = mkDetails (Some "Sydney") (Some "Sydney") None None None None None
    /\ snd (save_booking_progress false stored stranger no_details)
       = mkDetails (Some stranger) (Some "Sydney") None None None None None
    /\ snd (save_booking_progress true stored stranger only_city) = only_city
    /\ snd (save_booking_progress true stored stranger no_details) = only_city.
Proof.
  intros claude gemini url adella clock run only_city stored.
  subst run only_city stored.
  split; [cbv -[polish]; reflexivity|].
  split; [cbv -[polish]; reflexivity|].
  repeat split.
Qed.

(** ** C5: cancellation *)

(** What the cancellation branch does to the store. *)
Lemma cancellation_outcome :
  forall (pg : bool) (claude gemini : option Rewriter) (url adella : string)
         (clock : string -> Cal.date) (s : Store)
         (lookup : query_result (string * string))
         (phone_number body : string),
    is_number_blocked lookup = false ->
    is_enquiry (Py.strip body) = false ->
    is_unsafe (Py.strip body) = false ->
    is_cancellation (Py.strip body) = true ->
    let o := incoming_sms pg claude gemini url adella clock s lookup
                          phone_number body in
    reply o = Some (polish claude gemini (template url s "booking_cancelled") 0)
    /\ get_pending_confirmation (store o) phone_number = None
    /\ tracking_of (store o) phone_number = []
    /\ booking_progress (store o) = booking_progress s
    /\ room_detail_reminders (store o) = room_detail_reminders s
    /\ deposit_requests (store o) = deposit_requests s.
Proof.
  intros pg claude gemini url adella clock s lookup phone_number body
         Hb He Hu Hc o.
  subst o. unfold incoming_sms. cbv zeta. rewrite Hb, He, Hu, Hc.
  cbn [reply store respond].
  split; [reflexivity|]. split; [apply pending_after_delete|].
  split; [|repeat split].
  unfold tracking_of, delete_tracking. cbn.
  induction (message_tracking s) as [|a l IH]; cbn; [reflexivity|].
  destruct (String.eqb (mt_phone a) phone_number) eqn:E; cbn; [exact IH|].
  rewrite E. exact IH.
Qed.

(** C5.  A client gives a city and then cancels.  The cancellation is
    acknowledged and the tracking rows are gone, but the stored booking
    progress is still there, and the next message is answered from it:
    the city is not asked for again. *)
Theorem cancellation_keeps_progress :
  forall (pg : bool) (claude gemini : option Rewriter) (url adella : string)
         (clock : string -> Cal.date),
    let run := converse pg claude gemini url adella clock init_db stranger
                        ["hi"; "Sydney"; "cancel"; "hello"] in
    let t := template url init_db in
    fst run =
      [Some (polish claude gemini (t "first_contact") 0);
       Some (polish claude gemini
               "I still need: Date, Time, Duration, Experience (GFE/PSE), Incall or Outcall"
               0);
       Some (polish claude gemini (t "booking_cancelled") 0);
       Some (polish claude gemini
               "I still need: Date, Time, Duration, Experience (GFE/PSE), Incall or Outcall"
               0)]
    /\ booking_progress (snd run)
       = [mkProgress stranger
            (mkDetails (Some "Sydney") None None None None None None)]
    /\ booking_progress
         (clear_booking_progress (snd run) stranger) = [].
Proof.
  intros pg claude gemini url adella clock run t. subst run t.
  split; [destruct pg; cbv -[polish]; reflexivity|].
  split; destruct pg; cbv -[polish]; reflexivity.
Qed.

(** ** C6: the safety checks of the tone pass *)

Section PolishSafety.
Variable claude gemini : option Rewriter.
Variable message : string.
Variable n : Z.

Lemma polish_unconfigured :
  claude = None -> gemini = None ->
  polish_with_ai claude gemini message true n = message.
Proof. intros -> ->. reflexivity. Qed.

Lemma polish_disabled : polish_with_ai claude gemini message false n = message.
Proof. reflexivity. Qed.

(** Every configured backend raises. *)
Lemma polish_all_raise :
  (forall f, claude = Some f -> f (tone_instruction n) message = None) ->
  (forall g, gemini = Some g -> g (tone_instruction n) message = None) ->
  polish_with_ai claude gemini message true n = message.
Proof.
  intros Hc Hg. unfold polish_with_ai, polish_gemini.
  case_if; [reflexivity|].
  destruct claude as [f|]; [rewrite (Hc f eq_refl)|];
    (destruct gemini as [g|]; [rewrite (Hg g eq_refl)|]); reflexivity.
Qed.

(** A Claude answer that fails a check is replaced by the template. *)
Lemma polish_claude_rejected f text :
  claude = Some f -> f (tone_instruction n) message = Some text ->
  claude_rejects (Py.strip text) message = true ->
  polish_with_ai claude gemini message true n = message.
Proof.
  intros -> Hf Hr. unfold polish_with_ai. cbn. rewrite Hf, Hr. reflexivity.
Qed.

(** A Gemini answer that fails one of the checks made on that path. *)
Lemma polish_gemini_rejected g text :
  claude = None -> gemini = Some g ->
  g (tone_instruction n) message = Some text ->
  gemini_rejects (Py.strip text) message = true ->
  polish_with_ai claude gemini message true n = message.
Proof.
  intros -> -> Hg Hr. unfold polish_with_ai, polish_gemini. cbn.
  rewrite Hg, Hr. reflexivity.
Qed.

End PolishSafety.

Definition refusing : Rewriter := fun _ _ => Some "I cannot do it".
Definition raising : Rewriter := fun _ _ => None.

(** C6.  The Gemini path does not look for "cannot" or "unable".  With
    Gemini as the only backend, or with a Claude call that raises, a
    refusal of acceptable length is sent in place of the template; the
    same answer from Claude is rejected. *)
Theorem gemini_refusal_sent :
  let message := "GFE or PSE?" in
  let answer := "I cannot do it" in
  too_short answer message = false
  /\ too_long answer message = false
  /\ Py.contains "cannot" (Py.take 50 (Py.lower answer)) = true
  /\ polish_with_ai None (Some refusing) message true 0 = answer
  /\ polish_with_ai (Some raising) (Some refusing) message true 0 = answer
  /\ polish_with_ai (Some refusing) None message true 0 = message.
Proof.
  cbv zeta. repeat split; vm_compute; reflexivity.
Qed.

(** ** C8: the chatter cap reads the attempt counter *)

(** The count that [increment_booking_attempts] returns is the one the
    next read of the table finds. *)
Lemma attempts_after_increment x p :
  get_booking_attempts (fst (increment_booking_attempts x p)) p
  = snd (increment_booking_attempts x p).
Proof.
  unfold get_booking_attempts, increment_booking_attempts.
  destruct (tracking_of x p) as [|row rest] eqn:E; cbn [fst snd].
  - unfold tracking_of, insert_tracking in *. cbn.
    rewrite filter_app, E. cbn. rewrite String.eqb_refl. reflexivity.
  - rewrite tracking_of_set_message_count, E. reflexivity.
Qed.

(** The chatter cap compares the very number the escalation reads. *)
Lemma limit_reads_attempts s p :
  fst (check_post_booking_message_limit s p)
  = (3 <=? get_booking_attempts s p)%Z.
Proof.
  unfold check_post_booking_message_limit, get_booking_attempts.
  destruct (tracking_of s p); reflexivity.
Qed.

(** Neither the YES branch nor the DEPOSIT branch takes the message. *)
Definition passes_confirmation (s : Store) (phone_number m : string) : bool :=
  match get_pending_confirmation s phone_number with
  | Some _ => negb (says_yes m) && negb (says_deposit m)
  | None => true
  end.

(** C8.  The chatter cap reads the counter that
    [increment_booking_attempts] writes, whether or not a booking was
    ever confirmed.  Once that counter is 3 or more and the redirect has
    not been sent, a message that passes the earlier branches is answered
    with the 'text ENQUIRY' redirect and the flag is set; the handler
    stops there: the counter, the stored progress and the block set are
    as before. *)
Theorem chatter_cap_reads_attempts :
  forall (pg : bool) (claude gemini : option Rewriter) (url adella : string)
         (clock : string -> Cal.date) (s : Store)
         (lookup : query_result (string * string))
         (phone_number body : string),
    is_number_blocked lookup = false ->
    reaches_flow phone_number (Py.strip body) = true ->
    passes_confirmation s phone_number (Py.strip body) = true ->
    (3 <= get_booking_attempts s phone_number)%Z ->
    snd (check_post_booking_message_limit s phone_number) = false ->
    let o := incoming_sms pg claude gemini url adella clock s lookup
                          phone_number body in
    (forall x,
        get_booking_attempts (fst (increment_booking_attempts x phone_number))
                             phone_number
        = snd (increment_booking_attempts x phone_number)
        /\ fst (check_post_booking_message_limit
                  (fst (increment_booking_attempts x phone_number))
                  phone_number)
           = (3 <=? snd (increment_booking_attempts x phone_number))%Z)
    /\ reply o = Some post_booking_chatter
    /\ store o
       = set_enquiry_sent (log_message s phone_number (Py.strip body))
                          phone_number
    /\ snd (check_post_booking_message_limit (store o) phone_number) = true
    /\ get_booking_attempts (store o) phone_number
       = get_booking_attempts s phone_number
    /\ booking_progress (store o) = booking_progress s
    /\ blocked_numbers (store o) = blocked_numbers s.
Proof.
  intros pg claude gemini url adella clock s lookup phone_number body
         Hb Hr Hp H3 Hsent o.
  split.
  { intro x. rewrite limit_reads_attempts, attempts_after_increment. auto. }
  assert (Ho : o = respond
                 (set_enquiry_sent
                    (log_message s phone_number (Py.strip body)) phone_number)
                 post_booking_chatter).
  { subst o. rewrite incoming_reaches_flow by assumption.
    unfold booking_flow. cbv zeta.
    change (get_pending_confirmation (log_message s phone_number _)
              phone_number)
      with (get_pending_confirmation s phone_number).
    change (check_post_booking_message_limit (log_message s phone_number _)
              phone_number)
      with (check_post_booking_message_limit s phone_number).
    unfold passes_confirmation in Hp.
    assert (Hy : (if says_yes (Py.strip body)
                  then get_pending_confirmation s phone_number else None)
                 = None).
    { destruct (get_pending_confirmation s phone_number);
        [|now destruct (says_yes _)].
      apply andb_prop in Hp. destruct Hp as [Hp _].
      apply negb_true_iff in Hp. now rewrite Hp. }
    assert (Hd : (if says_deposit (Py.strip body)
                  then get_pending_confirmation s phone_number else None)
                 = None).
    { destruct (get_pending_confirmation s phone_number);
        [|now destruct (says_deposit _)].
      apply andb_prop in Hp. destruct Hp as [_ Hp].
      apply negb_true_iff in Hp. now rewrite Hp. }
    rewrite Hy, Hd.
    pose proof (limit_reads_attempts s phone_number) as L.
    destruct (check_post_booking_message_limit s phone_number)
      as [limit sent].
    cbn [fst snd] in *. subst sent.
    apply Z.leb_le in H3. rewrite H3 in L. subst limit. reflexivity. }
  rewrite Ho. cbn [reply store respond].
  split; [reflexivity|]. split; [reflexivity|].
  split.
  { unfold check_post_booking_message_limit.
    rewrite tracking_of_set_enquiry_sent.
    change (tracking_of (log_message s phone_number (Py.strip body))
              phone_number) with (tracking_of s phone_number).
    unfold get_booking_attempts in H3.
    destruct (tracking_of s phone_number); [lia|reflexivity]. }
  split.
  { unfold get_booking_attempts. rewrite tracking_of_set_enquiry_sent.
    change (tracking_of (log_message s phone_number (Py.strip body))
              phone_number) with (tracking_of s phone_number).
    destruct (tracking_of s phone_number); reflexivity. }
  split; reflexivity.
Qed.

(** The store after the first contact and three unanswered prompts of a
    client who never booked. *)
Definition prompted_store : Store :=
  Eval vm_compute in
    snd (converse true None None "http://localhost:5000" "+61412345729"
           quiet_clock init_db stranger ["hi"; "hello"; "hello"; "hello"]).

Lemma chatter_cap_reads_attempts_witness :
  let o := incoming_sms true None None "http://localhost:5000" "+61412345729"
             quiet_clock prompted_store
             (Rows (select_blocked prompted_store stranger)) stranger "hello" in
  get_booking_attempts prompted_store stranger = 4%Z
  /\ map mt_booking_id (tracking_of prompted_store stranger)
     = [None; Some 1%Z]
  /\ reply o = Some post_booking_chatter
  /\ snd (check_post_booking_message_limit (store o) stranger) = true
  /\ get_booking_attempts (store o) stranger = 4%Z.
Proof.
  cbv zeta.
  assert (Hb : is_number_blocked
                 (Rows (select_blocked prompted_store stranger)) = false)
    by (vm_compute; reflexivity).
  assert (Hr : reaches_flow stranger (Py.strip "hello") = true)
    by (vm_compute; reflexivity).
  assert (Hp : passes_confirmation prompted_store stranger (Py.strip "hello")
               = true) by (vm_compute; reflexivity).
  assert (H3 : (3 <= get_booking_attempts prompted_store stranger)%Z)
    by (vm_compute; discriminate).
  assert (Hs : snd (check_post_booking_message_limit prompted_store stranger)
               = false) by (vm_compute; reflexivity).
  pose proof (chatter_cap_reads_attempts true None None
                "http://localhost:5000" "+61412345729" quiet_clock
                prompted_store
                (Rows (select_blocked prompted_store stranger))
                stranger "hello" Hb Hr Hp H3 Hs) as W.
  cbv zeta in W. destruct W as (_ & R & _ & F & A & _).
  split; [vm_compute; reflexivity|].
  split; [vm_compute; reflexivity|].
  split; [exact R|]. split; [exact F|].
  rewrite A. vm_compute. reflexivity.
Defined.

(** ** C7: the reminder check *)

Lemma same_key_same_row {A} (key : A -> Z) (l : list A) (a b : A) :
  NoDup (map key l) -> In a l -> In b l -> key a = key b -> a = b.
Proof.
  induction l as [|x l IH]; cbn; intros ND Ia Ib E; [contradiction|].
  inversion ND as [|? ? Hx ND']; subst.
  destruct Ia as [->|Ia], Ib as [->|Ib]; auto.
  - exfalso. apply Hx. rewrite E. now apply in_map.
  - exfalso. apply Hx. rewrite <- E. now apply in_map.
Qed.

Section ReminderFacts.
Variable send_sms : string -> string -> bool.
Variable strptime_localize : string -> string -> option Z.

Let check := check_and_send_room_details send_sms strptime_localize.
Let loop := send_due send_sms strptime_localize.
Let is_due := due strptime_localize.

(** The row after the loop: marked when one of the delivered messages
    carries its id. *)
Definition after_sends (sends : list SentReminder) (r : ReminderRow)
  : ReminderRow :=
  if existsb (fun e => sr_delivered e && (sr_id e =? rr_id r)%Z) sends
  then sent_row r else r.

Lemma after_sends_id sends r : rr_id (after_sends sends r) = rr_id r.
Proof. unfold after_sends. now case_if. Qed.

Lemma after_sends_sent sends r :
  rr_sent r = true -> rr_sent (after_sends sends r) = true.
Proof. unfold after_sends. now case_if. Qed.

Lemma is_due_mark_sent s now i r : is_due (mark_sent s i) now r = is_due s now r.
Proof. reflexivity. Qed.

(** The loop: every message comes from a due row of the list, and the
    table changes by the marks of the delivered ones only. *)
Lemma loop_spec now :
  forall reminders s,
    (forall e, In e (fst (loop s now reminders)) ->
               exists r, In r reminders /\ rr_id r = sr_id e
                         /\ rr_phone r = sr_to e /\ is_due s now r = true)
    /\ snd (loop s now reminders)
       = set_reminders s
           (map (after_sends (fst (loop s now reminders)))
                (room_detail_reminders s)).
Proof.
  assert (Hid : forall s, s = set_reminders s
                              (map (after_sends []) (room_detail_reminders s))).
  { intro s. destruct s. unfold set_reminders. cbn. f_equal.
    symmetry. apply map_id. }
  induction reminders as [|r rest IH]; intro s.
  - cbn. split; [intros e []|apply Hid].
  - unfold loop. cbn [send_due]. fold loop.
    destruct (due strptime_localize s now r) eqn:D.
    2:{ destruct (IH s) as [IHe IHs]. split; [|exact IHs].
        intros e He. destruct (IHe e He) as (r' & I & K).
        exists r'. split; [now right|exact K]. }
    destruct (format_location_for_confirmation _ _ _ true) as [msg|].
    2:{ cbn. split; [intros e []|apply Hid]. }
    set (body := "Hi " ++ _).
    set (delivered := send_sms (rr_phone r) body).
    set (s1 := if delivered then mark_sent s (rr_id r) else s).
    destruct (IH s1) as [IHe IHs].
    destruct (loop s1 now rest) as [more s2] eqn:E.
    cbn [fst snd] in *. split.
    + intros e [<-|He].
      * exists r. cbn. repeat split; auto.
      * destruct (IHe e He) as (r' & I & K1 & K2 & K3).
        exists r'. split; [now right|]. split; [exact K1|].
        split; [exact K2|]. subst s1. destruct delivered; exact K3.
    + rewrite IHs. subst s1.
      destruct delivered; unfold mark_sent, set_reminders; cbn;
        f_equal; rewrite ?map_map; apply map_ext; intro x;
        unfold after_sends; cbn [existsb sr_delivered sr_id andb orb].
      rewrite (Z.eqb_sym (rr_id r)).
      destruct (rr_id x =? rr_id r)%Z; cbn [orb]; [|reflexivity].
      now case_if.
Qed.

Lemma filter_unsent_In (l : list ReminderRow) r :
  In r (filter (fun r => negb (rr_sent r)) l) <-> In r l /\ rr_sent r = false.
Proof. rewrite filter_In, negb_true_iff. reflexivity. Qed.

Lemma check_ids s now :
  map rr_id (room_detail_reminders (snd (check s now)))
  = map rr_id (room_detail_reminders s).
Proof.
  unfold check, check_and_send_room_details.
  destruct (loop_spec now (filter (fun r => negb (rr_sent r))
                                  (room_detail_reminders s)) s) as [_ Hs].
  fold loop. rewrite Hs. cbn. rewrite map_map.
  apply map_ext. intro r. apply after_sends_id.
Qed.

Lemma check_from_unsent s now e :
  In e (fst (check s now)) ->
  exists r, In r (room_detail_reminders s) /\ rr_id r = sr_id e
            /\ rr_phone r = sr_to e /\ rr_sent r = false
            /\ is_due s now r = true.
Proof.
  unfold check, check_and_send_room_details. fold loop. intro He.
  destruct (loop_spec now (filter (fun r => negb (rr_sent r))
                                  (room_detail_reminders s)) s) as [H _].
  destruct (H e He) as (r & I & K1 & K2 & K3).
  apply filter_unsent_In in I. destruct I as [I U].
  exists r. auto.
Qed.

Lemma check_marks s now e r' :
  In e (fst (check s now)) -> sr_delivered e = true ->
  In r' (room_detail_reminders (snd (check s now))) ->
  rr_id r' = sr_id e -> rr_sent r' = true.
Proof.
  unfold check, check_and_send_room_details. fold loop. intros He Hd Hr Hk.
  destruct (loop_spec now (filter (fun r => negb (rr_sent r))
                                  (room_detail_reminders s)) s) as [_ Hs].
  rewrite Hs in Hr. cbn in Hr. apply in_map_iff in Hr.
  destruct Hr as (r & <- & _). rewrite after_sends_id in Hk.
  unfold after_sends.
  replace (existsb _ _) with true; [reflexivity|].
  symmetry. apply existsb_exists. exists e. split; [exact He|].
  rewrite Hd, Hk. cbn. apply Z.eqb_refl.
Qed.

Lemma check_keeps_sent s now r :
  In r (room_detail_reminders s) -> rr_sent r = true ->
  exists r', In r' (room_detail_reminders (snd (check s now)))
             /\ rr_id r' = rr_id r /\ rr_sent r' = true.
Proof.
  unfold check, check_and_send_room_details. fold loop. intros Hr Hs.
  destruct (loop_spec now (filter (fun r => negb (rr_sent r))
                                  (room_detail_reminders s)) s) as [_ E].
  rewrite E. cbn. eexists. split; [apply in_map; exact Hr|].
  split; [apply after_sends_id|now apply after_sends_sent].
Qed.

End ReminderFacts.

(** The ids that [schedule_room_detail_reminder] hands out are fresh, so
    the primary key stays a key. *)
Lemma max_bounds (l : list Z) (x : Z) :
  In x l -> (x <= fold_right Z.max 0 l)%Z.
Proof.
  induction l as [|a l IH]; cbn; [contradiction|].
  intros [->|H]; [lia|]. specialize (IH H). lia.
Qed.

Lemma schedule_keeps_key s p n d c io a :
  NoDup (map rr_id (room_detail_reminders s)) ->
  NoDup (map rr_id (room_detail_reminders
                      (schedule_room_detail_reminder s p n d c io a))).
Proof.
  intro ND. unfold schedule_room_detail_reminder, set_reminders.
  cbn [room_detail_reminders]. rewrite map_app. cbn [map rr_id].
  apply NoDup_app; [exact ND|repeat constructor; auto|].
  intros x Hx [<-|[]]. unfold next_reminder_id in Hx.
  apply max_bounds in Hx. lia.
Qed.

(** C7.  One run of the reminder check sends messages only for rows that
    are unsent and whose booking starts between 55 and 65 minutes after
    [now]; it sends nothing for a row already marked sent; every row
    whose message was delivered is marked sent in the store it leaves.  A
    further run, at any time and whatever the transport then answers,
    sends nothing for a row that was marked before the first run or
    whose message the first run delivered. *)
Theorem reminder_sent_once :
  forall (send_sms send_sms2 : string -> string -> bool)
         (strptime_localize : string -> string -> option Z)
         (s : Store) (now : Z),
    NoDup (map rr_id (room_detail_reminders s)) ->
    let first :=
      check_and_send_room_details send_sms strptime_localize s now in
    (forall e, In e (fst first) ->
       exists r booking_dt,
         In r (room_detail_reminders s) /\ rr_id r = sr_id e
         /\ rr_phone r = sr_to e /\ rr_sent r = false
         /\ strptime_localize (get_current_timezone s) (rr_booking_datetime r)
            = Some booking_dt
         /\ (3300 * 1000000 <= booking_dt - now <= 3900 * 1000000)%Z)
    /\ (forall r, In r (room_detail_reminders s) -> rr_sent r = true ->
        forall e, In e (fst first) -> sr_id e <> rr_id r)
    /\ (forall e, In e (fst first) -> sr_delivered e = true ->
        forall r', In r' (room_detail_reminders (snd first)) ->
                   rr_id r' = sr_id e -> rr_sent r' = true)
    /\ (forall now2 e2,
           In e2 (fst (check_and_send_room_details send_sms2 strptime_localize
                         (snd first) now2)) ->
           (forall r, In r (room_detail_reminders s) ->
                      rr_id r = sr_id e2 -> rr_sent r = false)
           /\ (forall e1, In e1 (fst first) -> sr_delivered e1 = true ->
                          sr_id e1 <> sr_id e2)).
Proof.
  intros send_sms send_sms2 strptime_localize s now ND first.
  assert (ND1 : NoDup (map rr_id (room_detail_reminders (snd first)))).
  { subst first. rewrite check_ids. exact ND. }
  assert (H1 : forall e, In e (fst first) ->
             exists r, In r (room_detail_reminders s) /\ rr_id r = sr_id e
                       /\ rr_phone r = sr_to e /\ rr_sent r = false
                       /\ due strptime_localize s now r = true).
  { intros e He. apply (check_from_unsent send_sms). exact He. }
  split; [|split; [|split]].
  - intros e He. destruct (H1 e He) as (r & I & K1 & K2 & U & D).
    unfold due in D.
    destruct (strptime_localize _ _) as [booking_dt|] eqn:P;
      [|discriminate].
    exists r, booking_dt. repeat split; auto;
      unfold in_window in D; apply andb_prop in D; destruct D as [A B];
      apply Z.leb_le in A, B; lia.
  - intros r Hr Hs e He E.
    destruct (H1 e He) as (r0 & I & K1 & _ & U & _).
    assert (r0 = r)
      by (apply (same_key_same_row rr_id (room_detail_reminders s));
          auto; congruence).
    subst r0. congruence.
  - intros e He Hd r' Hr' K.
    apply (check_marks send_sms strptime_localize s now e r'); assumption.
  - intros now2 e2 He2.
    destruct (check_from_unsent send_sms2 strptime_localize _ _ _ He2)
      as (r' & I' & K' & _ & U' & _).
    split.
    + intros r Hr K. destruct (rr_sent r) eqn:S; [|reflexivity].
      destruct (check_keeps_sent send_sms strptime_localize s now r Hr S)
        as (r'' & I'' & K'' & S'').
      assert (r'' = r')
        by (apply (same_key_same_row rr_id
                     (room_detail_reminders (snd first)));
            auto; congruence).
      subst r''. congruence.
    + intros e1 He1 Hd E.
      assert (rr_sent r' = true)
        by (apply (check_marks send_sms strptime_localize s now e1 r');
            auto; congruence).
      congruence.
Qed.

(** A booking on Friday 6 November 2026 at 7:00PM in Adelaide (UTC+10:30)
    starts at 08:30 UTC of that day. *)
Definition friday_7pm : Z :=
  ((Cal.to_days (Cal.Date 2026 11 6) * 86400 + 8 * 3600 + 30 * 60) * 1000000)%Z.

Definition parse_friday (tz text : string) : option Z :=
  if String.eqb text "Friday 06/11/2026 7:00PM" then Some friday_7pm else None.

(** The store after the booking of the client called Yesterday was
    confirmed: one reminder is scheduled. *)
Definition confirmed_store : Store :=
  Eval vm_compute in
    snd (converse true None None "http://localhost:5000" "+61412345729"
           quiet_clock init_db stranger
           ["hi"; "Sydney friday 7pm 2 hours GFE incall"; "yesterday"]).

Lemma reminder_sent_once_witness :
  let now := (friday_7pm - 3600 * 1000000)%Z in
  let check := check_and_send_room_details (fun _ _ => true) parse_friday in
  NoDup (map rr_id (room_detail_reminders confirmed_store))
  /\ map sr_id (fst (check confirmed_store now)) = [1%Z]
  /\ fst (check (snd (check confirmed_store now)) now) = []
  /\ (forall now2 e2,
         In e2 (fst (check (snd (check confirmed_store now)) now2)) ->
         sr_id e2 <> 1%Z).
Proof.
  cbv zeta.
  assert (ND : NoDup (map rr_id (room_detail_reminders confirmed_store)))
    by (repeat constructor; cbn; tauto).
  split; [exact ND|].
  split; [vm_compute; reflexivity|].
  split; [vm_compute; reflexivity|].
  intros now2 e2 He2 E.
  pose proof (reminder_sent_once (fun _ _ => true) (fun _ _ => true)
                parse_friday confirmed_store
                (friday_7pm - 3600 * 1000000)%Z ND) as W.
  cbv zeta in W. destruct W as (_ & _ & _ & W).
  destruct (W now2 e2 He2) as [_ W2].
  set (run := check_and_send_room_details (fun _ _ => true) parse_friday
                confirmed_store (friday_7pm - 3600 * 1000000)%Z) in *.
  assert (R : exists e1, fst run = [e1] /\ sr_delivered e1 = true
                         /\ sr_id e1 = 1%Z).
  { eexists. vm_compute. repeat split. }
  destruct R as (e1 & R1 & R2 & R3).
  apply (W2 e1); [rewrite R1; left; reflexivity|exact R2|congruence].
Defined.

(** * Further properties of the code *)

(** ** Times: what is displayed is read back *)

Definition all_times : list (Z * Z) :=
  flat_map (fun h => map (fun m => (Z.of_nat h, Z.of_nat m)) (seq 0 60))
           (seq 0 24).

Lemma in_all_times (h m : Z) :
  (0 <= h <= 23)%Z -> (0 <= m <= 59)%Z -> In (h, m) all_times.
Proof.
  intros Hh Hm. unfold all_times. apply in_flat_map.
  exists (Z.to_nat h). split; [apply in_seq; lia|].
  apply in_map_iff. exists (Z.to_nat m).
  split; [f_equal; lia|apply in_seq; lia].
Qed.

Definition reads_back (read : string -> option (Z * Z)) (hm : Z * Z) : bool :=
  match read (show_time hm) with
  | Some (h, m) => (h =? fst hm)%Z && (m =? snd hm)%Z
  | None => false
  end.

Lemma reads_back_sound read hm :
  reads_back read hm = true -> read (show_time hm) = Some hm.
Proof.
  unfold reads_back. destruct (read (show_time hm)) as [[h m]|];
    [|discriminate].
  intro H. apply andb_prop in H. destruct H as [A B].
  apply Z.eqb_eq in A, B. destruct hm. cbn in *. congruence.
Qed.

(** X1.  The 12-hour text that [extract_booking_details] stores for a
    time of day is read back to the same hour and minute, both by
    [parse_time_from_message] and by the pattern of
    [create_calendar_event]. *)
Theorem time_display_round_trip :
  forall h m : Z,
    (0 <= h <= 23)%Z -> (0 <= m <= 59)%Z ->
    parse_time_from_message (show_time (h, m)) = Some (h, m)
    /\ calendar_start_time (show_time (h, m)) = Some (h, m).
Proof.
  intros h m Hh Hm.
  assert (All : forallb (fun hm => reads_back parse_time_from_message hm
                                   && reads_back calendar_start_time hm)
                        all_times = true) by (vm_compute; reflexivity).
  rewrite forallb_forall in All.
  specialize (All (h, m) (in_all_times h m Hh Hm)).
  apply andb_prop in All. destruct All as [A B].
  split; apply reads_back_sound; assumption.
Qed.

Lemma time_display_round_trip_witness :
  show_time (19, 5)%Z = "7:05PM"
  /\ parse_time_from_message "7:05PM" = Some (19, 5)%Z
  /\ calendar_start_time "7:05PM" = Some (19, 5)%Z.
Proof.
  assert (S : show_time (19, 5)%Z = "7:05PM") by (vm_compute; reflexivity).
  split; [exact S|].
  rewrite <- S. apply time_display_round_trip; lia.
Defined.

(** ** What the matcher finds is in the language of the pattern *)

Lemma sapp_length (a b : string) :
  String.length (a ++ b) = (String.length a + String.length b)%nat.
Proof. induction a as [|c a IH]; cbn; [reflexivity|now rewrite IH]. Qed.

Lemma sapp_assoc (a b c : string) : (a ++ b) ++ c = a ++ (b ++ c).
Proof. induction a as [|x a IH]; cbn; [reflexivity|now rewrite IH]. Qed.


Lemma take_app (w rest : string) : Py.take (String.length w) (w ++ rest) = w.
Proof. induction w as [|c w IH]; cbn; [now destruct rest|now rewrite IH]. Qed.

Lemma consumed_app (w rest : string) : Re.consumed (w ++ rest) rest = w.
Proof.
  unfold Re.consumed. rewrite sapp_length.
  replace (String.length w + String.length rest - String.length rest)%nat
    with (String.length w) by lia.
  apply take_app.
Qed.

(** The words of a pattern, word boundaries taken as empty words. *)
Inductive lang : Re.regex -> string -> Prop :=
| lang_eps : lang Re.Eps ""
| lang_cls p c : p c = true -> lang (Re.Cls p) (String c "")
| lang_cat r1 r2 w1 w2 :
    lang r1 w1 -> lang r2 w2 -> lang (Re.Cat r1 r2) (w1 ++ w2)
| lang_alt_l r1 r2 w : lang r1 w -> lang (Re.Alt r1 r2) w
| lang_alt_r r1 r2 w : lang r2 w -> lang (Re.Alt r1 r2) w
| lang_star_nil r : lang (Re.Star r) ""
| lang_star_cons r w1 w2 :
    lang r w1 -> lang (Re.Star r) w2 -> lang (Re.Star r) (w1 ++ w2)
| lang_grp n r w : lang r w -> lang (Re.Grp n r) w
| lang_bnd : lang Re.Bnd "".

(** The group [n] of a pattern and what it encloses. *)
Inductive subgroup : Re.regex -> nat -> Re.regex -> Prop :=
| sg_here n r : subgroup (Re.Grp n r) n r
| sg_grp n r m r' : subgroup r m r' -> subgroup (Re.Grp n r) m r'
| sg_cat_l r1 r2 m r' : subgroup r1 m r' -> subgroup (Re.Cat r1 r2) m r'
| sg_cat_r r1 r2 m r' : subgroup r2 m r' -> subgroup (Re.Cat r1 r2) m r'
| sg_alt_l r1 r2 m r' : subgroup r1 m r' -> subgroup (Re.Alt r1 r2) m r'
| sg_alt_r r1 r2 m r' : subgroup r2 m r' -> subgroup (Re.Alt r1 r2) m r'
| sg_star r m r' : subgroup r m r' -> subgroup (Re.Star r) m r'.

(** Every capture is an old one or a word of the group it belongs to. *)
Definition caps_from (r : Re.regex) (caps0 caps : Re.captures) : Prop :=
  forall n t, In (n, t) caps ->
    In (n, t) caps0 \/ exists r', subgroup r n r' /\ lang r' t.

Lemma caps_from_refl r caps : caps_from r caps caps.
Proof. intros n t H. now left. Qed.

Lemma caps_from_trans r1 r2 r c0 c1 c2 :
  (forall n r', subgroup r1 n r' -> subgroup r n r') ->
  (forall n r', subgroup r2 n r' -> subgroup r n r') ->
  caps_from r1 c0 c1 -> caps_from r2 c1 c2 -> caps_from r c0 c2.
Proof.
  intros S1 S2 H1 H2 n t H.
  destruct (H2 n t H) as [H'|(r' & G & L)].
  - destruct (H1 n t H') as [H''|(r' & G & L)]; [now left|].
    right. exists r'. auto.
  - right. exists r'. auto.
Qed.

Section MatcherSound.
Context {A : Type}.

Theorem rmatch_sound (r : Re.regex) :
  forall (prev : option ascii) (s : string) (caps : Re.captures)
         (k : option ascii -> string -> Re.captures -> option A) (a : A),
    Re.rmatch r prev s caps k = Some a ->
    exists w s' prev' caps',
      s = w ++ s' /\ lang r w /\ caps_from r caps caps'
      /\ k prev' s' caps' = Some a.
Proof.
  induction r as [|p|r1 IH1 r2 IH2|r1 IH1 r2 IH2|r1 IH1|n r1 IH1|];
    intros prev s caps k a H; cbn [Re.rmatch] in H.
  - exists "", s, prev, caps.
    repeat split; auto using lang_eps, caps_from_refl.
  - destruct s as [|c t]; [discriminate|].
    destruct (p c) eqn:P; [|discriminate].
    exists (String c ""), t, (Some c), caps.
    repeat split; auto using lang_cls, caps_from_refl.
  - apply IH1 in H. destruct H as (w1 & s1 & p1 & c1 & -> & L1 & C1 & H).
    apply IH2 in H. destruct H as (w2 & s2 & p2 & c2 & -> & L2 & C2 & H).
    exists (w1 ++ w2), s2, p2, c2. rewrite sapp_assoc.
    repeat split; auto using lang_cat.
    apply (caps_from_trans r1 r2 _ caps c1 c2); auto using sg_cat_l, sg_cat_r.
  - destruct (Re.rmatch r1 prev s caps k) as [a1|] eqn:E.
    + injection H as <-. apply IH1 in E.
      destruct E as (w & s' & p' & c' & -> & L & C & K).
      exists w, s', p', c'. repeat split; auto using lang_alt_l.
      intros m t Hm. destruct (C m t Hm) as [?|(r' & G & Lr)]; [now left|].
      right. exists r'. auto using sg_alt_l.
    + apply IH2 in H.
      destruct H as (w & s' & p' & c' & -> & L & C & K).
      exists w, s', p', c'. repeat split; auto using lang_alt_r.
      intros m t Hm. destruct (C m t Hm) as [?|(r' & G & Lr)]; [now left|].
      right. exists r'. auto using sg_alt_r.
  - revert H. generalize (String.length s) as fuel. intro fuel.
    revert prev s caps.
    induction fuel as [|fuel IHf]; intros prev s caps H.
    + exists "", s, prev, caps.
      repeat split; auto using lang_star_nil, caps_from_refl.
    + match type of H with
      | match ?m with _ => _ end = _ => destruct m as [a1|] eqn:E
      end.
      * injection H as <-. apply IH1 in E.
        destruct E as (w1 & s1 & p1 & c1 & -> & L1 & C1 & K).
        destruct (_ <? _)%nat; [|discriminate].
        apply IHf in K.
        destruct K as (w2 & s2 & p2 & c2 & -> & L2 & C2 & K).
        exists (w1 ++ w2), s2, p2, c2. rewrite sapp_assoc.
        repeat split; auto using lang_star_cons.
        intros m t Hm. destruct (C2 m t Hm) as [Hm'|?]; [|now right].
        destruct (C1 m t Hm') as [?|(r' & G & Lr)]; [now left|].
        right. exists r'. auto using sg_star.
      * exists "", s, prev, caps.
        repeat split; auto using lang_star_nil, caps_from_refl.
  - apply IH1 in H. destruct H as (w & s' & p' & c' & -> & L & C & K).
    rewrite consumed_app in K.
    exists w, s', p', ((n, w) :: c'). repeat split; auto using lang_grp.
    intros m t [Hm|Hm].
    + injection Hm as <- <-. right. exists r1. auto using sg_here.
    + destruct (C m t Hm) as [?|(r' & G & Lr)]; [now left|].
      right. exists r'. auto using sg_grp.
  - destruct (xorb _ _); [|discriminate].
    exists "", s, prev, caps.
    repeat split; auto using lang_bnd, caps_from_refl.
Qed.

End MatcherSound.

Lemma match_here_sound (r : Re.regex) prev s s' caps :
  Re.match_here r prev s = Some (s', caps) ->
  s = Re.consumed s s' ++ s' /\ lang r (Re.consumed s s')
  /\ caps_from r [] caps.
Proof.
  intro E. apply rmatch_sound in E.
  destruct E as (w & s1 & p1 & c1 & -> & L & C & K).
  injection K as <- <-. rewrite consumed_app. auto.
Qed.

Lemma search_from_sound (r : Re.regex) :
  forall (s : string) (i : nat) (prev : option ascii) (f : Re.found),
    Re.search_from r i prev s = Some f ->
    exists pre, s = pre ++ Re.f_text f ++ Re.f_rest f
                /\ lang r (Re.f_text f)
                /\ caps_from r [] (Re.f_caps f).
Proof.
  induction s as [|c t IH]; intros i prev f H; cbn [Re.search_from] in H.
  - destruct (Re.match_here r prev "") as [[s' caps]|] eqn:E;
      [|discriminate].
    injection H as <-. cbn [Re.f_text Re.f_rest Re.f_caps].
    apply match_here_sound in E. exists "". exact E.
  - destruct (Re.match_here r prev (String c t)) as [[s' caps]|] eqn:E.
    + injection H as <-. cbn [Re.f_text Re.f_rest Re.f_caps].
      apply match_here_sound in E. exists "". exact E.
    + apply IH in H. destruct H as (pre & E' & L & C).
      exists (String c pre). cbn. rewrite <- E'. auto.
Qed.

Lemma group_In (n : nat) (t : string) (caps : Re.captures) :
  Re.group n caps = Some t -> In (n, t) caps.
Proof.
  induction caps as [|[m u] l IH]; cbn; [discriminate|].
  destruct (m =? n)%nat eqn:M; intro G.
  - apply Nat.eqb_eq in M. injection G as ->. subst. now left.
  - right. auto.
Qed.

(** [re.search]: the text found is a word of the pattern and stands in
    the subject, and so does every group. *)
Lemma search_sound (r : Re.regex) (s : string) (f : Re.found) :
  Re.search r s = Some f ->
  exists pre, s = pre ++ Re.f_text f ++ Re.f_rest f
              /\ lang r (Re.f_text f)
              /\ forall n t, Re.group n (Re.f_caps f) = Some t ->
                             exists r', subgroup r n r' /\ lang r' t.
Proof.
  intro H. apply search_from_sound in H. destruct H as (pre & E & L & C).
  exists pre. repeat split; auto.
  intros n t G. apply group_In in G.
  destruct (C n t G) as [[]|?]. assumption.
Qed.

(** *** Words of digits *)

Definition all_digits (w : string) : bool :=
  forallb Py.is_digit (list_ascii_of_string w).

Lemma digit_val_range c : Py.is_digit c = true -> (0 <= Num.digit_val c <= 9)%Z.
Proof.
  unfold Py.is_digit, Py.between, Num.digit_val. intro H.
  apply andb_prop in H. destruct H as [A B].
  apply Nat.leb_le in A, B. lia.
Qed.

Lemma int_acc_nonneg w :
  all_digits w = true ->
  forall acc, (0 <= acc)%Z ->
    (0 <= fold_left (fun a c => 10 * a + Num.digit_val c)
            (list_ascii_of_string w) acc)%Z.
Proof.
  unfold all_digits.
  induction w as [|c w IH]; cbn [list_ascii_of_string fold_left forallb];
    intros H acc Ha; [lia|].
  apply andb_prop in H. destruct H as [Hc Hw].
  apply IH; [exact Hw|]. pose proof (digit_val_range c Hc). lia.
Qed.

Lemma int_nonneg w : all_digits w = true -> (0 <= Num.int w)%Z.
Proof. intro H. apply int_acc_nonneg; [exact H|lia]. Qed.

Lemma lang_eps_inv w : lang Re.Eps w -> w = "".
Proof. intro H. now inversion H. Qed.

Lemma lang_bnd_inv w : lang Re.Bnd w -> w = "".
Proof. intro H. now inversion H. Qed.

Lemma lang_cls_inv p w :
  lang (Re.Cls p) w -> exists c, w = String c "" /\ p c = true.
Proof. intro H. inversion H; subst. eauto. Qed.

Lemma lang_cat_inv r1 r2 w :
  lang (Re.Cat r1 r2) w ->
  exists w1 w2, w = w1 ++ w2 /\ lang r1 w1 /\ lang r2 w2.
Proof. intro H. inversion H; subst. eauto. Qed.

Lemma lang_alt_inv r1 r2 w : lang (Re.Alt r1 r2) w -> lang r1 w \/ lang r2 w.
Proof. intro H. inversion H; subst; auto. Qed.

Lemma lang_grp_inv n r w : lang (Re.Grp n r) w -> lang r w.
Proof. intro H. now inversion H. Qed.


(** Take a hypothesis on the words of a compound pattern apart. *)
Ltac lang_inv :=
  repeat match goal with
         | H : lang Re.Eps _ |- _ => apply lang_eps_inv in H; subst
         | H : lang Re.Bnd _ |- _ => apply lang_bnd_inv in H; subst
         | H : lang (Re.Cls _) _ |- _ =>
             apply lang_cls_inv in H; destruct H as (? & ? & ?); subst
         | H : lang (Re.Cat _ _) _ |- _ =>
             apply lang_cat_inv in H; destruct H as (? & ? & ? & ? & ?); subst
         | H : lang (Re.Alt _ _) _ |- _ =>
             apply lang_alt_inv in H; destruct H
         | H : lang (Re.Grp _ _) _ |- _ => apply lang_grp_inv in H
         end.

Lemma all_digits_app a b :
  all_digits (a ++ b) = all_digits a && all_digits b.
Proof.
  unfold all_digits. induction a as [|c a IH]; cbn; [reflexivity|].
  now rewrite IH, andb_assoc.
Qed.

Lemma lang_d12_digits w : lang d12 w -> all_digits w = true.
Proof.
  unfold d12, Re.digit, Re.Opt. intro H. lang_inv;
    unfold all_digits; cbn;
    repeat match goal with X : Py.is_digit _ = true |- _ => rewrite X end;
    reflexivity.
Qed.

(** ** Times: what the extractor can return *)

(** Find the groups of a pattern that is written out. *)
Ltac subgroup_inv :=
  repeat match goal with
         | H : subgroup (Re.Cat _ _) _ _ |- _ => inversion H; subst; clear H
         | H : subgroup (Re.Alt _ _) _ _ |- _ => inversion H; subst; clear H
         | H : subgroup (Re.Star _) _ _ |- _ => inversion H; subst; clear H
         | H : subgroup (Re.Grp _ _) _ _ |- _ => inversion H; subst; clear H
         | H : subgroup (Re.Cls _) _ _ |- _ => inversion H
         | H : subgroup Re.Eps _ _ |- _ => inversion H
         | H : subgroup Re.Bnd _ _ |- _ => inversion H
         end.

Lemma time_patterns_hour_group pattern r' :
  In pattern time_patterns -> subgroup pattern 1 r' -> r' = d12.
Proof.
  unfold time_patterns. cbn [In]. intros [<-|[<-|[]]] G;
    unfold d12, d2, ampm, Re.Opt, Re.digit, Re.space in *; cbn [Re.Lit] in G;
    subgroup_inv; reflexivity.
Qed.

Lemma parse_time_with_range pattern msg h m :
  (forall r', subgroup pattern 1 r' -> r' = d12) ->
  parse_time_with pattern msg = Some (h, m) ->
  (0 <= h <= 23)%Z /\ (0 <= m <= 59)%Z
  /\ (Py.contains "am" (Py.lower msg) = true -> h <> 12%Z)
  /\ (Py.contains "am" (Py.lower msg) = false ->
      Py.contains "pm" (Py.lower msg) = true -> (12 <= h)%Z).
Proof.
  intros G1u. unfold parse_time_with. cbv zeta.
  destruct (Re.search pattern (Py.lower msg)) as [f|] eqn:S; [|discriminate].
  assert (Hpos : (0 <= Num.int (Py.fmt (Re.group 1 (Re.f_caps f))))%Z).
  { destruct (Re.group 1 (Re.f_caps f)) as [t|] eqn:G;
      [|vm_compute; intro X; discriminate X].
    apply search_sound in S. destruct S as (_ & _ & _ & C).
    destruct (C 1%nat t G) as (r' & Gr & L).
    rewrite (G1u r' Gr) in L. cbn [Py.fmt].
    apply int_nonneg, lang_d12_digits, L. }
  set (hour := Num.int _) in *.
  set (minute := match Re.group 2 (Re.f_caps f) with
                 | Some g => _
                 | None => _
                 end).
  destruct (Py.contains "am" (Py.lower msg)) eqn:Am;
    [|destruct (Py.contains "pm" (Py.lower msg)) eqn:Pm];
    repeat case_if; intro H; try discriminate; injection H as <- <-;
    repeat match goal with
           | X : (_ && _) = true |- _ => apply andb_prop in X; destruct X
           | X : (_ <=? _)%Z = true |- _ => apply Z.leb_le in X
           | X : (_ <? _)%Z = true |- _ => apply Z.ltb_lt in X
           | X : (_ <? _)%Z = false |- _ => apply Z.ltb_ge in X
           | X : (_ =? _)%Z = true |- _ => apply Z.eqb_eq in X
           | X : (_ =? _)%Z = false |- _ => apply Z.eqb_neq in X
           end;
    repeat split; intros; try lia; try discriminate.
Qed.

(** X2.  A time that [parse_time_from_message] returns is a time of day.
    The marker is looked for in the whole message, not in the match: when
    the message contains "am" anywhere the hour is never 12, and when it
    contains "pm" but no "am" the hour is never before noon. *)
Theorem parsed_time_range :
  forall (msg : string) (h m : Z),
    parse_time_from_message msg = Some (h, m) ->
    (0 <= h <= 23)%Z /\ (0 <= m <= 59)%Z
    /\ (Py.contains "am" (Py.lower msg) = true -> h <> 12%Z)
    /\ (Py.contains "am" (Py.lower msg) = false ->
        Py.contains "pm" (Py.lower msg) = true -> (12 <= h)%Z).
Proof.
  intros msg h m. unfold parse_time_from_message, time_patterns.
  cbn [fold_left].
  destruct (parse_time_with _ msg) as [[h1 m1]|] eqn:P1.
  - intro H. injection H as <- <-.
    refine (parse_time_with_range _ _ _ _ _ P1).
    intro r'. apply time_patterns_hour_group. cbn. auto.
  - apply parse_time_with_range.
    intro r'. apply time_patterns_hour_group. cbn. auto.
Qed.

Lemma parsed_time_range_witness :
  parse_time_from_message "I am free at 12:15" = Some (0, 15)%Z
  /\ ((0 <= 0 <= 23)%Z /\ (0 <= 15 <= 59)%Z
      /\ (Py.contains "am" (Py.lower "I am free at 12:15") = true
          -> 0%Z <> 12%Z)
      /\ (Py.contains "am" (Py.lower "I am free at 12:15") = false ->
          Py.contains "pm" (Py.lower "I am free at 12:15") = true ->
          (12 <= 0)%Z)).
Proof.
  assert (P : parse_time_from_message "I am free at 12:15" = Some (0, 15)%Z)
    by (vm_compute; reflexivity).
  split; [exact P|]. apply (parsed_time_range _ _ _ P).
Defined.

(** ** The retry loop *)

Section RetryFacts.
Context {A : Type}.
Variable outcome : nat -> attempt_outcome A.
Variable max_retries : nat.

Let run_of (x : query_run A * nat * list nat) := fst (fst x).
Let made_of (x : query_run A * nat * list nat) := snd (fst x).
Let waits_of (x : query_run A * nat * list nat) := snd x.

Lemma retry_from_spec (pg : bool) :
  forall left attempt,
    (attempt + left = max_retries)%nat ->
    let x := execute_query_from pg outcome max_retries attempt left in
    (forall r,
        run_of x = Returned r <->
        exists i, (attempt <= i < max_retries)%nat
                  /\ outcome i = Answered r
                  /\ (pg = true -> i = attempt)
                  /\ forall j, (attempt <= j < i)%nat ->
                               outcome j = LockedError)
    /\ (run_of x = Exhausted <-> left = 0%nat)
    /\ (made_of x <= left)%nat
    /\ (pg = true -> made_of x <= 1)%nat
    /\ waits_of x = seq (S attempt) (Nat.pred (made_of x))
    /\ (left <> 0%nat -> made_of x <> 0%nat).
Proof.
  induction left as [|left IH]; intros attempt E x; subst x.
  - cbn. split; [|split; [|split; [|split; [|split]]]];
      try lia; try reflexivity; try tauto.
    intro r. split; [discriminate|]. intros (i & Hi & _). lia.
  - cbn [execute_query_from].
    assert (first_only : forall r i,
               (attempt <= i < max_retries)%nat ->
               outcome i = Answered r ->
               (forall j, (attempt <= j < i)%nat -> outcome j = LockedError) ->
               outcome attempt <> LockedError -> i = attempt).
    { intros r i Hi Oi Hl N. destruct (Nat.eq_dec i attempt) as [e|ne]; auto.
      destruct N. apply Hl. lia. }
    destruct (outcome attempt) as [r0| |] eqn:Out.
    + cbn. split; [|split; [|split; [|split; [|split]]]];
        try lia; try reflexivity; try (split; [discriminate|lia]).
      intro r. split.
      * intro H. injection H as <-. exists attempt.
        split; [lia|]. split; [exact Out|]. split; [reflexivity|].
        intros j Hj. lia.
      * intros (i & Hi & Oi & _ & Hl).
        rewrite (first_only r i Hi Oi Hl ltac:(discriminate)) in Oi.
        congruence.
    + destruct (negb pg && (attempt + 1 <? max_retries)%nat) eqn:C.
      * apply andb_prop in C. destruct C as [Cpg Cn].
        apply negb_true_iff in Cpg. apply Nat.ltb_lt in Cn. subst pg.
        specialize (IH (S attempt) ltac:(lia)). cbv zeta in IH.
        destruct (execute_query_from false outcome max_retries
                    (S attempt) left) as [[run made] waits].
        cbn [run_of made_of waits_of fst snd] in *.
        destruct IH as (I1 & I2 & I3 & _ & I5 & I6).
        assert (L : left <> 0%nat) by lia.
        split; [|split; [|split; [|split; [|split]]]];
          try lia; try discriminate.
        -- intro r. split.
           ++ intro H0. apply I1 in H0.
              destruct H0 as (i & Hi & Oi & _ & Hl).
              exists i. split; [lia|]. split; [exact Oi|].
              split; [discriminate|].
              intros j Hj. destruct (Nat.eq_dec j attempt) as [->|N];
                [exact Out|apply Hl; lia].
           ++ intros (i & Hi & Oi & _ & Hl). apply I1.
              assert (i <> attempt) by congruence.
              exists i. split; [lia|]. split; [exact Oi|].
              split; [discriminate|].
              intros j Hj. apply Hl. lia.
        -- split; [|discriminate]. intro H0. apply I2 in H0. lia.
        -- rewrite I5. specialize (I6 L).
           destruct made; [lia|]. cbn [Nat.pred seq].
           replace (attempt + 1)%nat with (S attempt) by lia. reflexivity.
      * cbn. split; [|split; [|split; [|split; [|split]]]];
          try lia; try reflexivity; try (split; [discriminate|lia]).
        intro r. split; [discriminate|].
        intros (i & Hi & Oi & Hpg & Hl).
        destruct (Nat.eq_dec i attempt) as [->|N]; [congruence|].
        apply andb_false_iff in C. destruct C as [C|C].
        -- apply negb_false_iff in C. specialize (Hpg C). contradiction.
        -- apply Nat.ltb_ge in C. lia.
    + cbn. split; [|split; [|split; [|split; [|split]]]];
        try lia; try reflexivity; try (split; [discriminate|lia]).
      intro r. split; [discriminate|].
      intros (i & Hi & Oi & _ & Hl).
      rewrite (first_only r i Hi Oi Hl ltac:(discriminate)) in Oi.
      congruence.
Qed.

End RetryFacts.

(** X3.  [execute_query] on SQLite returns a result exactly when some
    attempt among the first [max_retries] answers and every attempt
    before it failed on a locked database.  It never makes more than
    [max_retries] attempts, it sleeps 0.1 s, 0.2 s, ... between them, and
    the loop ends without a result only with [max_retries] 0. *)
Theorem execute_query_retries :
  forall (A : Type) (outcome : nat -> attempt_outcome A) (max_retries : nat),
    let x := execute_query false outcome max_retries in
    (forall r,
        fst (fst x) = Returned r <->
        exists i, (i < max_retries)%nat /\ outcome i = Answered r
                  /\ forall j, (j < i)%nat -> outcome j = LockedError)
    /\ (fst (fst x) = Exhausted <-> max_retries = O)
    /\ (snd (fst x) <= max_retries)%nat
    /\ snd x = seq 1 (Nat.pred (snd (fst x))).
Proof.
  intros A outcome max_retries x. subst x. unfold execute_query.
  destruct (retry_from_spec outcome max_retries false max_retries 0
              eq_refl) as (R & E & M & _ & W & _).
  cbv zeta in *. split; [|split; [|split]]; auto.
  intro r. split.
  - intro H. apply R in H. destruct H as (i & Hi & Oi & _ & Hl).
    exists i. split; [lia|]. split; [exact Oi|]. intros j Hj. apply Hl. lia.
  - intros (i & Hi & Oi & Hl). apply R. exists i.
    split; [lia|]. split; [exact Oi|]. split; [discriminate|].
    intros j Hj. apply Hl. lia.
Qed.

(** X4.  With PostgreSQL, [execute_query] never retries: it makes at most
    one attempt and never sleeps, and it returns a result exactly when
    the first attempt answers. *)
Theorem execute_query_postgres_single_attempt :
  forall (A : Type) (outcome : nat -> attempt_outcome A) (max_retries : nat),
    let x := execute_query true outcome max_retries in
    (snd (fst x) <= 1)%nat /\ snd x = []
    /\ (forall r, fst (fst x) = Returned r <->
                  (0 < max_retries)%nat /\ outcome 0%nat = Answered r).
Proof.
  intros A outcome max_retries x. subst x. unfold execute_query.
  destruct (retry_from_spec outcome max_retries true max_retries 0
              eq_refl) as (R & E & M & P & W & _).
  cbv zeta in *. specialize (P eq_refl).
  split; [exact P|]. split.
  - rewrite W. destruct (snd (fst _)) as [|[|n]]; try reflexivity. lia.
  - intro r. split.
    + intro H. apply R in H. destruct H as (i & Hi & Oi & Hp & _).
      rewrite (Hp eq_refl) in *. split; [lia|exact Oi].
    + intros [Hm Oi]. apply R. exists 0%nat.
      split; [lia|]. split; [exact Oi|]. split; [reflexivity|].
      intros j Hj. lia.
Qed.

(** ** What a request may change

    Every write of the handler names the sender: a property of stores
    that the writes for a sender keep is kept by the whole request. *)

Section HandlerInvariant.
Variable pg : bool.
Variable claude gemini : option Rewriter.
Variable url adella : string.
Variable clock : string -> Cal.date.
Variable p : string.
Variable R : Store -> Prop.

Hypothesis R_log : forall x m, R x -> R (log_message x p m).
Hypothesis R_block : forall x r, R x -> R (block_phone_number x p r).
Hypothesis R_count : forall x n, R x -> R (set_message_count x p n).
Hypothesis R_sent : forall x, R x -> R (set_enquiry_sent x p).
Hypothesis R_insert :
  forall x b n e, R x -> R (insert_tracking x (mkTracking p b n e)).
Hypothesis R_delete_tracking : forall x, R x -> R (delete_tracking x p).
Hypothesis R_save_progress :
  forall x d, R x -> R (fst (save_booking_progress pg x p d)).
Hypothesis R_clear : forall x, R x -> R (clear_booking_progress x p).
Hypothesis R_save_pending :
  forall x d st aw ev nm,
    R x -> R (save_pending_confirmation x p d st aw ev nm).
Hypothesis R_delete_pending :
  forall x, R x -> R (delete_pending_confirmation x p).
Hypothesis R_deposit : forall x d, R x -> R (save_deposit_request x p d).
Hypothesis R_schedule :
  forall x n d c io a,
    Py.opt_eqb io "Incall" = true ->
    R x -> R (schedule_room_detail_reminder x p n d c io a).
Hypothesis R_location :
  forall x m c a i,
    is_admin_location p m = true ->
    R x -> R (fst (update_incall_location x c a i)).

Lemma inv_increment_attempts x :
  R x -> R (fst (increment_booking_attempts x p)).
Proof.
  intro K. unfold increment_booking_attempts.
  destruct (tracking_of x p); cbn [fst]; auto.
Qed.

Lemma inv_increment_post x :
  R x -> R (fst (increment_post_booking_messages x p)).
Proof.
  intro K. unfold increment_post_booking_messages.
  destruct (filter _ (tracking_of x p)); cbn [fst]; auto.
Qed.

#[local] Hint Resolve inv_increment_attempts inv_increment_post R_log
  R_block R_count R_sent R_insert R_delete_tracking R_save_progress R_clear
  R_save_pending R_delete_pending R_deposit R_schedule : core.

Ltac inv_cases :=
  repeat case_if;
  repeat match goal with
         | |- context [match ?x with _ => _ end] => destruct x
         end;
  cbn [store respond]; auto 12.

Lemma inv_handle_yes s m row :
  R s -> R (store (handle_yes claude gemini url s p m row)).
Proof. intro K. unfold handle_yes. inv_cases. Qed.

Lemma inv_handle_deposit s row : R s -> R (store (handle_deposit s p row)).
Proof. intro K. unfold handle_deposit. inv_cases. Qed.

Lemma inv_handle_merge s d e :
  R s -> R (store (handle_merge pg claude gemini url s p d e)).
Proof.
  intro K. unfold handle_merge, final_block, auto_enquiry, ask_missing.
  inv_cases.
Qed.

Lemma inv_handle_progress s m :
  R s -> R (store (handle_progress pg claude gemini url clock s p m)).
Proof.
  intro K. unfold handle_progress, final_block, auto_enquiry, ask_missing.
  cbv zeta.
  destruct (any_value _); [now apply inv_handle_merge|].
  destruct (get_booking_progress pg s p) as [existing|].
  - repeat case_if; cbn [store respond]; auto.
    destruct (missing_fields existing);
      [now apply inv_handle_merge|cbn [store respond]; auto].
  - inv_cases.
Qed.

Lemma inv_booking_flow s m :
  R s -> R (store (booking_flow pg claude gemini url clock s p m)).
Proof.
  intro K. unfold booking_flow. cbv zeta.
  destruct (if says_yes m then _ else _);
    [now apply inv_handle_yes|].
  destruct (if says_deposit m then _ else _);
    [now apply inv_handle_deposit|].
  destruct (check_post_booking_message_limit s p) as [limit sent].
  case_if; [cbn [store respond]; auto|].
  case_if; [cbn [store respond]; destruct (tracking_of s p); auto|].
  apply inv_handle_progress. destruct (tracking_of s p); auto.
Qed.

Lemma inv_incoming s lookup body :
  R s ->
  R (store (incoming_sms pg claude gemini url adella clock s lookup p body)).
Proof.
  intro K. unfold incoming_sms. cbv zeta.
  case_if; [exact K|].
  case_if; [cbn [store]; auto|].
  case_if; [cbn [store respond]; auto|].
  case_if; [cbn [store respond]; auto|].
  case_if; [|apply inv_booking_flow; auto].
  destruct (parse_location_command _ _) as [[c address] intercom].
  match goal with
  | Adm : is_admin_location p _ = true |- _ =>
      pose proof (R_location (log_message s p (Py.strip body)) _ c address
                    intercom Adm (R_log _ _ K)) as L
  end.
  destruct (update_incall_location _ c address intercom) as [s1 tz].
  exact L.
Qed.

End HandlerInvariant.
(** ** Senders do not touch each other's rows *)

(** The rows of a table that belong to an identity. *)
Definition rows_of {A} (key : A -> string) (q : string) (l : list A)
  : list A :=
  filter (fun r => String.eqb (key r) q) l.

Section RowsOf.
Context {A : Type}.
Variable key : A -> string.
Variables p q : string.
Hypothesis other : q <> p.

Lemma eqb_other r : String.eqb (key r) p = true -> String.eqb (key r) q = false.
Proof.
  intro E. apply String.eqb_eq in E. apply String.eqb_neq. congruence.
Qed.

Lemma rows_of_update (g : A -> A) (l : list A) :
  (forall r, key (g r) = key r) ->
  rows_of key q (map (fun r => if String.eqb (key r) p then g r else r) l)
  = rows_of key q l.
Proof.
  intro G. induction l as [|a l IH]; [reflexivity|].
  cbn [map rows_of filter]. fold (rows_of key q (map (fun r => if String.eqb (key r) p then g r else r) l)).
  fold (rows_of key q l). rewrite IH.
  destruct (String.eqb (key a) p) eqn:E; [|reflexivity].
  rewrite G, (eqb_other a E). reflexivity.
Qed.

Lemma rows_of_remove (l : list A) :
  rows_of key q (filter (fun r => negb (String.eqb (key r) p)) l)
  = rows_of key q l.
Proof.
  induction l as [|a l IH]; [reflexivity|].
  cbn [filter rows_of]. destruct (String.eqb (key a) p) eqn:E; cbn [negb].
  - rewrite (eqb_other a E). exact IH.
  - cbn [filter]. unfold rows_of in IH. rewrite IH. reflexivity.
Qed.

Lemma rows_of_append (l : list A) (r : A) :
  key r = p -> rows_of key q (l ++ [r]) = rows_of key q l.
Proof.
  intro K. unfold rows_of. rewrite filter_app. cbn [filter].
  rewrite (eqb_other r); [apply app_nil_r|].
  rewrite K. apply String.eqb_refl.
Qed.

Lemma rows_of_push (l : list A) (r : A) :
  key r = p -> rows_of key q (r :: l) = rows_of key q l.
Proof.
  intro K. unfold rows_of. cbn [filter].
  rewrite (eqb_other r); [reflexivity|].
  rewrite K. apply String.eqb_refl.
Qed.

End RowsOf.

(** The rows of [q] in every table are the same in both stores. *)
Definition untouched (q : string) (s s' : Store) : Prop :=
  rows_of fst q (messages s') = rows_of fst q (messages s)
  /\ rows_of pc_phone q (pending_confirmations s')
     = rows_of pc_phone q (pending_confirmations s)
  /\ rows_of bp_phone q (booking_progress s')
     = rows_of bp_phone q (booking_progress s)
  /\ rows_of rr_phone q (room_detail_reminders s')
     = rows_of rr_phone q (room_detail_reminders s)
  /\ rows_of fst q (blocked_numbers s') = rows_of fst q (blocked_numbers s)
  /\ rows_of fst q (deposit_requests s') = rows_of fst q (deposit_requests s)
  /\ rows_of mt_phone q (message_tracking s')
     = rows_of mt_phone q (message_tracking s).

Lemma untouched_refl q s : untouched q s s.
Proof. repeat split. Qed.

Ltac untouched_with p q other :=
  match goal with
  | K : untouched _ _ _ |- untouched _ _ _ =>
      destruct K as (K1 & K2 & K3 & K4 & K5 & K6 & K7);
      unfold untouched;
      cbn [messages pending_confirmations booking_progress
           room_detail_reminders blocked_numbers deposit_requests
           message_tracking set_messages set_pending set_progress
           set_reminders set_blocked set_deposits set_tracking set_location];
      rewrite ?(rows_of_push _ p q other), ?(rows_of_append _ p q other),
        ?(rows_of_remove _ p q other) by reflexivity;
      auto 10
  end.

Section Untouched.
Variables p q : string.
Hypothesis other : q <> p.
Variable s : Store.

Ltac untouched_step := untouched_with p q other.

Lemma untouched_log x m : untouched q s x -> untouched q s (log_message x p m).
Proof. intro K. unfold log_message. untouched_step. Qed.

Lemma untouched_block x r :
  untouched q s x -> untouched q s (block_phone_number x p r).
Proof.
  intro K. unfold block_phone_number. case_if; [exact K|]. untouched_step.
Qed.

Lemma untouched_count x n :
  untouched q s x -> untouched q s (set_message_count x p n).
Proof.
  intro K. unfold set_message_count. untouched_step.
  repeat split; auto.
  rewrite <- K7.
  apply (rows_of_update mt_phone p q other
           (fun r => mkTracking (mt_phone r) (mt_booking_id r) n
                                (mt_enquiry_sent r))).
  reflexivity.
Qed.

Lemma untouched_sent x :
  untouched q s x -> untouched q s (set_enquiry_sent x p).
Proof.
  intro K. unfold set_enquiry_sent. untouched_step.
  repeat split; auto.
  rewrite <- K7.
  apply (rows_of_update mt_phone p q other
           (fun r => mkTracking (mt_phone r) (mt_booking_id r)
                                (mt_message_count r) true)).
  reflexivity.
Qed.

Lemma untouched_insert x b n e :
  untouched q s x -> untouched q s (insert_tracking x (mkTracking p b n e)).
Proof. intro K. unfold insert_tracking. untouched_step. Qed.

Lemma untouched_delete_tracking x :
  untouched q s x -> untouched q s (delete_tracking x p).
Proof. intro K. unfold delete_tracking. untouched_step. Qed.

Lemma untouched_save_progress pg x d :
  untouched q s x -> untouched q s (fst (save_booking_progress pg x p d)).
Proof.
  intro K. unfold save_booking_progress.
  destruct (progress_of x p) as [|current rest]; cbn [fst].
  - untouched_step.
  - untouched_step. repeat split; auto. rewrite <- K3.
    match goal with
    | |- context [mkProgress _ ?m] =>
        apply (rows_of_update bp_phone p q other
                 (fun r => mkProgress (bp_phone r) m))
    end.
    reflexivity.
Qed.

Lemma untouched_clear x :
  untouched q s x -> untouched q s (clear_booking_progress x p).
Proof. intro K. unfold clear_booking_progress. untouched_step. Qed.

Lemma untouched_delete_pending x :
  untouched q s x -> untouched q s (delete_pending_confirmation x p).
Proof. intro K. unfold delete_pending_confirmation. untouched_step. Qed.

Lemma untouched_save_pending x d st aw ev nm :
  untouched q s x ->
  untouched q s (save_pending_confirmation x p d st aw ev nm).
Proof.
  intro K. unfold save_pending_confirmation, delete_pending_confirmation.
  untouched_step.
Qed.

Lemma untouched_deposit x d :
  untouched q s x -> untouched q s (save_deposit_request x p d).
Proof. intro K. unfold save_deposit_request. untouched_step. Qed.

Lemma untouched_schedule x n d c io a :
  untouched q s x ->
  untouched q s (schedule_room_detail_reminder x p n d c io a).
Proof. intro K. unfold schedule_room_detail_reminder. untouched_step. Qed.

Lemma untouched_location x c a i :
  untouched q s x -> untouched q s (fst (update_incall_location x c a i)).
Proof.
  intro K. unfold update_incall_location. destruct i; cbn [fst]; untouched_step.
Qed.

End Untouched.

(** What the program reads about an identity comes from its rows. *)
Lemma find_rows_of {A} (key : A -> string) (q : string) (l : list A) :
  find (fun r => String.eqb (key r) q) l = hd_error (rows_of key q l).
Proof.
  induction l as [|a l IH]; [reflexivity|].
  cbn [find rows_of filter]. destruct (String.eqb (key a) q); [reflexivity|].
  exact IH.
Qed.

Lemma untouched_reads pg q s s' :
  untouched q s s' ->
  get_message_count s' q = get_message_count s q
  /\ blocked s' q = blocked s q
  /\ get_pending_confirmation s' q = get_pending_confirmation s q
  /\ get_booking_progress pg s' q = get_booking_progress pg s q
  /\ get_booking_attempts s' q = get_booking_attempts s q
  /\ check_post_booking_message_limit s' q
     = check_post_booking_message_limit s q.
Proof.
  intros (K1 & K2 & K3 & K4 & K5 & K6 & K7).
  unfold get_message_count, blocked, select_blocked, get_pending_confirmation,
    get_booking_progress, get_booking_attempts,
    check_post_booking_message_limit, progress_of, tracking_of.
  rewrite !find_rows_of. unfold rows_of in *.
  rewrite K1, K2, K3, K5, K7. repeat split.
Qed.

Lemma incoming_untouched (pg : bool) (claude gemini : option Rewriter)
    (url adella : string) (clock : string -> Cal.date) (s : Store)
    (lookup : query_result (string * string)) (p q body : string) :
  q <> p ->
  untouched q s
    (store (incoming_sms pg claude gemini url adella clock s lookup p body)).
Proof.
  intro other. apply inv_incoming; intros;
    eauto using untouched_refl, untouched_log, untouched_block,
      untouched_count, untouched_sent, untouched_insert,
      untouched_delete_tracking, untouched_save_progress, untouched_clear,
      untouched_save_pending, untouched_delete_pending, untouched_deposit,
      untouched_schedule, untouched_location.
Qed.

(** X5.  A request of one sender leaves the rows of every other identity
    as they were, in all the tables; what the program reads about the
    other identity (message count, block, pending confirmation, booking
    progress, attempts, chatter limit) is therefore unchanged. *)
Theorem other_senders_untouched :
  forall (pg : bool) (claude gemini : option Rewriter) (url adella : string)
         (clock : string -> Cal.date) (s : Store)
         (lookup : query_result (string * string)) (p q body : string),
    q <> p ->
    let s' := store (incoming_sms pg claude gemini url adella clock s lookup
                                  p body) in
    untouched q s s'
    /\ get_message_count s' q = get_message_count s q
    /\ blocked s' q = blocked s q
    /\ get_pending_confirmation s' q = get_pending_confirmation s q
    /\ get_booking_progress pg s' q = get_booking_progress pg s q
    /\ get_booking_attempts s' q = get_booking_attempts s q
    /\ check_post_booking_message_limit s' q
       = check_post_booking_message_limit s q.
Proof.
  intros pg claude gemini url adella clock s lookup p q body other s'.
  assert (U : untouched q s s')
    by (subst s'; now apply incoming_untouched).
  split; [exact U|]. apply untouched_reads, U.
Qed.

Lemma other_senders_untouched_witness :
  "+61400000002" <> stranger
  /\ untouched "+61400000002" init_db
       (store (incoming_sms false None None "" "" quiet_clock init_db
                            (Rows []) stranger "hi")).
Proof.
  assert (N : "+61400000002" <> stranger) by discriminate.
  split; [exact N|].
  exact (proj1 (other_senders_untouched false None None "" "" quiet_clock
                  init_db (Rows []) stranger "+61400000002" "hi" N)).
Defined.

(** ** Who moves the incall location *)

Section LocationKept.
Variable send_sms : string -> string -> bool.
Variable strptime_localize : string -> string -> option Z.

(** The reminder check writes to [room_detail_reminders] only. *)
Lemma send_due_only_reminders now :
  forall reminders s,
    let s' := snd (send_due send_sms strptime_localize s now reminders) in
    messages s' = messages s
    /\ pending_confirmations s' = pending_confirmations s
    /\ booking_progress s' = booking_progress s
    /\ incall_location s' = incall_location s
    /\ blocked_numbers s' = blocked_numbers s
    /\ deposit_requests s' = deposit_requests s
    /\ message_tracking s' = message_tracking s.
Proof.
  induction reminders as [|r rest IH]; intro s; cbv zeta;
    [repeat split|].
  cbn [send_due]. case_if; [|apply IH].
  destruct (format_location_for_confirmation _ _ _ _); [|repeat split].
  match goal with
  | |- context [send_due _ _ ?s1 now rest] =>
      specialize (IH s1); destruct (send_due _ _ s1 now rest) as [more s2]
  end.
  cbv zeta in IH. cbn [snd] in *.
  destruct IH as (I1 & I2 & I3 & I4 & I5 & I6 & I7).
  rewrite I1, I2, I3, I4, I5, I6, I7. now case_if.
Qed.

End LocationKept.

Lemma incoming_location_kept (pg : bool) (claude gemini : option Rewriter)
    (url adella : string) (clock : string -> Cal.date) (s : Store)
    (lookup : query_result (string * string)) (p body : string) :
  is_admin_location p (Py.strip body) = false ->
  incall_location
    (store (incoming_sms pg claude gemini url adella clock s lookup p body))
  = incall_location s.
Proof.
  intro Adm. unfold incoming_sms. cbv zeta. rewrite Adm.
  case_if; [reflexivity|].
  case_if; [reflexivity|].
  case_if; [reflexivity|].
  case_if; [reflexivity|].
  apply (inv_booking_flow pg claude gemini url clock p
           (fun x => incall_location x = incall_location s));
    try reflexivity; intros; try assumption.
  - unfold block_phone_number. now case_if.
  - unfold save_booking_progress. now destruct (progress_of x p).
Qed.

(** X6.  Over SMS the incall location is moved by nothing but the
    LOCATION command of an authorized admin number: a request that is not
    such a command leaves it as it was, whoever sends it and whatever it
    says, and so do the web form and the reminder check.  The dashboard
    changes nothing without the admin password, and with it nothing but
    the location. *)
Theorem location_moved_only_by_admin_command :
  forall (pg : bool) (claude gemini : option Rewriter) (url adella : string)
         (clock : string -> Cal.date) (s : Store),
    (forall (lookup : query_result (string * string)) (p body : string),
        is_admin_location p (Py.strip body) = false ->
        incall_location
          (store (incoming_sms pg claude gemini url adella clock s lookup p
                               body))
        = incall_location s)
    /\ (forall form, incall_location (snd (booking_form s form))
                     = incall_location s)
    /\ (forall send_sms strptime_localize now,
           incall_location
             (snd (check_and_send_room_details send_sms strptime_localize s
                                               now))
           = incall_location s)
    /\ (forall password form,
           (Py.opt_eqb (adm_password form) password = false ->
            fst (fst (admin_dashboard password s form)) = s)
           /\ set_location (fst (fst (admin_dashboard password s form)))
                           (incall_location s) = s).
Proof.
  intros pg claude gemini url adella clock s. split; [|split; [|split]].
  - intros lookup p body Adm. now apply incoming_location_kept.
  - intro form. reflexivity.
  - intros send_sms strptime_localize now.
    unfold check_and_send_room_details.
    apply (send_due_only_reminders send_sms strptime_localize now).
  - intros password form. unfold admin_dashboard. split.
    + intros ->. reflexivity.
    + assert (Same : set_location s (incall_location s) = s)
        by (now destruct s).
      case_if; [|exact Same].
      destruct (adm_city form) as [c|]; [|exact Same].
      destruct (adm_address form) as [a|]; [|exact Same].
      case_if; [|exact Same].
      unfold update_incall_location.
      destruct (adm_intercom_number form); destruct s; reflexivity.
Qed.

Lemma location_moved_only_by_admin_command_witness :
  is_admin_location stranger (Py.strip "LOCATION Perth: 1 Hay St") = false
  /\ incall_location
       (store (incoming_sms false None None "" "" quiet_clock init_db
                            (Rows []) stranger "LOCATION Perth: 1 Hay St"))
     = incall_location init_db.
Proof.
  assert (A : is_admin_location stranger (Py.strip "LOCATION Perth: 1 Hay St")
              = false) by (vm_compute; reflexivity).
  split; [exact A|].
  exact (proj1 (location_moved_only_by_admin_command false None None "" ""
                  quiet_clock init_db) (Rows []) stranger _ A).
Defined.

(** ** One row per identity *)

(** The tables that are read by identity hold at most one row for each:
    [booking_progress] and [blocked_numbers], which the schema declares
    [UNIQUE], and [pending_confirmations], which it does not. *)
Definition well_formed (s : Store) : Prop :=
  NoDup (map bp_phone (booking_progress s))
  /\ NoDup (map pc_phone (pending_confirmations s))
  /\ NoDup (map fst (blocked_numbers s)).

Section Keys.
Context {A : Type}.
Variable key : A -> string.

Lemma keys_update (p : string) (g : A -> A) (l : list A) :
  (forall r, key (g r) = key r) ->
  map key (map (fun r => if String.eqb (key r) p then g r else r) l)
  = map key l.
Proof.
  intro G. rewrite map_map. apply map_ext. intro r.
  destruct (String.eqb (key r) p); [apply G|reflexivity].
Qed.

Lemma keys_absent (p : string) (l : list A) :
  filter (fun r => String.eqb (key r) p) l = [] -> ~ In p (map key l).
Proof.
  intros E H. apply in_map_iff in H. destruct H as (r & K & I).
  assert (F : In r (filter (fun r => String.eqb (key r) p) l)).
  { apply filter_In. split; [exact I|]. rewrite K. apply String.eqb_refl. }
  rewrite E in F. exact F.
Qed.

Lemma keys_removed (p : string) (l : list A) :
  ~ In p (map key (filter (fun r => negb (String.eqb (key r) p)) l)).
Proof.
  intro H. apply in_map_iff in H. destruct H as (r & K & I).
  apply filter_In in I. destruct I as [_ N].
  rewrite K, String.eqb_refl in N. discriminate.
Qed.

Lemma keys_filter_nodup (f : A -> bool) (l : list A) :
  NoDup (map key l) -> NoDup (map key (filter f l)).
Proof.
  induction l as [|a l IH]; intro N; [constructor|].
  cbn [map] in N. inversion N as [|? ? Na Nl]; subst.
  cbn [filter]. destruct (f a); [|auto].
  cbn [map]. constructor; [|auto].
  intro H. apply Na. apply in_map_iff in H. destruct H as (r & K & I).
  apply filter_In in I. apply in_map_iff. exists r. tauto.
Qed.

Lemma keys_append_nodup (p : string) (l : list A) (r : A) :
  key r = p -> ~ In p (map key l) -> NoDup (map key l) ->
  NoDup (map key (l ++ [r])).
Proof.
  intros K N D. rewrite map_app. cbn [map]. rewrite K.
  apply NoDup_app; [exact D|repeat constructor; intros []|].
  intros a Ia [<-|[]]. contradiction.
Qed.

End Keys.

Lemma well_formed_init : well_formed init_db.
Proof. repeat split; constructor. Qed.

Lemma well_formed_save_pending x p d st aw ev nm :
  well_formed x -> well_formed (save_pending_confirmation x p d st aw ev nm).
Proof.
  intros (W1 & W2 & W3). repeat split; [exact W1| |exact W3].
  unfold save_pending_confirmation, delete_pending_confirmation.
  cbn [pending_confirmations set_pending map pc_phone].
  constructor; [apply keys_removed|apply keys_filter_nodup, W2].
Qed.

Lemma well_formed_delete_pending x p :
  well_formed x -> well_formed (delete_pending_confirmation x p).
Proof.
  intros (W1 & W2 & W3). repeat split; [exact W1| |exact W3].
  apply keys_filter_nodup, W2.
Qed.

Lemma well_formed_save_progress pg x p d :
  well_formed x -> well_formed (fst (save_booking_progress pg x p d)).
Proof.
  intros (W1 & W2 & W3). unfold save_booking_progress.
  destruct (progress_of x p) as [|current rest] eqn:E; cbn [fst];
    (repeat split; [|exact W2|exact W3]);
    cbn [booking_progress set_progress].
  - apply (keys_append_nodup bp_phone p); [reflexivity| |exact W1].
    apply keys_absent, E.
  - match goal with
    | |- context [mkProgress _ ?m] =>
        rewrite (keys_update bp_phone p (fun r => mkProgress (bp_phone r) m))
    end; [exact W1|reflexivity].
Qed.

Lemma well_formed_clear x p :
  well_formed x -> well_formed (clear_booking_progress x p).
Proof.
  intros (W1 & W2 & W3). repeat split; [|exact W2|exact W3].
  apply keys_filter_nodup, W1.
Qed.

Lemma well_formed_block x p r :
  well_formed x -> well_formed (block_phone_number x p r).
Proof.
  intros (W1 & W2 & W3). unfold block_phone_number.
  case_if; [repeat split; assumption|].
  repeat split; [exact W1|exact W2|].
  cbn [blocked_numbers set_blocked].
  apply (keys_append_nodup fst p); [reflexivity| |exact W3].
  intro H. apply in_map_iff in H. destruct H as (b & K & I).
  assert (T : existsb (fun b => String.eqb (fst b) p) (blocked_numbers x)
              = true).
  { apply existsb_exists. exists b. split; [exact I|].
    rewrite K. apply String.eqb_refl. }
  congruence.
Qed.

(** X7.  The handler, the web form and the reminder check keep one row
    per identity in [booking_progress], [pending_confirmations] and
    [blocked_numbers]: the insert of [save_booking_progress] never
    meets the [UNIQUE] constraint, and the lookup of a pending
    confirmation never has two rows to choose from.  The fresh database
    has the property. *)
Theorem one_row_per_identity :
  well_formed init_db
  /\ (forall (pg : bool) (claude gemini : option Rewriter)
             (url adella : string) (clock : string -> Cal.date) (s : Store)
             (lookup : query_result (string * string)) (p body : string),
         well_formed s ->
         well_formed
           (store (incoming_sms pg claude gemini url adella clock s lookup p
                                body)))
  /\ (forall (s : Store) (form : BookingForm),
         well_formed s -> well_formed (snd (booking_form s form)))
  /\ (forall (send_sms : string -> string -> bool)
             (strptime_localize : string -> string -> option Z) (s : Store)
             (now : Z),
         well_formed s ->
         well_formed
           (snd (check_and_send_room_details send_sms strptime_localize s
                                             now))).
Proof.
  split; [exact well_formed_init|]. split; [|split].
  - intros pg claude gemini url adella clock s lookup p body W.
    apply inv_incoming; try exact W; intros;
      auto using well_formed_save_pending, well_formed_delete_pending,
        well_formed_save_progress, well_formed_clear, well_formed_block.
    destruct i; assumption.
  - intros s form W. unfold booking_form. cbn [snd].
    apply well_formed_save_pending, W.
  - intros send_sms strptime_localize s now (W1 & W2 & W3).
    unfold check_and_send_room_details, well_formed.
    destruct (send_due_only_reminders send_sms strptime_localize now
                (filter (fun r => negb (rr_sent r)) (room_detail_reminders s))
                s) as (_ & I2 & I3 & _ & I5 & _).
    rewrite I2, I3, I5. auto.
Qed.

Lemma one_row_per_identity_witness :
  well_formed init_db
  /\ well_formed
       (store (incoming_sms false None None "" "" quiet_clock init_db
                            (Rows []) stranger "hi")).
Proof.
  split; [exact (proj1 one_row_per_identity)|].
  exact (proj1 (proj2 one_row_per_identity) false None None "" ""
           quiet_clock init_db (Rows []) stranger "hi"
           (proj1 one_row_per_identity)).
Defined.

(** ** Every accepted request is answered *)

Section Answered.
Variable pg : bool.
Variable claude gemini : option Rewriter.
Variable url adella : string.
Variable clock : string -> Cal.date.

(** The confirmation needs the location text, which is missing only for
    an Outcall booking without address; such a booking has taken the
    deposit branch before. *)
Lemma handle_yes_replies s p m row :
  reply (handle_yes claude gemini url s p m row) <> None.
Proof.
  unfold handle_yes.
  destruct (extract_name_from_yes_message m); [|discriminate].
  cbv zeta. case_if; [discriminate|].
  destruct (format_location_for_confirmation _ _ _ false) eqn:F;
    [discriminate|].
  exfalso. unfold format_location_for_confirmation in F.
  destruct (Py.opt_eqb (incall_outcall (pc_details row)) "Outcall") eqn:O.
  - unfold deposit_mandatory in E. rewrite O in E. discriminate E.
  - cbn in F. discriminate F.
Qed.

Lemma handle_merge_replies s p d e :
  reply (handle_merge pg claude gemini url s p d e) <> None.
Proof.
  unfold handle_merge, final_block, auto_enquiry, ask_missing. cbv zeta.
  destruct (missing_fields _); repeat case_if; discriminate.
Qed.

Lemma handle_progress_replies s p m :
  reply (handle_progress pg claude gemini url clock s p m) <> None.
Proof.
  unfold handle_progress, final_block, auto_enquiry, ask_missing. cbv zeta.
  destruct (any_value _); [apply handle_merge_replies|].
  destruct (get_booking_progress pg s p) as [existing|];
    repeat case_if; try discriminate.
  destruct (missing_fields existing);
    [apply handle_merge_replies|discriminate].
Qed.

Lemma booking_flow_replies s p m :
  reply (booking_flow pg claude gemini url clock s p m) <> None.
Proof.
  unfold booking_flow. cbv zeta.
  destruct (if says_yes m then _ else _); [apply handle_yes_replies|].
  destruct (if says_deposit m then _ else _); [discriminate|].
  destruct (check_post_booking_message_limit s p) as [limit sent].
  repeat case_if; try discriminate; apply handle_progress_replies.
Qed.

Lemma incoming_replies s lookup p body :
  is_number_blocked lookup = false ->
  reply (incoming_sms pg claude gemini url adella clock s lookup p body)
  <> None.
Proof.
  intro B. unfold incoming_sms. cbv zeta. rewrite B.
  case_if; [discriminate|].
  case_if; [discriminate|].
  case_if; [discriminate|].
  case_if; [|apply booking_flow_replies].
  destruct (parse_location_command _ _) as [[c address] intercom].
  destruct (update_incall_location _ _ _ _). discriminate.
Qed.

End Answered.

(** X8.  A request is answered exactly when the block check lets it
    through, and exactly then its stripped text is added to the message
    log, once: no branch of the handler ends without a reply (the
    confirmation text of the YES branch cannot fail for want of an
    address), and a dropped request leaves no trace. *)
Theorem answered_iff_logged :
  forall (pg : bool) (claude gemini : option Rewriter) (url adella : string)
         (clock : string -> Cal.date) (s : Store)
         (lookup : query_result (string * string)) (p body : string),
    let o := incoming_sms pg claude gemini url adella clock s lookup p body in
    (reply o = None <-> is_number_blocked lookup = true)
    /\ messages (store o)
       = (if is_number_blocked lookup then messages s
          else messages s ++ [(p, Py.strip body)])%list
    /\ get_message_count (store o) p
       = (get_message_count s p
          + (if is_number_blocked lookup then 0 else 1))%Z
    /\ (is_number_blocked lookup = true -> store o = s).
Proof.
  intros pg claude gemini url adella clock s lookup p body o. subst o.
  destruct (is_number_blocked lookup) eqn:B.
  - unfold incoming_sms. cbv zeta. rewrite B. cbn [reply store].
    repeat split; auto. lia.
  - pose proof (incoming_replies pg claude gemini url adella clock s lookup
                  p body B) as R.
    destruct (keeps_incoming pg claude gemini url adella clock s lookup p
                body B) as [M _].
    split; [split; [intro H; contradiction|discriminate]|].
    split; [exact M|]. split; [|discriminate].
    unfold get_message_count. rewrite M. unfold log_message.
    cbn [messages set_messages]. rewrite filter_app, length_app.
    cbn [filter fst]. rewrite String.eqb_refl. cbn [List.length]. lia.
Qed.

(** ** Booking progress: what is saved is what is read *)

Lemma rows_of_first_update {A} (key : A -> string) (p : string) (g : A -> A)
    (l : list A) (a : A) (rest : list A) :
  (forall r, key (g r) = key r) ->
  rows_of key p l = a :: rest ->
  exists rest',
    rows_of key p (map (fun r => if String.eqb (key r) p then g r else r) l)
    = g a :: rest'.
Proof.
  intro G. induction l as [|x l IH]; [discriminate|].
  cbn [rows_of filter map]. destruct (String.eqb (key x) p) eqn:E.
  - intro H. injection H as -> _. rewrite G, E. eexists. reflexivity.
  - rewrite E. exact IH.
Qed.

(** X9.  What [save_booking_progress] returns is what the next
    [get_booking_progress] of the same identity reads, in both database
    modes, whether the row existed or not; after
    [clear_booking_progress] there is nothing to read. *)
Theorem progress_saved_is_progress_read :
  forall (pg : bool) (s : Store) (p : string) (d : Details),
    get_booking_progress pg (fst (save_booking_progress pg s p d)) p
    = Some (snd (save_booking_progress pg s p d))
    /\ get_booking_progress pg (clear_booking_progress s p) p = None.
Proof.
  intros pg s p d. split.
  - unfold save_booking_progress, get_booking_progress.
    destruct (progress_of s p) as [|current rest] eqn:E; cbn [fst snd].
    + unfold progress_of in *. cbn [booking_progress set_progress].
      rewrite filter_app, E. cbn [filter bp_phone app].
      rewrite String.eqb_refl.
      destruct pg; [reflexivity|]. destruct d; reflexivity.
    + unfold progress_of in *. cbn [booking_progress set_progress].
      match goal with
      | |- context [mkProgress _ ?m] =>
          destruct (rows_of_first_update bp_phone p
                      (fun r => mkProgress (bp_phone r) m)
                      (booking_progress s) current rest
                      (fun _ => eq_refl) E) as [rest' R]
      end.
      unfold rows_of in R. rewrite R.
      destruct pg; reflexivity.
  - unfold get_booking_progress, clear_booking_progress, progress_of.
    cbn [booking_progress set_progress].
    assert (N : filter (fun r => String.eqb (bp_phone r) p)
                  (filter (fun r => negb (String.eqb (bp_phone r) p))
                          (booking_progress s)) = []).
    { induction (booking_progress s) as [|a l IH]; [reflexivity|].
      cbn [filter]. destruct (String.eqb (bp_phone a) p) eqn:E; cbn [negb];
        [exact IH|]. cbn [filter]. rewrite E. exact IH. }
    rewrite N. reflexivity.
Qed.

(** ** The envelope of the tone pass *)

Section PolishEnvelope.
Variable claude gemini : option Rewriter.




End PolishEnvelope.


(** ** Dates *)

Module CalFacts.
Local Open Scope Z_scope.

Ltac split_ifs :=
  repeat match goal with
         | |- context [if ?b then _ else _] =>
             lazymatch b with
             | context [if _ then _ else _] => fail
             | _ => let E := fresh "E" in destruct b eqn:E
             end
         end.

Ltac to_props :=
  repeat match goal with
         | X : (_ && _)%bool = true |- _ => apply andb_prop in X; destruct X
         | X : (_ || _)%bool = false |- _ =>
             apply orb_false_elim in X; destruct X
         | X : negb _ = true |- _ => apply negb_true_iff in X
         | X : negb _ = false |- _ => apply negb_false_iff in X
         | X : (_ <? _) = true |- _ => apply Z.ltb_lt in X
         | X : (_ <? _) = false |- _ => apply Z.ltb_ge in X
         | X : (_ <=? _) = true |- _ => apply Z.leb_le in X
         | X : (_ <=? _) = false |- _ => apply Z.leb_gt in X
         | X : (_ =? _) = true |- _ => apply Z.eqb_eq in X
         | X : (_ =? _) = false |- _ => apply Z.eqb_neq in X
         | X : (_ >? _) = true |- _ => apply Z.gtb_lt in X
         | X : (_ >? _) = false |- _ =>
             rewrite Z.gtb_ltb in X; apply Z.ltb_ge in X
         end.

(** The date of a day number has that day number. *)
Lemma to_of_days z : Cal.to_days (Cal.of_days z) = z.
Proof.
  unfold Cal.to_days, Cal.of_days. cbv zeta. cbn [Cal.year Cal.month Cal.day].
  split_ifs; to_props; Z.div_mod_to_equations; lia.
Qed.

Lemma of_days_month z : 1 <= Cal.month (Cal.of_days z) <= 12.
Proof.
  unfold Cal.of_days. cbv zeta. cbn [Cal.month].
  split_ifs; to_props; Z.div_mod_to_equations; lia.
Qed.

Lemma of_days_day_lo z : 1 <= Cal.day (Cal.of_days z).
Proof.
  unfold Cal.of_days. cbv zeta. cbn [Cal.day].
  Z.div_mod_to_equations; lia.
Qed.

Lemma of_days_day_hi z :
  Cal.day (Cal.of_days z)
  <= Cal.days_in_month (Cal.year (Cal.of_days z)) (Cal.month (Cal.of_days z)).
Proof.
  unfold Cal.of_days, Cal.days_in_month, Cal.is_leap. cbv zeta.
  cbn [Cal.year Cal.month Cal.day].
  split_ifs; to_props; Z.div_mod_to_equations; lia.
Qed.

Definition real (d : Cal.date) : bool :=
  Cal.valid (Cal.year d) (Cal.month d) (Cal.day d).

Lemma of_days_real z : real (Cal.of_days z) = true.
Proof.
  unfold real, Cal.valid.
  pose proof (of_days_month z). pose proof (of_days_day_lo z).
  pose proof (of_days_day_hi z).
  repeat (apply andb_true_intro; split); apply Z.leb_le; lia.
Qed.

Lemma weekday_range d : 0 <= Cal.weekday d <= 6.
Proof. unfold Cal.weekday. Z.div_mod_to_equations; lia. Qed.

Lemma weekday_add_days d k :
  Cal.weekday (Cal.add_days d k) = (Cal.weekday d + k) mod 7.
Proof.
  unfold Cal.weekday, Cal.add_days. rewrite to_of_days.
  Z.div_mod_to_equations; lia.
Qed.

End CalFacts.

Lemma weekdays_numbering name n :
  In (name, n) weekdays ->
  (0 <= n <= 6)%Z /\ nth (Z.to_nat n) Cal.day_names "" = Py.title name.
Proof.
  unfold weekdays. cbn [In].
  intros [H|[H|[H|[H|[H|[H|[H|[]]]]]]]]; injection H as <- <-;
    (split; [lia|reflexivity]).
Qed.

(** X11.  A date that [parse_date_from_message] returns is a date of the
    calendar, as long as today is one.  A numeric day and month are put
    in the current year, whether that day has passed or not. *)
Theorem parsed_date_is_real :
  forall (today : Cal.date) (msg : string) (d : Cal.date),
    CalFacts.real today = true ->
    parse_date_from_message today msg = Some d ->
    CalFacts.real d = true
    /\ (forall m, Re.search date_pattern msg = Some m ->
                  Cal.valid (Cal.year today)
                    (Num.int (Py.fmt (Re.group 2 (Re.f_caps m))))
                    (Num.int (Py.fmt (Re.group 1 (Re.f_caps m)))) = true ->
                  d = Cal.Date (Cal.year today)
                        (Num.int (Py.fmt (Re.group 2 (Re.f_caps m))))
                        (Num.int (Py.fmt (Re.group 1 (Re.f_caps m))))).
Proof.
  intros today msg d T. unfold parse_date_from_message. cbv zeta.
  assert (N : forall x,
             match find (fun dn => Py.contains (fst dn) (Py.lower msg))
                        weekdays with
             | Some (_, day_num) =>
                 Some (Cal.add_days today
                         (if (day_num - Cal.weekday today <=? 0)%Z
                          then (day_num - Cal.weekday today + 7)%Z
                          else (day_num - Cal.weekday today)%Z))
             | None =>
                 if Py.contains "today" (Py.lower msg) then Some today
                 else if Py.contains "tomorrow" (Py.lower msg)
                      then Some (Cal.add_days today 1) else None
             end = Some x -> CalFacts.real x = true).
  { intros x. destruct (find _ weekdays) as [[name n]|].
    - intro H. injection H as <-. apply CalFacts.of_days_real.
    - repeat case_if; intro H; try discriminate H; injection H as <-;
        [exact T|apply CalFacts.of_days_real]. }
  destruct (Re.search date_pattern msg) as [m|].
  - destruct (Cal.valid _ _ _) eqn:V.
    + intro H. injection H as <-. split; [exact V|].
      intros m' H' _. injection H' as <-. reflexivity.
    + intro H. split; [apply N, H|].
      intros m' H' V'. injection H' as <-. congruence.
  - intro H. split; [apply N, H|]. intros m' H'. discriminate H'.
Qed.

Lemma parsed_date_is_real_witness :
  CalFacts.real (Cal.Date 2026 11 4) = true
  /\ parse_date_from_message (Cal.Date 2026 11 4) "on 1/3 please"
     = Some (Cal.Date 2026 3 1)
  /\ CalFacts.real (Cal.Date 2026 3 1) = true.
Proof.
  assert (T : CalFacts.real (Cal.Date 2026 11 4) = true)
    by (vm_compute; reflexivity).
  assert (P : parse_date_from_message (Cal.Date 2026 11 4) "on 1/3 please"
              = Some (Cal.Date 2026 3 1)) by (vm_compute; reflexivity).
  split; [exact T|]. split; [exact P|].
  exact (proj1 (parsed_date_is_real _ _ _ T P)).
Defined.

(** X12.  When a message holds no numeric date and names a weekday, the
    date found is the next day of that name strictly after today, between
    one and seven days ahead: said on that very weekday, the name means
    a week from now.  The text stored for the booking begins with the
    name of the day, capitalised. *)
Theorem named_weekday_is_next_occurrence :
  forall (today : Cal.date) (msg name : string) (n : Z),
    Re.search date_pattern msg = None ->
    find (fun dn => Py.contains (fst dn) (Py.lower msg)) weekdays
    = Some (name, n) ->
    exists (d : Cal.date) (k : Z),
      parse_date_from_message today msg = Some d
      /\ (1 <= k <= 7)%Z
      /\ Cal.to_days d = (Cal.to_days today + k)%Z
      /\ Cal.weekday d = n
      /\ (Cal.weekday today = n <-> k = 7%Z)
      /\ date (extract_booking_details today msg)
         = Some (Py.title name ++ " " ++ Num.pad 2 (Cal.day d) ++ "/"
                 ++ Num.pad 2 (Cal.month d) ++ "/" ++ Num.pad 4 (Cal.year d)).
Proof.
  intros today msg name n S F.
  pose proof (find_some _ _ F) as [I _].
  destruct (weekdays_numbering name n I) as [R Nm].
  pose proof (CalFacts.weekday_range today) as W.
  set (k := if (n - Cal.weekday today <=? 0)%Z
            then (n - Cal.weekday today + 7)%Z
            else (n - Cal.weekday today)%Z).
  assert (P : parse_date_from_message today msg
              = Some (Cal.add_days today k)).
  { unfold parse_date_from_message. cbv zeta. rewrite S, F. reflexivity. }
  assert (K : (1 <= k <= 7)%Z) by (subst k; case_if; lia).
  assert (Wd : Cal.weekday (Cal.add_days today k) = n).
  { rewrite CalFacts.weekday_add_days. subst k.
    case_if; Z.div_mod_to_equations; lia. }
  exists (Cal.add_days today k), k.
  split; [exact P|]. split; [exact K|].
  split; [apply CalFacts.to_of_days|]. split; [exact Wd|].
  split; [subst k; case_if; lia|].
  unfold extract_booking_details. cbn [date]. rewrite P. cbn [option_map].
  unfold Cal.strftime. rewrite Wd, Nm. reflexivity.
Qed.

Lemma named_weekday_is_next_occurrence_witness :
  Re.search date_pattern "see you wednesday" = None
  /\ find (fun dn => Py.contains (fst dn) (Py.lower "see you wednesday"))
          weekdays = Some ("wednesday", 2%Z)
  /\ exists (d : Cal.date) (k : Z),
       parse_date_from_message (Cal.Date 2026 11 4) "see you wednesday"
       = Some d
       /\ (1 <= k <= 7)%Z
       /\ Cal.to_days d = (Cal.to_days (Cal.Date 2026 11 4) + k)%Z
       /\ Cal.weekday d = 2%Z
       /\ (Cal.weekday (Cal.Date 2026 11 4) = 2%Z <-> k = 7%Z)
       /\ date (extract_booking_details (Cal.Date 2026 11 4)
                  "see you wednesday")
          = Some (Py.title "wednesday" ++ " " ++ Num.pad 2 (Cal.day d) ++ "/"
                  ++ Num.pad 2 (Cal.month d) ++ "/"
                  ++ Num.pad 4 (Cal.year d)).
Proof.
  assert (S : Re.search date_pattern "see you wednesday" = None)
    by (vm_compute; reflexivity).
  assert (F : find (fun dn => Py.contains (fst dn)
                                (Py.lower "see you wednesday"))
                   weekdays = Some ("wednesday", 2%Z))
    by (vm_compute; reflexivity).
  split; [exact S|]. split; [exact F|].
  exact (named_weekday_is_next_occurrence (Cal.Date 2026 11 4) _ _ _ S F).
Defined.

(** ** Durations: from the message to the calendar *)

Lemma lower_app (a b : string) : Py.lower (a ++ b) = Py.lower a ++ Py.lower b.
Proof.
  unfold Py.lower. induction a as [|c a IH]; cbn; [reflexivity|].
  now rewrite IH.
Qed.

Lemma prefix_refl (x : string) : String.prefix x x = true.
Proof.
  induction x as [|c x IH]; [reflexivity|].
  cbn. destruct (ascii_dec c c); [exact IH|contradiction].
Qed.

Lemma prefix_app (x b : string) : String.prefix x (x ++ b) = true.
Proof.
  induction x as [|c x IH]; [now destruct b|].
  cbn. destruct (ascii_dec c c); [exact IH|contradiction].
Qed.

(** A text contains what it is built around. *)
Lemma contains_middle (x a b : string) : Py.contains x (a ++ x ++ b) = true.
Proof.
  induction a as [|c a IH].
  - cbn [append]. destruct (x ++ b) eqn:E; cbn [Py.contains];
      rewrite <- E, prefix_app; reflexivity.
  - cbn [append Py.contains]. rewrite IH. apply orb_true_r.
Qed.




(** *** The longest run of a class *)

Section Greedy.
Variable p : ascii -> bool.



End Greedy.






(** ** No due reminder is skipped *)

(** Every reminder is for an Incall booking. *)
Definition incall_reminders (s : Store) : Prop :=
  forall r, In r (room_detail_reminders s) ->
            Py.opt_eqb (rr_incall_outcall r) "Incall" = true.

Lemma incall_has_location location io addr :
  Py.opt_eqb io "Incall" = true ->
  exists text, format_location_for_confirmation location io addr true
               = Some text.
Proof.
  intro H. unfold format_location_for_confirmation.
  destruct io as [x|]; [|discriminate H]. cbn [Py.opt_eqb] in *.
  apply String.eqb_eq in H. subst x. cbn [String.eqb Ascii.eqb Bool.eqb].
  cbn [negb]. case_if; eexists; reflexivity.
Qed.

Section ReminderComplete.
Variable send_sms : string -> string -> bool.
Variable strptime_localize : string -> string -> option Z.

Lemma send_due_complete now :
  forall reminders s,
    (forall r, In r reminders ->
               Py.opt_eqb (rr_incall_outcall r) "Incall" = true) ->
    forall r, In r reminders -> due strptime_localize s now r = true ->
      exists e, In e (fst (send_due send_sms strptime_localize s now
                                    reminders))
                /\ sr_id e = rr_id r /\ sr_to e = rr_phone r
                /\ sr_delivered e = send_sms (sr_to e) (sr_body e).
Proof.
  induction reminders as [|x rest IH]; intros s Hin r Hr Hd; [destruct Hr|].
  cbn [send_due].
  assert (Hrest : forall r, In r rest ->
                    Py.opt_eqb (rr_incall_outcall r) "Incall" = true)
    by (intros y Hy; apply Hin; now right).
  destruct (due strptime_localize s now x) eqn:Dx.
  - destruct (incall_has_location (get_current_incall_location s)
                (rr_incall_outcall x) (rr_outcall_address x)
                (Hin x (or_introl eq_refl))) as [text ->].
    match goal with
    | |- context [send_due _ _ ?s1 now rest] =>
        pose proof (IH s1 Hrest r) as IH1;
        destruct (send_due send_sms strptime_localize s1 now rest)
          as [more s2]
    end.
    cbn [fst]. destruct Hr as [<-|Hr].
    + eexists. split; [left; reflexivity|]. cbn. auto.
    + destruct IH1 as (e & He & K); [exact Hr| |].
      * case_if; exact Hd.
      * exists e. split; [right; exact He|exact K].
  - destruct Hr as [<-|Hr]; [congruence|]. apply IH; assumption.
Qed.

End ReminderComplete.

(** X14.  The handler schedules a reminder for Incall bookings only, and
    the web form and the reminder check add none; so the check never
    stops on an Outcall reminder without address, and every unsent
    reminder whose booking is 55 to 65 minutes ahead has its message
    handed to [send_sms] in that check. *)
Theorem due_reminders_all_attempted :
  incall_reminders init_db
  /\ (forall (pg : bool) (claude gemini : option Rewriter)
             (url adella : string) (clock : string -> Cal.date) (s : Store)
             (lookup : query_result (string * string)) (p body : string),
         incall_reminders s ->
         incall_reminders
           (store (incoming_sms pg claude gemini url adella clock s lookup p
                                body)))
  /\ (forall (s : Store) (form : BookingForm),
         incall_reminders s -> incall_reminders (snd (booking_form s form)))
  /\ (forall (send_sms : string -> string -> bool)
             (strptime_localize : string -> string -> option Z) (s : Store)
             (now : Z),
         incall_reminders s ->
         incall_reminders
           (snd (check_and_send_room_details send_sms strptime_localize s
                                             now))
         /\ forall r, In r (room_detail_reminders s) -> rr_sent r = false ->
              due strptime_localize s now r = true ->
              exists e,
                In e (fst (check_and_send_room_details send_sms
                             strptime_localize s now))
                /\ sr_id e = rr_id r /\ sr_to e = rr_phone r
                /\ sr_delivered e = send_sms (sr_to e) (sr_body e)).
Proof.
  split; [intros r []|]. split; [|split].
  - intros pg claude gemini url adella clock s lookup p body W.
    apply inv_incoming; try exact W; intros; try assumption.
    + unfold block_phone_number. now case_if.
    + unfold save_booking_progress. now destruct (progress_of x p).
    + unfold incall_reminders, schedule_room_detail_reminder.
      cbn [room_detail_reminders set_reminders]. intros r Hr.
      apply in_app_or in Hr. destruct Hr as [Hr|[<-|[]]]; [auto|].
      assumption.
    + now destruct i.
  - intros s form W. exact W.
  - intros send_sms strptime_localize s now W. split.
    + unfold check_and_send_room_details.
      destruct (loop_spec send_sms strptime_localize now
                  (filter (fun r => negb (rr_sent r))
                          (room_detail_reminders s)) s) as [_ E].
      rewrite E. unfold incall_reminders.
      cbn [room_detail_reminders set_reminders]. intros r Hr.
      apply in_map_iff in Hr. destruct Hr as (r0 & <- & Hr0).
      unfold after_sends. case_if; [|auto]. cbn. auto.
    + intros r Hr Hs Hd. unfold check_and_send_room_details.
      apply send_due_complete.
      * intros y Hy. apply filter_In in Hy. apply W, Hy.
      * apply filter_In. split; [exact Hr|]. now rewrite Hs.
      * exact Hd.
Qed.

Lemma due_reminders_all_attempted_witness :
  let now := (friday_7pm - 3600 * 1000000)%Z in
  let check := check_and_send_room_details (fun _ _ => false) parse_friday in
  incall_reminders confirmed_store
  /\ forall r, In r (room_detail_reminders confirmed_store) ->
       exists e, In e (fst (check confirmed_store now))
                 /\ sr_id e = rr_id r /\ sr_to e = rr_phone r
                 /\ sr_delivered e = false.
Proof.
  cbv zeta.
  assert (W : incall_reminders confirmed_store)
    by (intros r [<-|[]]; reflexivity).
  split; [exact W|]. intros r Hr.
  destruct (proj2 (proj2 (proj2 due_reminders_all_attempted))
              (fun _ _ => false) parse_friday confirmed_store
              (friday_7pm - 3600 * 1000000)%Z W) as [_ C].
  apply C; [exact Hr| |]; destruct Hr as [<-|[]]; vm_compute; reflexivity.
Defined.

(** ** Pending confirmations made over SMS are complete *)












Section PendingComplete.
Variable pg : bool.
Variable claude gemini : option Rewriter.
Variable url adella : string.
Variable clock : string -> Cal.date.





End PendingComplete.



(** ** The timezone of a city *)

Section CaseMap.
Variable f : ascii -> ascii.
Hypothesis f_space : forall c, Py.is_space (f c) = Py.is_space c.

Lemma smap_rev_onto (s acc : string) :
  Py.smap f (Py.rev_onto s acc) = Py.rev_onto (Py.smap f s) (Py.smap f acc).
Proof.
  revert acc. induction s as [|c s IH]; intro acc; [reflexivity|].
  cbn [Py.rev_onto Py.smap]. now rewrite IH.
Qed.

Lemma smap_srev (s : string) : Py.smap f (Py.srev s) = Py.srev (Py.smap f s).
Proof. unfold Py.srev. now rewrite smap_rev_onto. Qed.

Lemma smap_lstrip (s : string) :
  Py.smap f (Py.lstrip_by Py.is_space s)
  = Py.lstrip_by Py.is_space (Py.smap f s).
Proof.
  induction s as [|c s IH]; [reflexivity|].
  cbn [Py.lstrip_by Py.smap]. rewrite f_space.
  destruct (Py.is_space c); [exact IH|reflexivity].
Qed.

Lemma smap_strip (s : string) : Py.smap f (Py.strip s) = Py.strip (Py.smap f s).
Proof.
  unfold Py.strip, Py.strip_by.
  now rewrite smap_srev, smap_lstrip, smap_srev, smap_lstrip.
Qed.

End CaseMap.

(** Facts of single characters, checked on all of them. *)
Lemma all_ascii (P : ascii -> bool) :
  forallb P (map ascii_of_nat (seq 0 256)) = true -> forall c, P c = true.
Proof.
  intros H c. rewrite forallb_forall in H. apply H.
  rewrite <- (ascii_nat_embedding c). apply in_map, in_seq.
  pose proof (nat_ascii_bounded c). lia.
Qed.

Definition case_blind (f : ascii -> ascii) (c : ascii) : bool :=
  Bool.eqb (Py.is_space (f c)) (Py.is_space c)
  && Bool.eqb (Py.is_alpha (f c)) (Py.is_alpha c)
  && Ascii.eqb (Py.lower_char (f c)) (Py.lower_char c)
  && Ascii.eqb (Py.upper_char (f c)) (Py.upper_char c).

Lemma case_blind_spec (f : ascii -> ascii) :
  forallb (case_blind f) (map ascii_of_nat (seq 0 256)) = true ->
  forall c, Py.is_space (f c) = Py.is_space c
            /\ Py.is_alpha (f c) = Py.is_alpha c
            /\ Py.lower_char (f c) = Py.lower_char c
            /\ Py.upper_char (f c) = Py.upper_char c.
Proof.
  intros H c. pose proof (all_ascii _ H c) as K. unfold case_blind in K.
  repeat (apply andb_prop in K; destruct K as [K ?]).
  repeat match goal with
         | X : Bool.eqb _ _ = true |- _ => apply Bool.eqb_prop in X
         | X : Ascii.eqb _ _ = true |- _ => apply Ascii.eqb_eq in X
         end.
  auto.
Qed.

Lemma title_case_blind (f : ascii -> ascii) :
  forallb (case_blind f) (map ascii_of_nat (seq 0 256)) = true ->
  forall s, Py.title (Py.strip (Py.smap f s)) = Py.title (Py.strip s).
Proof.
  intros H s. pose proof (case_blind_spec f H) as K.
  rewrite <- smap_strip by (intro c; apply K).
  unfold Py.title. generalize false as prev. generalize (Py.strip s) as t.
  induction t as [|c t IH]; intro prev; [reflexivity|].
  cbn [Py.smap Py.title_from].
  destruct (K c) as (_ & Ka & Kl & Ku). rewrite Ka.
  destruct (Py.is_alpha c) eqn:A.
  - rewrite IH, Kl, Ku. reflexivity.
  - rewrite IH. f_equal.
    apply orb_false_elim in A. destruct A as [U _].
    apply orb_false_elim in Ka. destruct Ka as [U' _].
    unfold Py.lower_char in Kl. rewrite U, U' in Kl. exact Kl.
Qed.

Lemma assoc_In (k v : string) (m : list (string * string)) :
  assoc k m = Some v -> In v (map snd m).
Proof.
  induction m as [|[k' v'] m IH]; cbn; [discriminate|].
  destruct (String.eqb k k'); intro H; [injection H as ->; now left|].
  right. auto.
Qed.

Lemma assoc_absent (k : string) (m : list (string * string)) :
  ~ In k (map fst m) -> assoc k m = None.
Proof.
  induction m as [|[k' v'] m IH]; cbn; [reflexivity|]. intro H.
  destruct (String.eqb k k') eqn:E.
  - apply String.eqb_eq in E. subst. tauto.
  - apply IH. tauto.
Qed.

(** X16.  [get_timezone_for_city] does not look at the case of the
    city, and a city outside the table is in the zone of Adelaide;
    whatever the city, the zone is one of the table. *)
Theorem timezone_ignores_case :
  forall c : string,
    get_timezone_for_city (Py.upper c) = get_timezone_for_city c
    /\ get_timezone_for_city (Py.lower c) = get_timezone_for_city c
    /\ In (get_timezone_for_city c) (map snd CITY_TIMEZONES)
    /\ (~ In (Py.title (Py.strip c)) (map fst CITY_TIMEZONES) ->
        get_timezone_for_city c = "Australia/Adelaide").
Proof.
  intro c. unfold get_timezone_for_city. cbv zeta.
  unfold Py.upper, Py.lower.
  rewrite !title_case_blind by (vm_compute; reflexivity).
  split; [reflexivity|]. split; [reflexivity|]. split.
  - destruct (assoc _ CITY_TIMEZONES) as [tz|] eqn:E;
      [exact (assoc_In _ _ _ E)|now left].
  - intro H. now rewrite (assoc_absent _ _ H).
Qed.

(** The stored timezone is the one of the stored city. *)
Definition zone_follows_city (s : Store) : Prop :=
  loc_timezone (incall_location s)
  = get_timezone_for_city (loc_city (incall_location s)).

(** X17.  The timezone kept with the incall location is always the one
    that [get_timezone_for_city] gives for the city kept with it: it is
    so in the fresh database, and every request, admin command, form,
    reminder check and dashboard update keeps it so.  The clock that
    reads "today" and "tomorrow" is therefore the clock of the current
    city. *)
Theorem timezone_follows_city :
  zone_follows_city init_db
  /\ (forall (pg : bool) (claude gemini : option Rewriter)
             (url adella : string) (clock : string -> Cal.date) (s : Store)
             (lookup : query_result (string * string)) (p body : string),
         zone_follows_city s ->
         zone_follows_city
           (store (incoming_sms pg claude gemini url adella clock s lookup p
                                body)))
  /\ (forall (s : Store) (form : BookingForm),
         zone_follows_city s -> zone_follows_city (snd (booking_form s form)))
  /\ (forall (send_sms : string -> string -> bool)
             (strptime_localize : string -> string -> option Z) (s : Store)
             (now : Z),
         zone_follows_city s ->
         zone_follows_city
           (snd (check_and_send_room_details send_sms strptime_localize s
                                             now)))
  /\ (forall (password : string) (s : Store) (form : AdminForm),
         zone_follows_city s ->
         zone_follows_city (fst (fst (admin_dashboard password s form)))).
Proof.
  split; [reflexivity|]. split; [|split; [|split]].
  - intros pg claude gemini url adella clock s lookup p body W.
    apply inv_incoming; try exact W; intros; try assumption.
    + unfold block_phone_number. now case_if.
    + unfold save_booking_progress. now destruct (progress_of x p).
    + unfold update_incall_location. destruct i; reflexivity.
  - intros s form W. exact W.
  - intros send_sms strptime_localize s now W.
    unfold zone_follows_city, check_and_send_room_details.
    destruct (send_due_only_reminders send_sms strptime_localize now
                (filter (fun r => negb (rr_sent r)) (room_detail_reminders s))
                s) as (_ & _ & _ & I4 & _).
    rewrite I4. exact W.
  - intros password s form W. unfold admin_dashboard.
    case_if; [|exact W].
    destruct (adm_city form) as [c|]; [|exact W].
    destruct (adm_address form) as [a|]; [|exact W].
    case_if; [|exact W].
    unfold update_incall_location.
    destruct (adm_intercom_number form); reflexivity.
Qed.

Lemma timezone_follows_city_witness :
  zone_follows_city init_db
  /\ zone_follows_city
       (store (incoming_sms false None None "" "" quiet_clock init_db
                            (Rows []) "+61412345729"
                            "LOCATION perth: 1 Hay St INTERCOM 12"))
  /\ loc_timezone
       (incall_location
          (store (incoming_sms false None None "" "" quiet_clock init_db
                               (Rows []) "+61412345729"
                               "LOCATION perth: 1 Hay St INTERCOM 12")))
     = "Australia/Perth".
Proof.
  split; [exact (proj1 timezone_follows_city)|].
  split; [|vm_compute; reflexivity].
  exact (proj1 (proj2 timezone_follows_city) false None None "" ""
           quiet_clock init_db (Rows []) "+61412345729" _
           (proj1 timezone_follows_city)).
Defined.

(** ** Conversations are independent *)

(** What the handler reads about an identity: its rows in five tables,
    and the incall location. *)
Definition same_view (p : string) (s1 s2 : Store) : Prop :=
  rows_of fst p (messages s1) = rows_of fst p (messages s2)
  /\ rows_of pc_phone p (pending_confirmations s1)
     = rows_of pc_phone p (pending_confirmations s2)
  /\ rows_of bp_phone p (booking_progress s1)
     = rows_of bp_phone p (booking_progress s2)
  /\ rows_of fst p (blocked_numbers s1) = rows_of fst p (blocked_numbers s2)
  /\ rows_of mt_phone p (message_tracking s1)
     = rows_of mt_phone p (message_tracking s2)
  /\ incall_location s1 = incall_location s2.

Lemma same_view_refl p s : same_view p s s.
Proof. repeat split. Qed.

Lemma same_view_trans p s1 s2 s3 :
  same_view p s1 s2 -> same_view p s2 s3 -> same_view p s1 s3.
Proof.
  intros (A1 & A2 & A3 & A4 & A5 & A6) (B1 & B2 & B3 & B4 & B5 & B6).
  repeat split; congruence.
Qed.

Section RowsOfSame.
Context {A : Type}.
Variable key : A -> string.
Variable p : string.

Lemma rows_of_map_same (g : A -> A) (l : list A) :
  (forall r, key (g r) = key r) ->
  rows_of key p (map (fun r => if String.eqb (key r) p then g r else r) l)
  = map g (rows_of key p l).
Proof.
  intro G. induction l as [|a l IH]; [reflexivity|].
  cbn [map rows_of filter]. destruct (String.eqb (key a) p) eqn:E.
  - rewrite G, E. cbn [map]. f_equal. exact IH.
  - rewrite E. exact IH.
Qed.

Lemma rows_of_removed_same (l : list A) :
  rows_of key p (filter (fun r => negb (String.eqb (key r) p)) l) = [].
Proof.
  induction l as [|a l IH]; [reflexivity|].
  cbn [filter]. destruct (String.eqb (key a) p) eqn:E; cbn [negb];
    [exact IH|]. cbn [rows_of filter]. rewrite E. exact IH.
Qed.

Lemma rows_of_cons_same (r : A) (l : list A) :
  key r = p -> rows_of key p (r :: l) = r :: rows_of key p l.
Proof.
  intro K. cbn [rows_of filter]. now rewrite K, String.eqb_refl.
Qed.

Lemma rows_of_app (l l' : list A) :
  rows_of key p (l ++ l') = (rows_of key p l ++ rows_of key p l')%list.
Proof. apply filter_app. Qed.

Lemma existsb_rows_of (l : list A) :
  existsb (fun r => String.eqb (key r) p) l
  = match rows_of key p l with [] => false | _ :: _ => true end.
Proof.
  induction l as [|a l IH]; [reflexivity|].
  cbn [existsb rows_of filter]. destruct (String.eqb (key a) p);
    [reflexivity|exact IH].
Qed.

End RowsOfSame.

Section ViewSteps.
Variable p : string.
Variables s1 s2 : Store.
Hypothesis V : same_view p s1 s2.

Lemma view_tracking : tracking_of s1 p = tracking_of s2 p.
Proof. apply V. Qed.

Lemma view_progress : progress_of s1 p = progress_of s2 p.
Proof. apply V. Qed.

Lemma view_blocked : select_blocked s1 p = select_blocked s2 p.
Proof. apply V. Qed.

Lemma view_location : incall_location s1 = incall_location s2.
Proof. apply V. Qed.

Lemma view_pending :
  get_pending_confirmation s1 p = get_pending_confirmation s2 p.
Proof.
  unfold get_pending_confirmation. rewrite !find_rows_of.
  destruct V as (_ & -> & _). reflexivity.
Qed.

Lemma view_count : get_message_count s1 p = get_message_count s2 p.
Proof.
  unfold get_message_count. destruct V as (E & _).
  unfold rows_of in E. now rewrite E.
Qed.

Ltac view_goal :=
  destruct V as (V1 & V2 & V3 & V4 & V5 & V6);
  unfold same_view;
  cbn [messages pending_confirmations booking_progress
       room_detail_reminders blocked_numbers deposit_requests
       message_tracking incall_location set_messages set_pending
       set_progress set_reminders set_blocked set_deposits set_tracking
       set_location];
  rewrite ?rows_of_app, ?rows_of_removed_same;
  repeat split; try congruence.

Lemma view_log m : same_view p (log_message s1 p m) (log_message s2 p m).
Proof. unfold log_message. view_goal. Qed.

Lemma view_block r :
  same_view p (block_phone_number s1 p r) (block_phone_number s2 p r).
Proof.
  unfold block_phone_number.
  rewrite !(existsb_rows_of fst p). destruct V as (_ & _ & _ & B & _).
  rewrite B. destruct (rows_of fst p (blocked_numbers s2)); [|exact V].
  view_goal.
Qed.

Lemma view_set_count n :
  same_view p (set_message_count s1 p n) (set_message_count s2 p n).
Proof.
  unfold set_message_count. view_goal.
  rewrite !(rows_of_map_same mt_phone p
              (fun r => mkTracking (mt_phone r) (mt_booking_id r) n
                                   (mt_enquiry_sent r)))
    by reflexivity.
  congruence.
Qed.

Lemma view_set_sent :
  same_view p (set_enquiry_sent s1 p) (set_enquiry_sent s2 p).
Proof.
  unfold set_enquiry_sent. view_goal.
  rewrite !(rows_of_map_same mt_phone p
              (fun r => mkTracking (mt_phone r) (mt_booking_id r)
                                   (mt_message_count r) true))
    by reflexivity.
  congruence.
Qed.

Lemma view_insert r :
  same_view p (insert_tracking s1 r) (insert_tracking s2 r).
Proof. unfold insert_tracking. view_goal. Qed.

Lemma view_delete_tracking :
  same_view p (delete_tracking s1 p) (delete_tracking s2 p).
Proof. unfold delete_tracking. view_goal. Qed.

Lemma view_increment_attempts :
  same_view p (fst (increment_booking_attempts s1 p))
              (fst (increment_booking_attempts s2 p)).
Proof.
  unfold increment_booking_attempts. rewrite view_tracking.
  destruct (tracking_of s2 p); cbn [fst];
    [apply view_insert|apply view_set_count].
Qed.

Lemma view_increment_post :
  same_view p (fst (increment_post_booking_messages s1 p))
              (fst (increment_post_booking_messages s2 p)).
Proof.
  unfold increment_post_booking_messages. rewrite view_tracking.
  destruct (filter _ (tracking_of s2 p)); cbn [fst];
    [apply view_insert|apply view_set_count].
Qed.

Lemma view_save_progress pg d :
  same_view p (fst (save_booking_progress pg s1 p d))
              (fst (save_booking_progress pg s2 p d))
  /\ snd (save_booking_progress pg s1 p d)
     = snd (save_booking_progress pg s2 p d).
Proof.
  unfold save_booking_progress. rewrite view_progress.
  destruct (progress_of s2 p) as [|current rest]; cbn [fst snd];
    (split; [|reflexivity]).
  - view_goal.
  - view_goal.
    match goal with
    | |- context [mkProgress _ ?m] =>
        rewrite !(rows_of_map_same bp_phone p
                    (fun r => mkProgress (bp_phone r) m)) by reflexivity
    end.
    congruence.
Qed.

Lemma view_clear :
  same_view p (clear_booking_progress s1 p) (clear_booking_progress s2 p).
Proof. unfold clear_booking_progress. view_goal. Qed.

Lemma view_delete_pending :
  same_view p (delete_pending_confirmation s1 p)
              (delete_pending_confirmation s2 p).
Proof. unfold delete_pending_confirmation. view_goal. Qed.

Lemma view_save_pending d st aw ev nm :
  same_view p (save_pending_confirmation s1 p d st aw ev nm)
              (save_pending_confirmation s2 p d st aw ev nm).
Proof.
  unfold save_pending_confirmation, delete_pending_confirmation. view_goal.
  rewrite !rows_of_cons_same, !rows_of_removed_same by reflexivity.
  reflexivity.
Qed.

Lemma view_deposit d :
  same_view p (save_deposit_request s1 p d) (save_deposit_request s2 p d).
Proof. unfold save_deposit_request. view_goal. Qed.

Lemma view_schedule n d c io a :
  same_view p (schedule_room_detail_reminder s1 p n d c io a)
              (schedule_room_detail_reminder s2 p n d c io a).
Proof. unfold schedule_room_detail_reminder. view_goal. Qed.

Lemma view_update_location c a i :
  same_view p (fst (update_incall_location s1 c a i))
              (fst (update_incall_location s2 c a i)).
Proof.
  unfold update_incall_location. destruct i; cbn [fst]; view_goal.
Qed.

End ViewSteps.

Section ViewHandlers.
Variable pg : bool.
Variable claude gemini : option Rewriter.
Variable url adella : string.
Variable clock : string -> Cal.date.
Variable p : string.

(** Two outcomes that the sender cannot tell apart. *)
Definition same_outcome (o1 o2 : Outcome) : Prop :=
  reply o1 = reply o2 /\ sms o1 = sms o2 /\ calendar o1 = calendar o2
  /\ same_view p (store o1) (store o2).

Lemma same_respond s1 s2 t :
  same_view p s1 s2 -> same_outcome (respond s1 t) (respond s2 t).
Proof. intro V. repeat split; apply V. Qed.

#[local] Hint Resolve same_respond view_log view_block view_set_count
  view_set_sent view_insert view_delete_tracking view_increment_attempts
  view_increment_post view_clear view_delete_pending view_save_pending
  view_deposit view_schedule view_update_location : core.

Lemma view_handle_yes s1 s2 m row :
  same_view p s1 s2 ->
  same_outcome (handle_yes claude gemini url s1 p m row)
               (handle_yes claude gemini url s2 p m row).
Proof.
  intro V.
  unfold handle_yes, deposit_mandatory, template, get_booking_attempts,
    get_current_incall_location.
  rewrite (view_tracking p s1 s2 V), (view_location p s1 s2 V).
  destruct (extract_name_from_yes_message m); [|auto]. cbv zeta.
  case_if; [auto|].
  destruct (format_location_for_confirmation _ _ _ _);
    [|repeat split; apply V].
  repeat split; cbn [store]; try apply view_delete_pending;
    try apply view_insert; try apply view_delete_tracking;
    try apply view_clear; try apply view_deposit.
  all: case_if; auto.
Qed.

Lemma view_handle_deposit s1 s2 row :
  same_view p s1 s2 ->
  same_outcome (handle_deposit s1 p row) (handle_deposit s2 p row).
Proof. intro V. unfold handle_deposit. auto. Qed.

Lemma view_handle_merge s1 s2 d e :
  same_view p s1 s2 ->
  same_outcome (handle_merge pg claude gemini url s1 p d e)
               (handle_merge pg claude gemini url s2 p d e).
Proof.
  intro V. unfold handle_merge. cbv zeta.
  set (merged := match e with
                 | Some existing => merge_details d existing
                 | None => d
                 end).
  assert (V' : same_view p
                 (if any_value merged
                  then fst (save_booking_progress pg s1 p merged) else s1)
                 (if any_value merged
                  then fst (save_booking_progress pg s2 p merged) else s2))
    by (case_if; [apply view_save_progress, V|exact V]).
  set (x1 := if any_value merged then _ else s1) in *.
  set (x2 := if any_value merged then _ else s2) in *.
  clearbody x1 x2.
  unfold final_block, auto_enquiry, ask_missing, template,
    get_booking_attempts, get_current_incall_location.
  rewrite (view_tracking p x1 x2 V'), (view_location p x1 x2 V').
  destruct (missing_fields merged).
  - assert (VS : same_view p
                   (set_message_count
                      (save_pending_confirmation x1 p merged
                         (Some "available") false None None) p 0)
                   (set_message_count
                      (save_pending_confirmation x2 p merged
                         (Some "available") false None None) p 0)) by auto.
    rewrite (view_location p _ _ VS). auto.
  - repeat case_if; auto.
Qed.

Lemma view_get_progress s1 s2 :
  same_view p s1 s2 ->
  get_booking_progress pg s1 p = get_booking_progress pg s2 p.
Proof.
  intro V. unfold get_booking_progress.
  now rewrite (view_progress p s1 s2 V).
Qed.

Lemma view_handle_progress s1 s2 m :
  same_view p s1 s2 ->
  same_outcome (handle_progress pg claude gemini url clock s1 p m)
               (handle_progress pg claude gemini url clock s2 p m).
Proof.
  intro V.
  unfold handle_progress, final_block, auto_enquiry, ask_missing, template,
    get_booking_attempts, get_current_timezone, get_current_incall_location.
  rewrite (view_tracking p s1 s2 V), (view_location p s1 s2 V),
    (view_get_progress s1 s2 V).
  cbv zeta.
  destruct (any_value _); [now apply view_handle_merge|].
  destruct (get_booking_progress pg s2 p) as [existing|].
  - repeat case_if; auto.
    destruct (missing_fields existing); [now apply view_handle_merge|auto].
  - repeat case_if; auto.
Qed.

Lemma view_booking_flow s1 s2 m :
  same_view p s1 s2 ->
  same_outcome (booking_flow pg claude gemini url clock s1 p m)
               (booking_flow pg claude gemini url clock s2 p m).
Proof.
  intro V. unfold booking_flow. cbv zeta.
  rewrite (view_pending p s1 s2 V).
  destruct (if says_yes m then _ else _); [now apply view_handle_yes|].
  destruct (if says_deposit m then _ else _);
    [now apply view_handle_deposit|].
  unfold check_post_booking_message_limit.
  rewrite (view_tracking p s1 s2 V).
  assert (V' : same_view p
                 match tracking_of s2 p with
                 | [] => s1
                 | _ :: _ => fst (increment_post_booking_messages s1 p)
                 end
                 match tracking_of s2 p with
                 | [] => s2
                 | _ :: _ => fst (increment_post_booking_messages s2 p)
                 end)
    by (destruct (tracking_of s2 p); auto).
  set (x1 := match tracking_of s2 p with
             | [] => s1
             | _ :: _ => fst (increment_post_booking_messages s1 p)
             end) in *.
  set (x2 := match tracking_of s2 p with
             | [] => s2
             | _ :: _ => fst (increment_post_booking_messages s2 p)
             end) in *.
  clearbody x1 x2.
  unfold template, get_current_incall_location.
  rewrite (view_count p x1 x2 V'), (view_location p x1 x2 V').
  destruct (tracking_of s2 p) as [|row rest].
  - cbn [andb]. case_if; [auto|now apply view_handle_progress].
  - case_if; [auto|]. case_if; [auto|now apply view_handle_progress].
Qed.

Lemma view_receive s1 s2 body :
  same_view p s1 s2 ->
  same_outcome (receive pg claude gemini url adella clock s1 p body)
               (receive pg claude gemini url adella clock s2 p body).
Proof.
  intro V. unfold receive, incoming_sms. cbv zeta.
  rewrite (view_blocked p s1 s2 V).
  case_if; [repeat split; apply V|].
  pose proof (view_log p s1 s2 V (Py.strip body)) as V'.
  set (x1 := log_message s1 p (Py.strip body)) in *.
  set (x2 := log_message s2 p (Py.strip body)) in *.
  clearbody x1 x2.
  case_if; [repeat split; apply V'|].
  unfold template, get_current_incall_location.
  rewrite (view_location p x1 x2 V').
  case_if; [auto|].
  case_if.
  { assert (VS : same_view p
                   (delete_tracking (delete_pending_confirmation x1 p) p)
                   (delete_tracking (delete_pending_confirmation x2 p) p))
      by auto.
    rewrite (view_location p _ _ VS). auto. }
  case_if; [|now apply view_booking_flow].
  destruct (parse_location_command _ _) as [[c address] intercom].
  pose proof (view_update_location p x1 x2 V' c address intercom) as VU.
  unfold update_incall_location in *.
  destruct intercom; cbn [fst] in VU; auto.
Qed.

End ViewHandlers.

(** The messages of one identity among the requests, and the replies
    that go to it. *)
Definition thread (p : string) (requests : list (string * string))
  : list string :=
  map snd (filter (fun r => String.eqb (fst r) p) requests).

Definition answers_to (p : string) (answers : list (string * option string))
  : list (option string) :=
  map snd (filter (fun a => String.eqb (fst a) p) answers).

Section Independence.
Variable pg : bool.
Variable claude gemini : option Rewriter.
Variable url adella : string.
Variable clock : string -> Cal.date.
Variable p : string.

(** A request of another sender that is no admin command leaves the view
    of [p] as it was. *)
Lemma other_request_same_view s q body :
  q <> p -> is_admin_location q (Py.strip body) = false ->
  same_view p (store (receive pg claude gemini url adella clock s q body)) s.
Proof.
  intros N Adm. unfold receive.
  pose proof (incoming_untouched pg claude gemini url adella clock s
                (Rows (select_blocked s q)) q p body
                (fun E => N (eq_sym E))) as (U1 & U2 & U3 & _ & U5 & _ & U7).
  pose proof (incoming_location_kept pg claude gemini url adella clock s
                (Rows (select_blocked s q)) q body Adm) as L.
  repeat split; assumption.
Qed.

Lemma serve_thread :
  forall requests s1 s2,
    same_view p s1 s2 ->
    (forall q body, In (q, body) requests -> q <> p ->
                    is_admin_location q (Py.strip body) = false) ->
    answers_to p (fst (serve pg claude gemini url adella clock s1 requests))
    = fst (converse pg claude gemini url adella clock s2 p
                    (thread p requests))
    /\ same_view p
         (snd (serve pg claude gemini url adella clock s1 requests))
         (snd (converse pg claude gemini url adella clock s2 p
                        (thread p requests))).
Proof.
  induction requests as [|[q body] rest IH]; intros s1 s2 V H.
  - split; [reflexivity|exact V].
  - assert (Hrest : forall q' b, In (q', b) rest -> q' <> p ->
                      is_admin_location q' (Py.strip b) = false)
      by (intros q' b I; apply H; now right).
    cbn [serve]. unfold thread. cbn [filter fst].
    destruct (String.eqb q p) eqn:E.
    + apply String.eqb_eq in E. subst q. cbn [map snd converse].
      destruct (view_receive pg claude gemini url adella clock p s1 s2 body
                  V) as (R & _ & _ & V').
      destruct (IH _ _ V' Hrest) as [IH1 IH2].
      fold (thread p rest) in *.
      destruct (serve _ _ _ _ _ _ (store _) rest) as [answers s1'].
      destruct (converse _ _ _ _ _ _ (store _) p (thread p rest))
        as [replies s2'].
      cbn [fst snd] in *. unfold answers_to in *. cbn [filter fst].
      rewrite String.eqb_refl. cbn [map snd]. rewrite IH1, R.
      split; [reflexivity|exact IH2].
    + apply String.eqb_neq in E.
      assert (V' : same_view p
                     (store (receive pg claude gemini url adella clock s1 q
                                     body)) s2).
      { apply (same_view_trans p _ s1); [|exact V].
        apply other_request_same_view; [exact E|].
        apply H; [now left|exact E]. }
      destruct (IH _ _ V' Hrest) as [IH1 IH2].
      fold (thread p rest) in *.
      destruct (serve _ _ _ _ _ _ (store _) rest) as [answers s1'].
      cbn [fst snd] in *. unfold answers_to in *. cbn [filter fst].
      apply String.eqb_neq in E. rewrite E.
      split; [exact IH1|exact IH2].
Qed.

End Independence.

(** X18.  Conversations are independent.  When requests of any senders
    are served one after the other, the replies that go to one identity
    are the replies it would get if its messages were the only ones, as
    long as none of the other requests is the LOCATION command of an
    authorized admin number; and what the program knows about that
    identity at the end is the same. *)
Theorem conversations_are_independent :
  forall (pg : bool) (claude gemini : option Rewriter) (url adella : string)
         (clock : string -> Cal.date) (s : Store)
         (requests : list (string * string)) (p : string),
    (forall q body, In (q, body) requests -> q <> p ->
                    is_admin_location q (Py.strip body) = false) ->
    answers_to p (fst (serve pg claude gemini url adella clock s requests))
    = fst (converse pg claude gemini url adella clock s p (thread p requests))
    /\ same_view p
         (snd (serve pg claude gemini url adella clock s requests))
         (snd (converse pg claude gemini url adella clock s p
                        (thread p requests))).
Proof.
  intros pg claude gemini url adella clock s requests p H.
  apply serve_thread; [apply same_view_refl|exact H].
Qed.

Definition mixed_requests : list (string * string) :=
  [(stranger, "hi"); ("+61400000002", "hello there");
   (stranger, "Sydney friday 7pm"); ("+61400000002", "ENQUIRY rates?");
   ("+61400000002", "cancel"); (stranger, "2 hours GFE incall")].

Lemma conversations_are_independent_witness :
  (forall q body, In (q, body) mixed_requests -> q <> stranger ->
                  is_admin_location q (Py.strip body) = false)
  /\ answers_to stranger
       (fst (serve true None None "http://localhost:5000" "+61412345729"
                   quiet_clock init_db mixed_requests))
     = fst (converse true None None "http://localhost:5000" "+61412345729"
                     quiet_clock init_db stranger
                     ["hi"; "Sydney friday 7pm"; "2 hours GFE incall"]).
Proof.
  assert (H : forall q body, In (q, body) mixed_requests -> q <> stranger ->
                is_admin_location q (Py.strip body) = false).
  { unfold mixed_requests. cbn [In].
    intros q body [E|[E|[E|[E|[E|[E|[]]]]]]] N; injection E as <- <-;
      try (exfalso; apply N; reflexivity); vm_compute; reflexivity. }
  split; [exact H|].
  exact (proj1 (conversations_are_independent true None None
                  "http://localhost:5000" "+61412345729" quiet_clock init_db
                  mixed_requests stranger H)).
Defined.

(** ** Whole words *)











(** ** The questions for the missing fields *)

(** The label the program asks a field with. *)
Definition label_of (key : string) : string :=
  match assoc key question_labels with
  | Some l => l
  | None => ""
  end.

Lemma in_filter_keys {B} (f : string * B -> bool) (l : list (string * B))
    (key : string) (v : B) :
  NoDup (map fst l) -> In (key, v) l ->
  (In key (map fst (filter f l)) <-> f (key, v) = true).
Proof.
  intros N I. split.
  - intro H. apply in_map_iff in H. destruct H as ([k v'] & K & H).
    cbn [fst] in K. subst k. apply filter_In in H. destruct H as [I' F].
    replace v with v'; [exact F|].
    clear F. induction l as [|[k0 v0] l IH]; [destruct I|].
    cbn [map fst] in N. inversion N as [|? ? Nk Nl]; subst.
    destruct I as [E|I], I' as [E'|I'].
    + congruence.
    + injection E as <- <-. exfalso. apply Nk.
      apply in_map_iff. exists (k0, v'). auto.
    + injection E' as <- <-. exfalso. apply Nk.
      apply in_map_iff. exists (k0, v). auto.
    + auto.
  - intro F. apply in_map_iff. exists (key, v). split; [reflexivity|].
    apply filter_In. auto.
Qed.

Lemma required_keys : map fst required
                      = ["city"; "date"; "time"; "duration";
                         "experience_type"; "incall_outcall"].
Proof. reflexivity. Qed.

Lemma questions_are_labels (d : Details) :
  missing_questions (missing_fields d) = map label_of (missing_fields d).
Proof.
  unfold missing_fields, required. cbn [filter snd].
  destruct (Py.truthy (city d)), (Py.truthy (date d)),
    (Py.truthy (time d)), (Py.truthy (duration d)),
    (Py.truthy (experience_type d)), (Py.truthy (incall_outcall d)),
    (Py.opt_eqb (incall_outcall d) "Outcall"
     && negb (Py.truthy (outcall_address d))); reflexivity.
Qed.

(** X20.  [missing_fields] lists a required field exactly when its value
    is absent or empty, and the address exactly for an Outcall without
    one; the questions asked are the labels of the missing fields, in
    the order of the fields, so that a reply that asks is never without
    a question. *)
Theorem asks_for_what_is_missing :
  forall d : Details,
    (forall key get, In (key, get) required ->
        (In key (missing_fields d) <-> Py.truthy (get d) = false))
    /\ (In "outcall_address" (missing_fields d) <->
        Py.opt_eqb (incall_outcall d) "Outcall" = true
        /\ Py.truthy (outcall_address d) = false)
    /\ missing_questions (missing_fields d)
       = map label_of (missing_fields d)
    /\ (missing_fields d = [] <-> missing_questions (missing_fields d) = []).
Proof.
  intro d.
  assert (ND : NoDup (map fst required)).
  { rewrite required_keys. repeat constructor; cbn [In]; intro H;
      repeat (destruct H as [H|H]; try discriminate H); exact H. }
  assert (Other : forall f,
             ~ In "outcall_address" (map fst (filter f required))).
  { intros f H. apply in_map_iff in H. destruct H as (x & K & H).
    apply filter_In in H. destruct H as [H _].
    assert (I : In (fst x) (map fst required)) by (now apply in_map).
    rewrite K, required_keys in I. cbn [In] in I.
    repeat (destruct I as [I|I]; try discriminate I). exact I. }
  split; [|split; [|split]].
  - intros key get I. unfold missing_fields. rewrite in_app_iff.
    rewrite (in_filter_keys _ required key get ND I). cbn [snd].
    rewrite negb_true_iff. split; [|now left].
    intros [H|H]; [exact H|]. exfalso.
    assert (K : In key (map fst required))
      by (apply in_map_iff; exists (key, get); auto).
    rewrite required_keys in K.
    destruct (_ && _); cbn [In] in H; [|exact H].
    destruct H as [<-|[]]. cbn [In] in K.
    repeat (destruct K as [K|K]; try discriminate K). exact K.
  - unfold missing_fields. rewrite in_app_iff. split.
    + intros [H|H]; [destruct (Other _ H)|].
      destruct (Py.opt_eqb _ _), (Py.truthy (outcall_address d));
        cbn [andb negb In] in H; try contradiction. auto.
    + intros [-> ->]. right. now left.
  - apply questions_are_labels.
  - rewrite questions_are_labels. split; [now intros ->|].
    apply map_eq_nil.
Qed.

(** ** Messages without booking details *)

Definition no_digit (s : string) : bool :=
  forallb (fun c => negb (Py.is_digit c)) (list_ascii_of_string s).

(** Every word of the pattern begins with a digit. *)
Definition digit_first (r : Re.regex) : Prop :=
  forall w, lang r w -> exists c t, w = String c t /\ Py.is_digit c = true.

Lemma digit_first_cls : digit_first Re.digit.
Proof.
  intros w H. apply lang_cls_inv in H. destruct H as (c & -> & D). eauto.
Qed.

Lemma digit_first_cat r1 r2 : digit_first r1 -> digit_first (Re.Cat r1 r2).
Proof.
  intros H w L. apply lang_cat_inv in L. destruct L as (w1 & w2 & -> & L1 & _).
  destruct (H w1 L1) as (c & t & -> & D). cbn [append]. eauto.
Qed.

Lemma digit_first_grp n r : digit_first r -> digit_first (Re.Grp n r).
Proof. intros H w L. apply lang_grp_inv in L. auto. Qed.

Lemma list_ascii_app (a b : string) :
  list_ascii_of_string (a ++ b)
  = (list_ascii_of_string a ++ list_ascii_of_string b)%list.
Proof. induction a as [|x a IH]; cbn; [reflexivity|now rewrite IH]. Qed.

Lemma no_digit_no_match (r : Re.regex) (s : string) :
  digit_first r -> no_digit s = true -> Re.search r s = None.
Proof.
  intros F N. destruct (Re.search r s) as [f|] eqn:S; [|reflexivity].
  exfalso. apply search_sound in S. destruct S as (pre & E & L & _).
  destruct (F _ L) as (c & t & Ew & D). rewrite Ew in E. subst s.
  unfold no_digit in N. rewrite list_ascii_app, forallb_app in N.
  apply andb_prop in N. destruct N as [_ N]. cbn in N.
  rewrite D in N. discriminate N.
Qed.

Lemma no_digit_lower (s : string) : no_digit (Py.lower s) = no_digit s.
Proof.
  unfold no_digit, Py.lower. induction s as [|c s IH]; [reflexivity|].
  cbn [Py.smap list_ascii_of_string forallb]. rewrite IH. f_equal. f_equal.
  apply Bool.eqb_prop.
  apply (all_ascii
           (fun c => Bool.eqb (Py.is_digit (Py.lower_char c))
                              (Py.is_digit c))).
  vm_compute. reflexivity.
Qed.

(** The words the extractor looks for. *)
Definition detail_keywords : list string :=
  (map (fun c => Py.lower (fst c)) CITY_TIMEZONES ++ map fst weekdays
   ++ ["today"; "tomorrow"; "gfe"; "girlfriend"; "pse"; "porn star";
       "incall"; "outcall"])%list.

Definition no_keyword (msg : string) : bool :=
  negb (existsb (fun k => Py.contains k (Py.lower msg)) detail_keywords).

Lemma find_none_iff {A} (f : A -> bool) (l : list A) :
  find f l = None <-> existsb f l = false.
Proof.
  induction l as [|a l IH]; cbn; [tauto|].
  destruct (f a); cbn; [split; discriminate|exact IH].
Qed.

(** X21.  A message without a digit and without any of the words the
    extractor looks for (a city of the table, a weekday, today,
    tomorrow, gfe, girlfriend, pse, porn star, incall, outcall; in any
    case) yields no booking detail at all; and a message that yields
    none holds none of these words. *)
Theorem message_without_details :
  forall (today : Cal.date) (msg : string),
    (no_digit msg = true -> no_keyword msg = true ->
     extract_booking_details today msg = no_details)
    /\ (any_value (extract_booking_details today msg) = false ->
        no_keyword msg = true).
Proof.
  intros today msg. split.
  - intros D K. unfold no_keyword in K. apply negb_true_iff in K.
    unfold detail_keywords in K. rewrite !existsb_app in K.
    apply orb_false_elim in K. destruct K as [Kc K].
    apply orb_false_elim in K. destruct K as [Kw K].
    cbn [existsb] in K.
    repeat (apply orb_false_elim in K; destruct K as [? K]).
    pose proof D as Dl. rewrite <- no_digit_lower in Dl.
    unfold extract_booking_details, parse_date_from_message,
      parse_time_from_message, parse_time_with, time_patterns.
    cbn [fold_left]. cbv zeta.
    rewrite (no_digit_no_match date_pattern msg),
      (no_digit_no_match duration_pattern (Py.lower msg)),
      (no_digit_no_match address_pattern msg); auto;
      try (unfold date_pattern, duration_pattern, address_pattern, d12,
             Re.Plus;
           repeat (apply digit_first_cat || apply digit_first_grp);
           apply digit_first_cls).
    rewrite !no_digit_no_match; auto;
      try (unfold d12; repeat (apply digit_first_cat || apply digit_first_grp);
           apply digit_first_cls).
    assert (C : find (fun c => Py.contains (Py.lower c) (Py.lower msg))
                     (map fst CITY_TIMEZONES) = None).
    { apply find_none_iff. unfold CITY_TIMEZONES in *.
      cbn [map fst existsb] in *. exact Kc. }
    assert (W : find (fun dn => Py.contains (fst dn) (Py.lower msg)) weekdays
                = None).
    { apply find_none_iff. unfold weekdays in *.
      cbn [map fst existsb] in *. exact Kw. }
    rewrite C, W.
    repeat match goal with
           | X : Py.contains _ (Py.lower msg) = false |- _ => rewrite X
           end.
    reflexivity.
  - intro N. unfold any_value, values, extract_booking_details in N.
    cbn [existsb city date experience_type incall_outcall] in N.
    apply orb_false_elim in N. destruct N as [Nc N].
    apply orb_false_elim in N. destruct N as [Nd N].
    apply orb_false_elim in N. destruct N as [_ N].
    apply orb_false_elim in N. destruct N as [_ N].
    apply orb_false_elim in N. destruct N as [Ne N].
    apply orb_false_elim in N. destruct N as [Nio _].
    assert (C : existsb (fun k => Py.contains k (Py.lower msg))
                  (map (fun c => Py.lower (fst c)) CITY_TIMEZONES) = false).
    { destruct (find _ (map fst CITY_TIMEZONES)) as [c|] eqn:F.
      - exfalso. apply find_some in F. destruct F as [I _].
        unfold CITY_TIMEZONES in I. cbn [map fst In] in I.
        repeat (destruct I as [<-|I]; [discriminate Nc|]). exact I.
      - apply find_none_iff in F. unfold CITY_TIMEZONES in *.
        cbn [map fst existsb] in *. exact F. }
    assert (P : parse_date_from_message today msg = None).
    { destruct (parse_date_from_message today msg) as [d|]; [|reflexivity].
      exfalso. cbn [option_map] in Nd. unfold Cal.strftime in Nd.
      destruct (nth _ Cal.day_names ""); discriminate Nd. }
    assert (B : find (fun dn => Py.contains (fst dn) (Py.lower msg)) weekdays
                = None
                /\ Py.contains "today" (Py.lower msg) = false
                /\ Py.contains "tomorrow" (Py.lower msg) = false).
    { unfold parse_date_from_message in P. cbv zeta in P.
      assert (Q : forall x : option Cal.date,
                 match find (fun dn => Py.contains (fst dn) (Py.lower msg))
                            weekdays with
                 | Some (_, day_num) =>
                     Some (Cal.add_days today
                             (if (day_num - Cal.weekday today <=? 0)%Z
                              then (day_num - Cal.weekday today + 7)%Z
                              else (day_num - Cal.weekday today)%Z))
                 | None =>
                     if Py.contains "today" (Py.lower msg) then Some today
                     else if Py.contains "tomorrow" (Py.lower msg)
                          then Some (Cal.add_days today 1) else None
                 end = None ->
                 find (fun dn => Py.contains (fst dn) (Py.lower msg)) weekdays
                 = None
                 /\ Py.contains "today" (Py.lower msg) = false
                 /\ Py.contains "tomorrow" (Py.lower msg) = false).
      { intros _. destruct (find _ weekdays) as [[nm n]|];
          [discriminate|].
        destruct (Py.contains "today" _); [discriminate|].
        destruct (Py.contains "tomorrow" _); [discriminate|]. auto. }
      destruct (Re.search date_pattern msg) as [m|]; [|exact (Q None P)].
      destruct (Cal.valid _ _ _); [discriminate P|exact (Q None P)]. }
    destruct B as (Bw & Bt & Bm).
    apply find_none_iff in Bw.
    assert (W : existsb (fun k => Py.contains k (Py.lower msg))
                  (map fst weekdays) = false)
      by (unfold weekdays in *; cbn [map fst existsb] in *; exact Bw).
    unfold no_keyword. apply negb_true_iff.
    unfold detail_keywords. rewrite !existsb_app, C, W. cbn [orb existsb].
    rewrite Bt, Bm. cbn [orb].
    destruct (Py.contains "gfe" _); [discriminate Ne|].
    destruct (Py.contains "girlfriend" _); [discriminate Ne|].
    destruct (Py.contains "pse" _); [discriminate Ne|].
    destruct (Py.contains "porn star" _); [discriminate Ne|].
    destruct (Py.contains "incall" _); [discriminate Nio|].
    destruct (Py.contains "outcall" _); [discriminate Nio|].
    reflexivity.
Qed.

Lemma message_without_details_witness :
  no_digit "Hey, are you free later?" = true
  /\ no_keyword "Hey, are you free later?" = true
  /\ extract_booking_details (Cal.Date 2026 11 4) "Hey, are you free later?"
     = no_details.
Proof.
  assert (D : no_digit "Hey, are you free later?" = true) by reflexivity.
  assert (K : no_keyword "Hey, are you free later?" = true)
    by (vm_compute; reflexivity).
  split; [exact D|]. split; [exact K|].
  exact (proj1 (message_without_details (Cal.Date 2026 11 4) _) D K).
Defined.


(** ** The LOCATION command *)

Lemma lang_liti_inv (x w : string) :
  lang (Re.LitI x) w -> Py.lower w = Py.lower x.
Proof.
  revert w. induction x as [|c x IH]; intros w H; cbn [Re.LitI] in H.
  - apply lang_eps_inv in H. now subst.
  - apply lang_cat_inv in H. destruct H as (w1 & w2 & -> & L1 & L2).
    apply lang_cls_inv in L1. destruct L1 as (c' & -> & E).
    apply Ascii.eqb_eq in E. unfold Py.lower in *. cbn [append Py.smap].
    now rewrite E, (IH _ L2).
Qed.

(** No INTERCOM part is found where the word does not stand. *)
Lemma no_intercom (data : string) :
  Py.contains "intercom" (Py.lower data) = false ->
  Re.search intercom_pattern data = None.
Proof.
  intro N. destruct (Re.search intercom_pattern data) as [f|] eqn:S;
    [|reflexivity].
  exfalso. apply search_sound in S. destruct S as (pre & E & L & _).
  unfold intercom_pattern in L. apply lang_cat_inv in L.
  destruct L as (w1 & w2 & Ew & L1 & _). apply lang_liti_inv in L1.
  rewrite E, Ew, !lower_app, L1, sapp_assoc in N.
  change (Py.lower "INTERCOM") with "intercom" in N.
  rewrite contains_middle in N. discriminate N.
Qed.

Lemma location_is_no_enquiry (admin m : string) :
  is_admin_location admin m = true -> is_enquiry m = false.
Proof.
  unfold is_admin_location, is_enquiry, Py.startswith. intro H.
  apply andb_prop in H. destruct H as [_ H].
  destruct m as [|c m]; [discriminate H|].
  cbn [String.prefix] in H. destruct (ascii_dec "L" c) as [<-|]; [|discriminate H].
  reflexivity.
Qed.

(** X22.  The LOCATION command of an authorized admin number that does
    not hold the word INTERCOM (in any case) keeps the intercom number.
    With a colon it sets the city, in title case, to what stands before
    the first colon and the address to what stands after; without a
    colon it keeps the city and takes the whole text as the address.
    The timezone is set to the one of the city, and the reply repeats
    the three. *)
Theorem location_command_without_intercom :
  forall (pg : bool) (claude gemini : option Rewriter) (url adella : string)
         (clock : string -> Cal.date) (s : Store)
         (lookup : query_result (string * string)) (admin body : string),
    let m := Py.strip body in
    let data := Py.strip (Py.drop 9 m) in
    is_number_blocked lookup = false ->
    is_admin_location admin m = true ->
    is_unsafe m = false -> is_cancellation m = false ->
    Py.contains "intercom" (Py.lower data) = false ->
    let o := incoming_sms pg claude gemini url adella clock s lookup admin
                          body in
    let new := incall_location (store o) in
    loc_intercom_number new = loc_intercom_number (incall_location s)
    /\ loc_timezone new = get_timezone_for_city (loc_city new)
    /\ (loc_city new, loc_address new)
       = (if Py.contains ":" data
          then (Py.title (Py.strip (fst (split_colon data))),
                Py.strip (snd (split_colon data)))
          else (loc_city (incall_location s), data))
    /\ reply o = Some ("✅ Location updated!" ++ Py.nl ++ Py.nl ++ "City: "
                       ++ loc_city new ++ Py.nl ++ "Address: "
                       ++ loc_address new ++ Py.nl ++ "Timezone: "
                       ++ loc_timezone new).
Proof.
  intros pg claude gemini url adella clock s lookup admin body m data
    B A U C N o new.
  subst new o. unfold incoming_sms. cbv zeta. fold m.
  rewrite B, (location_is_no_enquiry admin m A), U, C, A.
  unfold parse_location_command. cbv zeta. fold data.
  rewrite (no_intercom data N). cbn [Py.truthy].
  unfold get_current_incall_location.
  cbn [incall_location log_message set_messages].
  destruct (Py.contains ":" data).
  - destruct (split_colon data) as [a b]. cbn. auto.
  - cbn. auto.
Qed.

Lemma location_command_without_intercom_witness :
  let body := "LOCATION perth: 1 Hay St" in
  is_number_blocked (@Rows (string * string) []) = false
  /\ is_admin_location "+61412345729" (Py.strip body) = true
  /\ is_unsafe (Py.strip body) = false
  /\ is_cancellation (Py.strip body) = false
  /\ Py.contains "intercom" (Py.lower (Py.strip (Py.drop 9 (Py.strip body))))
     = false
  /\ loc_intercom_number
       (incall_location
          (store (incoming_sms false None None "" "" quiet_clock init_db
                               (Rows []) "+61412345729" body)))
     = loc_intercom_number (incall_location init_db).
Proof.
  cbv zeta.
  assert (B : is_number_blocked (@Rows (string * string) []) = false)
    by reflexivity.
  assert (A : is_admin_location "+61412345729"
                (Py.strip "LOCATION perth: 1 Hay St") = true)
    by (vm_compute; reflexivity).
  assert (U : is_unsafe (Py.strip "LOCATION perth: 1 Hay St") = false)
    by (vm_compute; reflexivity).
  assert (C : is_cancellation (Py.strip "LOCATION perth: 1 Hay St") = false)
    by (vm_compute; reflexivity).
  assert (N : Py.contains "intercom"
                (Py.lower (Py.strip (Py.drop 9
                   (Py.strip "LOCATION perth: 1 Hay St")))) = false)
    by (vm_compute; reflexivity).
  split; [exact B|]. split; [exact A|]. split; [exact U|].
  split; [exact C|]. split; [exact N|].
  exact (proj1 (location_command_without_intercom false None None "" ""
                  quiet_clock init_db (Rows []) "+61412345729"
                  "LOCATION perth: 1 Hay St" B A U C N)).
Defined.

(** ** With PostgreSQL a detail once given is kept *)

(** The fields of the booking progress. *)
Definition detail_fields : list (Details -> option string) :=
  [city; date; time; duration; experience_type; incall_outcall;
   outcall_address].

Lemma merged_field (get : Details -> option string) (new old : Details) :
  In get detail_fields ->
  Py.truthy (get old) = true ->
  Py.truthy
    (get {| city := Py.por (city new) (city old);
            date := Py.por (date new) (date old);
            time := Py.por (time new) (time old);
            duration := Py.por (duration new) (duration old);
            experience_type :=
              Py.por (experience_type new) (experience_type old);
            incall_outcall :=
              Py.por (incall_outcall new) (incall_outcall old);
            outcall_address :=
              Py.por (outcall_address new) (outcall_address old) |}) = true.
Proof.
  unfold detail_fields. cbn [In]. intros G T.
  repeat (destruct G as [<-|G];
          [cbn; unfold Py.por; now case_if|]).
  destruct G.
Qed.

Section DetailsKept.
Variable claude gemini : option Rewriter.
Variable url adella : string.
Variable clock : string -> Cal.date.
Variable p : string.
Variable get : Details -> option string.
Hypothesis get_field : In get detail_fields.

(** The stored progress of [p] has a value for the field. *)
Definition has_field (s : Store) : Prop :=
  exists row rest,
    progress_of s p = row :: rest /\ Py.truthy (get (bp_details row)) = true.

Lemma has_field_step x x' :
  progress_of x' p = progress_of x p -> has_field x -> has_field x'.
Proof. unfold has_field. now intros ->. Qed.

Lemma has_field_save x d :
  has_field x -> has_field (fst (save_booking_progress true x p d)).
Proof.
  intros (row & rest & E & T). unfold save_booking_progress. rewrite E.
  cbn [fst].
  destruct (rows_of_first_update bp_phone p
              (fun r => mkProgress (bp_phone r)
                 {| city := Py.por (city d) (city (bp_details row));
                    date := Py.por (date d) (date (bp_details row));
                    time := Py.por (time d) (time (bp_details row));
                    duration :=
                      Py.por (duration d) (duration (bp_details row));
                    experience_type :=
                      Py.por (experience_type d)
                             (experience_type (bp_details row));
                    incall_outcall :=
                      Py.por (incall_outcall d)
                             (incall_outcall (bp_details row));
                    outcall_address :=
                      Py.por (outcall_address d)
                             (outcall_address (bp_details row)) |})
              (booking_progress x) row rest (fun _ => eq_refl) E)
    as [rest' R].
  exists (mkProgress (bp_phone row)
            {| city := Py.por (city d) (city (bp_details row));
               date := Py.por (date d) (date (bp_details row));
               time := Py.por (time d) (time (bp_details row));
               duration := Py.por (duration d) (duration (bp_details row));
               experience_type :=
                 Py.por (experience_type d)
                        (experience_type (bp_details row));
               incall_outcall :=
                 Py.por (incall_outcall d) (incall_outcall (bp_details row));
               outcall_address :=
                 Py.por (outcall_address d)
                        (outcall_address (bp_details row)) |}), rest'.
  split; [exact R|]. cbn [bp_details]. now apply merged_field.
Qed.

Lemma has_field_block x r :
  has_field x -> has_field (block_phone_number x p r).
Proof. unfold block_phone_number. now case_if. Qed.

Lemma has_field_increment x :
  has_field x -> has_field (fst (increment_booking_attempts x p)).
Proof.
  unfold increment_booking_attempts. now destruct (tracking_of x p).
Qed.

Lemma has_field_increment_post x :
  has_field x -> has_field (fst (increment_post_booking_messages x p)).
Proof.
  unfold increment_post_booking_messages.
  now destruct (filter _ (tracking_of x p)).
Qed.

Lemma has_field_merge s d e :
  has_field s ->
  has_field (store (handle_merge true claude gemini url s p d e)).
Proof.
  intro W. unfold handle_merge, final_block, auto_enquiry, ask_missing.
  cbv zeta.
  set (merged := match e with
                 | Some existing => merge_details d existing
                 | None => d
                 end).
  assert (W1 : has_field
                 (if any_value merged
                  then fst (save_booking_progress true s p merged) else s))
    by (case_if; [now apply has_field_save|exact W]).
  set (s1 := if any_value merged then _ else s) in *. clearbody s1.
  destruct (missing_fields merged).
  - cbn [store respond]. eapply has_field_step; [|exact W1]. reflexivity.
  - repeat case_if; cbn [store respond];
      auto using has_field_block, has_field_increment.
Qed.

Lemma has_field_progress s m :
  has_field s ->
  has_field (store (handle_progress true claude gemini url clock s p m)).
Proof.
  intro W. unfold handle_progress, final_block, auto_enquiry, ask_missing.
  cbv zeta.
  destruct (any_value _); [now apply has_field_merge|].
  destruct (get_booking_progress true s p) as [existing|].
  - repeat case_if; cbn [store respond];
      auto using has_field_block, has_field_increment.
    destruct (missing_fields existing);
      [now apply has_field_merge
      |cbn [store respond]; auto using has_field_increment].
  - repeat case_if; cbn [store respond];
      auto using has_field_block, has_field_increment.
Qed.

(** The request keeps the field, or it has confirmed the booking. *)
Definition kept_or_confirmed (o : Outcome) : Prop :=
  has_field (store o)
  \/ (progress_of (store o) p = [] /\ calendar o <> []).

Lemma cleared x :
  progress_of (clear_booking_progress x p) p = [].
Proof.
  unfold progress_of, clear_booking_progress.
  cbn [booking_progress set_progress].
  apply (rows_of_removed_same bp_phone p).
Qed.

Lemma has_field_yes s m row :
  has_field s ->
  kept_or_confirmed (handle_yes claude gemini url s p m row).
Proof.
  intro W. unfold handle_yes.
  destruct (extract_name_from_yes_message m); [|now left]. cbv zeta.
  case_if; [now left|].
  destruct (format_location_for_confirmation _ _ _ _); [|now left].
  right. cbn [store calendar]. split; [|discriminate].
  match goal with
  | |- progress_of (delete_pending_confirmation
                      (insert_tracking
                         (delete_tracking (clear_booking_progress ?x p) p)
                         _) p) p = [] =>
      exact (cleared x)
  end.
Qed.

Lemma has_field_flow s m :
  has_field s ->
  kept_or_confirmed (booking_flow true claude gemini url clock s p m).
Proof.
  intro W. unfold booking_flow. cbv zeta.
  destruct (if says_yes m then _ else _); [now apply has_field_yes|].
  destruct (if says_deposit m then _ else _); [now left|].
  destruct (check_post_booking_message_limit s p) as [limit sent].
  case_if; [now left|].
  assert (W1 : has_field
                 match tracking_of s p with
                 | [] => s
                 | _ :: _ => fst (increment_post_booking_messages s p)
                 end)
    by (destruct (tracking_of s p);
        [exact W|now apply has_field_increment_post]).
  case_if; [now left|]. left. now apply has_field_progress.
Qed.

End DetailsKept.

(** X23.  With PostgreSQL, a booking detail that is stored for a sender
    stays stored, with the same or a newer value, through every request
    of that sender, whatever it says (a cancellation included), until a
    request confirms the booking: then the progress is cleared and a
    calendar event is requested. *)
Theorem postgres_details_persist :
  forall (claude gemini : option Rewriter) (url adella : string)
         (clock : string -> Cal.date) (s : Store)
         (lookup : query_result (string * string)) (p body : string)
         (get : Details -> option string) (old : Details),
    In get detail_fields ->
    get_booking_progress true s p = Some old ->
    Py.truthy (get old) = true ->
    let o := incoming_sms true claude gemini url adella clock s lookup p
                          body in
    (exists new, get_booking_progress true (store o) p = Some new
                 /\ Py.truthy (get new) = true)
    \/ (get_booking_progress true (store o) p = None /\ calendar o <> []).
Proof.
  intros claude gemini url adella clock s lookup p body get old F G T o.
  assert (W : has_field p get s).
  { unfold get_booking_progress in G. unfold has_field.
    destruct (progress_of s p) as [|row rest]; [discriminate G|].
    injection G as <-. eauto. }
  assert (K : kept_or_confirmed p get o).
  { subst o. unfold incoming_sms. cbv zeta.
    case_if; [now left|].
    case_if; [now left|].
    case_if; [now left|].
    case_if; [now left|].
    case_if; [|apply has_field_flow; [exact F|exact W]].
    destruct (parse_location_command _ _) as [[c address] intercom].
    unfold update_incall_location. destruct intercom; now left. }
  unfold get_booking_progress.
  destruct K as [(row & rest & E & T')|[E C]]; rewrite E.
  - left. eauto.
  - right. auto.
Qed.

Lemma postgres_details_persist_witness :
  let s := snd (converse true None None "" "" quiet_clock init_db stranger
                         ["hi"; "friday 7pm"]) in
  let o := incoming_sms true None None "" "" quiet_clock s (Rows []) stranger
                        "sorry, I have to cancel" in
  In date detail_fields
  /\ get_booking_progress true s stranger
     = Some (mkDetails None (Some "Friday 06/11/2026") (Some "7:00PM") None
                       None None None)
  /\ ((exists new, get_booking_progress true (store o) stranger = Some new
                   /\ Py.truthy (date new) = true)
      \/ (get_booking_progress true (store o) stranger = None
          /\ calendar o <> [])).
Proof.
  cbv zeta.
  assert (F : In date detail_fields) by (cbn; tauto).
  assert (G : get_booking_progress true
                (snd (converse true None None "" "" quiet_clock init_db
                               stranger ["hi"; "friday 7pm"])) stranger
              = Some (mkDetails None (Some "Friday 06/11/2026")
                                (Some "7:00PM") None None None None))
    by (vm_compute; reflexivity).
  split; [exact F|]. split; [exact G|].
  exact (postgres_details_persist None None "" "" quiet_clock _ (Rows [])
           stranger "sorry, I have to cancel" date _ F G eq_refl).
Defined.

(** ** The name taken from a YES message *)







